(** * createicns / readicns: the icns container codec

    A shallow embedding of [createicns.c] (iconset directory to .icns
    container) and [readicns.c] (.icns container to iconset directory),
    together with the properties of the codec.

    Conventions of the embedding:
    - a [uint32_t] is a [Z] kept in [0, 2^32); every conversion to
      [uint32_t] that the C code performs is written out as [to_uint32];
      [long] and [size_t] are 64-bit (LP64, the platforms that provide
      [basename_r] and [strlcpy]) and are plain [Z] or [nat];
    - file contents are [list byte]; C strings are [string] (the characters
      before the terminating NUL);
    - a stdio stream is a record with its data, its position and its
      end-of-file indicator;
    - what [fopen] opens for reading is a file that is read to its end
      without an error, or something that cannot be read at all, a
      directory for one, on which every read fails; writes and seeks on an
      output stream succeed;
    - the functions that print and return [false] thread a [world]: the
      error stream and the files and directories created so far. *)

From Stdlib Require Import ZArith List String Ascii Lia Bool Permutation.
From Stdlib Require Import Strings.Byte.
Import ListNotations.
Local Open Scope string_scope.
Local Open Scope list_scope.
Local Open Scope Z_scope.

(** ** The C library, as far as the two programs use it *)

Module Libc.

(** [<sys/param.h>]: the size of a path buffer. *)
Definition MAXPATHLEN : nat := 1024.

Definition to_uint32 (z : Z) : Z := z mod 2 ^ 32.

Definition byte_of_Z (z : Z) : byte :=
  match Byte.of_N (Z.to_N (z mod 256)) with
  | Some b => b
  | None => x00
  end.

Definition Z_of_byte (b : byte) : Z := Z.of_N (Byte.to_N b).

(** The four bytes of [htonl v] in memory order: most significant first. *)
Definition htonl (v : Z) : list byte :=
  [ byte_of_Z (Z.shiftr v 24); byte_of_Z (Z.shiftr v 16);
    byte_of_Z (Z.shiftr v 8); byte_of_Z v ].

(** [ntohl] of four bytes in memory order. *)
Definition ntohl (bs : list byte) : Z :=
  match bs with
  | [a; b; c; d] =>
      ((Z_of_byte a * 256 + Z_of_byte b) * 256 + Z_of_byte c) * 256
      + Z_of_byte d
  | _ => 0
  end.

(** A multi-character constant such as ['icns']: the first character is the
    most significant byte. *)
Definition multichar (a b c d : ascii) : Z :=
  Z.lor (Z.shiftl (Z.of_N (N_of_ascii a)) 24)
    (Z.lor (Z.shiftl (Z.of_N (N_of_ascii b)) 16)
       (Z.lor (Z.shiftl (Z.of_N (N_of_ascii c)) 8) (Z.of_N (N_of_ascii d)))).

(** *** Streams *)

Record FILE : Type := mkFILE
  { f_data : list byte;   (* the bytes of the file *)
    f_pos : nat;          (* the file position *)
    f_eof : bool }.       (* the end-of-file indicator *)

Definition fopen_r (data : list byte) : FILE := mkFILE data 0 false.
Definition fopen_w : FILE := mkFILE [] 0 false.

Definition unread (f : FILE) : list byte := skipn (f_pos f) (f_data f).

(** [fread] of [n] bytes: the bytes transferred and the stream afterwards.
    The end-of-file indicator is set only by a read that asks for more than
    is left. *)
Definition fread (n : nat) (f : FILE) : list byte * FILE :=
  let avail := unread f in
  if (n <=? List.length avail)%nat
  then (firstn n avail, mkFILE (f_data f) (f_pos f + n) (f_eof f))
  else (avail, mkFILE (f_data f) (f_pos f + List.length avail) true).

(** [fwrite] at the current position, overwriting or extending the file. *)
Definition fwrite (bs : list byte) (f : FILE) : FILE :=
  mkFILE (firstn (f_pos f) (f_data f) ++ bs
          ++ skipn (f_pos f + List.length bs) (f_data f))
         (f_pos f + List.length bs) (f_eof f).

(** The stream after [n] more bytes have been read. *)
Definition advance (n : nat) (f : FILE) : FILE :=
  mkFILE (f_data f) (f_pos f + n) (f_eof f).

(** Two streams with the same bytes ahead and the same end-of-file
    indicator: no read tells them apart. *)
Definition same_stream (f g : FILE) : Prop :=
  skipn (f_pos f) (f_data f) = skipn (f_pos g) (f_data g)
  /\ f_eof f = f_eof g.

(** The position of a stream that is being written is the end of its data. *)
Definition at_end (f : FILE) : Prop := f_pos f = List.length (f_data f).

Definition feof (f : FILE) : bool := f_eof f.
Definition ftell (f : FILE) : Z := Z.of_nat (f_pos f).
Definition fseek_set (off : nat) (f : FILE) : FILE := mkFILE (f_data f) off false.
Definition fseek_end (f : FILE) : FILE :=
  mkFILE (f_data f) (List.length (f_data f)) false.

(** *** Strings *)

Fixpoint take (n : nat) (s : string) : string :=
  match n, s with
  | O, _ => EmptyString
  | S _, EmptyString => EmptyString
  | S n', String c s' => String c (take n' s')
  end.

(** What [strlcpy (dst, src, size)] leaves at [dst] when [size > 0]: at most
    [size - 1] characters of [src], NUL-terminated. Its return value is
    [strlen src]. *)
Definition strlcpy (src : string) (size : nat) : string := take (size - 1) src.

(** [strstr]: the offset of the first occurrence of [needle]. *)
Fixpoint strstr (haystack needle : string) : option nat :=
  if prefix needle haystack then Some O
  else match haystack with
       | EmptyString => None
       | String _ h' => option_map S (strstr h' needle)
       end.

(** The C string held by a character array: the characters before the first
    NUL. *)
Fixpoint c_str (cs : list ascii) : string :=
  match cs with
  | [] => EmptyString
  | c :: cs' => if Ascii.eqb c zero then EmptyString else String c (c_str cs')
  end.

Fixpoint drop (n : nat) (s : string) : string :=
  match n, s with
  | O, _ => s
  | S _, EmptyString => EmptyString
  | S n', String _ s' => drop n' s'
  end.

(** The character at an index; the terminating NUL past the end. *)
Definition char_at (s : string) (i : nat) : ascii :=
  match get i s with
  | Some c => c
  | None => zero
  end.

Definition char_of_Z (z : Z) : ascii := ascii_of_N (Z.to_N z).

End Libc.

(** ** Results of the programs: outcomes, messages, the world *)

(** A run of a C function returns, or runs into undefined behaviour (a path
    buffer overrun), or, in the model only, exhausts the fuel of a loop. *)
Inductive outcome (A : Type) : Type :=
| Ret (a : A)
| Undefined
| OutOfFuel.
Arguments Ret {A} a.
Arguments Undefined {A}.
Arguments OutOfFuel {A}.

Definition bind {A B : Type} (m : outcome A) (k : A -> outcome B) : outcome B :=
  match m with
  | Ret a => k a
  | Undefined => Undefined
  | OutOfFuel => OutOfFuel
  end.

Notation "x <- m ;; k" := (bind m (fun x => k))
  (at level 61, m at next level, right associativity).
Notation "' p <- m ;; k" := (bind m (fun x => let 'p := x in k))
  (at level 61, p pattern, m at next level, right associativity).

(** What the programs print on the error stream. *)
Inductive message : Type :=
| Error (text : string)        (* PrintError *)
| SystemError                  (* PrintSystemError: perror *)
| Warning (filename : string)  (* "Warning: Don't know icon type for %s, skipping" *)
| Usage (line : string).       (* PrintUsage *)

(** The error stream and the directories and files written so far, oldest
    first. A file is listed when it is created and holds what has been
    written to it. *)
Record world : Type := mkWorld
  { w_stderr : list message;
    w_dirs : list string;
    w_files : list (string * list byte) }.

Definition empty_world : world := mkWorld [] [] [].

Definition print (m : message) (w : world) : world :=
  mkWorld (w_stderr w ++ [m]) (w_dirs w) (w_files w).
Definition PrintError (text : string) : world -> world := print (Error text).
Definition PrintSystemError : world -> world := print SystemError.

(** What the file system holds and what the operating system decides: the
    files that can be read, the listings of the directories, whether a
    [mkdir] succeeds and whether a file can be created.

    [os_read] gives the bytes of a file that can be opened and read to its
    end. What can be opened but not read, a directory for one, is not given
    by [os_read] but by [os_unreadable]: every [fread] on its stream returns
    0 and sets the error indicator, and the number is the [long] that
    [ftell] returns after the seek to the end, or a negative number when a
    seek or [ftell] fails. Where both give [None], [fopen] fails.

    Writes and seeks on an open output stream are taken to succeed. *)
Record os : Type := mkOs
  { os_read : string -> option (list byte);      (* fopen (path, "r") *)
    os_readdir : string -> option (list string); (* opendir, then readdir *)
    mkdir_ok : string -> bool;                   (* mkdir *)
    create_ok : string -> bool;                  (* fopen (path, "w") *)
    os_unreadable : string -> option Z }.        (* fopen (path, "r") *)

(** [fopen (path, "r")]: the bytes that the stream delivers and, for what
    cannot be read, the number that [os_unreadable] gives. *)
Definition fopen_read (o : os) (path : string)
  : option (list byte * option Z) :=
  match os_read o path with
  | Some data => Some (data, None)
  | None =>
      match os_unreadable o path with
      | Some size => Some ([], Some size)
      | None => None
      end
  end.

(** [fopen (path, "w")] creates or truncates the file; what the program has
    written to the stream is in the file once the stream is closed, which the
    programs do on every path. *)
Definition fclose_w (path : string) (f : Libc.FILE) (w : world) : world :=
  mkWorld (w_stderr w) (w_dirs w)
    (filter (fun e => negb (String.eqb (fst e) path)) (w_files w)
     ++ [(path, Libc.f_data f)]).

Definition mkdir (path : string) (w : world) : world :=
  mkWorld (w_stderr w) (w_dirs w ++ [path]) (w_files w).

(** ** readicns.c *)

Module Readicns.
Import Libc.

Definition kBufferSize : Z := 1024.
Definition kIconsetExtension : string := ".iconset".
Definition kIcnsExtension : string := ".icns".
Definition kUnknownFormatFilename : string := "icon_data_".
Definition kMagicHeader : Z := multichar "i" "c" "n" "s".

Definition kIconTypes : list (string * Z) :=
  [ ("icon_16x16.png", multichar "i" "c" "p" "4");
    ("icon_16x16@2x.png", multichar "i" "c" "1" "1");
    ("icon_32x32.png", multichar "i" "c" "p" "5");
    ("icon_32x32@2x.png", multichar "i" "c" "1" "2");
    ("icon_64x64.png", multichar "i" "c" "p" "6");
    ("icon_128x128.png", multichar "i" "c" "0" "7");
    ("icon_128x128@2x.png", multichar "i" "c" "1" "3");
    ("icon_256x256.png", multichar "i" "c" "0" "8");
    ("icon_256x256@2x.png", multichar "i" "c" "1" "4");
    ("icon_512x512.png", multichar "i" "c" "0" "9");
    ("icon_512x512@2x.png", multichar "i" "c" "1" "0") ].

Definition IsEmpty (path : string) : bool :=
  match path with
  | EmptyString => true
  | String _ _ => false
  end.

(** [for (end = path + length - 1; end > path && *end == '/'; end--)] *)
Fixpoint Basename_end (path : string) (e : nat) : nat :=
  match e with
  | O => O
  | S e' => if Ascii.eqb (char_at path e) "/" then Basename_end path e' else e
  end.

(** [for (begin = end; begin > path && *(begin - 1) != '/'; begin--)] *)
Fixpoint Basename_begin (path : string) (b : nat) : nat :=
  match b with
  | O => O
  | S b' => if Ascii.eqb (char_at path b') "/" then b else Basename_begin path b'
  end.

(** [None] is the [NULL] result. *)
Definition Basename (path : string) : option string :=
  if IsEmpty path then Some "."
  else
    let length := String.length path in
    let e := Basename_end path (length - 1) in
    let b := Basename_begin path e in
    let base_length := (e - b + 1)%nat in
    if (MAXPATHLEN <=? base_length)%nat then None
    else Some (strlcpy (drop b path) (base_length + 1)).

Definition ReadUint32 (file : FILE) : Z * FILE :=
  let (read, file') := fread 4 file in
  if (List.length read =? 4)%nat then (ntohl read, file') else (0, file').

(** [ReadUint32] does not tell a read that fails from a read at the end of
    the file: the stream of what cannot be read is taken as an empty one. *)
Definition OpenIcnsFileForReading (o : os) (icns_path : string) (w : world)
  : option FILE * world :=
  match fopen_read o icns_path with
  | None => (None, PrintSystemError w)
  | Some (data, _) =>
      let icns := fopen_r data in
      let (header, icns) := ReadUint32 icns in
      if negb (header =? kMagicHeader)
      then (None, PrintError "This doesn't look like an Apple .icns file." w)
      else
        let (size, icns) := ReadUint32 icns in
        if size =? 0
        then (None, PrintError "This looks like an empty .icns file." w)
        else (Some icns, w)
  end.

(** The empty string is the empty [Path] of the error returns. *)
Definition GetIconsetPath (icns_path : string) (w : world) : string * world :=
  match Basename icns_path with
  | None => ("", PrintError "Can't determine name of icns file" w)
  | Some path =>
      match strstr path kIcnsExtension with
      | None => ("", PrintError "Can't find .icns extension on input file" w)
      | Some extension =>
          ((take extension path
              ++ strlcpy kIconsetExtension (MAXPATHLEN - extension))%string, w)
      end
  end.

Definition GetFilenameFromType (type : Z) : option string :=
  option_map fst (find (fun e => snd e =? type) kIconTypes).

(** Lines 198-213 of [CopyIconToIconset]: the path of the target file, built
    in the [MAXPATHLEN] bytes of [iconset_path]. [room] is what is left of
    the buffer after the ['/']. A [strlcpy] with no room writes nothing, so
    that the buffer is left without terminator, and a [strlcpy] past the end
    of the buffer overruns it: both are [Undefined]. *)
Definition CopyIconToIconset_path (iconset_path : string) (header : Z)
  : outcome string :=
  let dir := (iconset_path ++ "/")%string in
  let room := Z.of_nat MAXPATHLEN - Z.of_nat (String.length dir) in
  match GetFilenameFromType header with
  | Some icon_filename =>
      if room <=? 0 then Undefined
      else Ret (dir ++ strlcpy icon_filename (Z.to_nat room))%string
  | None =>
      let unknown_format :=
        c_str [ char_of_Z (Z.land (Z.shiftr header 24) 255);
                char_of_Z (Z.land (Z.shiftr header 16) 255);
                char_of_Z (Z.land (Z.shiftr header 8) 255);
                char_of_Z (Z.land header 255) ] in
      let room' := room - Z.of_nat (String.length kUnknownFormatFilename) in
      if room' <? 0 then Undefined
      else if room' =? 0
      then Ret (dir ++ strlcpy kUnknownFormatFilename (Z.to_nat room))%string
      else Ret (dir ++ strlcpy kUnknownFormatFilename (Z.to_nat room)
                  ++ strlcpy unknown_format (Z.to_nat room'))%string
  end.

(** Lines 222-231: the copy loop. [fwrite] to the target is taken to
    succeed. Every turn that does not fail takes at least one byte from
    [icns], which bounds the number of turns. *)
Fixpoint CopyIconToIconset_copy (fuel : nat) (size : Z) (icns target : FILE)
  : outcome (bool * FILE * FILE) :=
  if 0 <? size then
    match fuel with
    | O => OutOfFuel
    | S fuel' =>
        let to_read := if kBufferSize <? size then kBufferSize else size in
        let (buffer, icns') := fread (Z.to_nat to_read) icns in
        if negb (Z.of_nat (List.length buffer) =? to_read)
        then Ret (false, icns', target)
        else CopyIconToIconset_copy fuel' (size - to_read) icns'
               (fwrite buffer target)
    end
  else Ret (true, icns, target).

Definition CopyIconToIconset (o : os) (icns : FILE) (iconset_path : string)
  (w : world) : outcome (bool * FILE * world) :=
  let (header, icns) := ReadUint32 icns in
  if (header =? 0) && feof icns then Ret (true, icns, w)
  else
    let (size, icns) := ReadUint32 icns in
    if size <=? 8
    then Ret (false, icns, PrintError "Invalid size in .icns file" w)
    else
      let size := size - 8 in
      path <- CopyIconToIconset_path iconset_path header ;;
      if negb (create_ok o path)
      then Ret (false, icns, PrintSystemError w)
      else
        '(ok, icns, target) <-
          CopyIconToIconset_copy (S (List.length (unread icns))) size icns
            fopen_w ;;
        if ok : bool
        then Ret (true, icns, fclose_w path target w)
        else Ret (false, icns,
                  fclose_w path target
                    (PrintError "Error copying from .icns file to iconset" w)).

(** [while (!feof(icns))] of [CreateIconsetFromIcns]. *)
Fixpoint CreateIconsetFromIcns_loop (o : os) (fuel : nat) (icns : FILE)
  (iconset_path : string) (w : world) : outcome (bool * world) :=
  if feof icns then Ret (true, w)
  else
    match fuel with
    | O => OutOfFuel
    | S fuel' =>
        '(ok, icns, w) <- CopyIconToIconset o icns iconset_path w ;;
        if ok : bool
        then CreateIconsetFromIcns_loop o fuel' icns iconset_path w
        else Ret (false, w)
    end.

Definition CreateIconsetFromIcns (o : os) (icns_path : string) (w : world)
  : outcome (bool * world) :=
  let (icns, w) := OpenIcnsFileForReading o icns_path w in
  match icns with
  | None => Ret (false, w)
  | Some icns =>
      let (iconset_path, w) := GetIconsetPath icns_path w in
      if IsEmpty iconset_path then Ret (false, w)
      else if negb (mkdir_ok o iconset_path)
      then Ret (false, PrintSystemError w)
      else CreateIconsetFromIcns_loop o (S (List.length (unread icns))) icns
             iconset_path (mkdir iconset_path w)
  end.

Definition PrintUsage (own_path : string) : world -> world :=
  print (Usage ("Usage: " ++ own_path ++ " [file.icns]")%string).

(** [argv] with [argv[0]] first; [argc] is its length. *)
Definition IcnsFromArguments (argv : list string) (w : world)
  : option string * world :=
  let argc := List.length argv in
  if (argc <? 2)%nat
  then (None,
        PrintUsage (nth 0 argv "") (PrintError "No path given to icns file." w))
  else if (2 <? argc)%nat
  then (None, PrintUsage (nth 0 argv "") (PrintError "Too many arguments." w))
  else (Some (nth 1 argv ""), w).

Definition main (o : os) (argv : list string) (w : world)
  : outcome (Z * world) :=
  let (icns_path, w) := IcnsFromArguments argv w in
  match icns_path with
  | None => Ret (-1, w)
  | Some icns_path =>
      '(ok, w) <- CreateIconsetFromIcns o icns_path w ;;
      Ret (if ok : bool then 0 else -1, w)
  end.

End Readicns.

(** ** createicns.c *)

Module Createicns.
Import Libc.

Definition kBufferSize : nat := 1024.
Definition kIconsetExtension : string := ".iconset".
Definition kIcnsExtension : string := ".icns".
Definition kMagicHeader : Z := multichar "i" "c" "n" "s".

Definition kIconTypes : list (string * Z) :=
  [ ("icon_16x16.png", multichar "i" "c" "p" "4");
    ("icon_16x16@2x.png", multichar "i" "c" "1" "1");
    ("icon_32x32.png", multichar "i" "c" "p" "5");
    ("icon_32x32@2x.png", multichar "i" "c" "1" "2");
    ("icon_64x64.png", multichar "i" "c" "p" "6");
    ("icon_128x128.png", multichar "i" "c" "0" "7");
    ("icon_128x128@2x.png", multichar "i" "c" "1" "3");
    ("icon_256x256.png", multichar "i" "c" "0" "8");
    ("icon_256x256@2x.png", multichar "i" "c" "1" "4");
    ("icon_512x512.png", multichar "i" "c" "0" "9");
    ("icon_512x512@2x.png", multichar "i" "c" "1" "0") ].

(** [basename_r] is the C library's. [readicns.c] carries its own
    implementation of the same function, [Basename], which is taken here. *)
Definition basename_r : string -> option string := Readicns.Basename.

(** The parameter is a [uint32_t]: the argument is converted. [fwrite] is
    taken to succeed. *)
Definition WriteUint32 (to_write : Z) (file : FILE) : FILE :=
  fwrite (htonl (to_uint32 to_write)) file.

Definition OpenIcnsFileForIconset (o : os) (iconset_path : string) (w : world)
  : option (string * FILE) * world :=
  match basename_r iconset_path with
  | None => (None, PrintSystemError w)
  | Some path =>
      let path_length := String.length path in
      let extension_length := String.length kIconsetExtension in
      let base_path_length := (path_length - extension_length)%nat in
      if (path_length <=? extension_length)%nat
         || negb (String.eqb (take extension_length (drop base_path_length path))
                    kIconsetExtension)
      then (None, PrintError "Need .iconset directory as input." w)
      else
        let path := (take base_path_length path ++ kIcnsExtension)%string in
        if negb (create_ok o path) then (None, PrintSystemError w)
        else
          let file := fopen_w in
          let file := WriteUint32 kMagicHeader file in
          let file := WriteUint32 0 file in
          (Some (path, file), w)
  end.

Definition FindIconType (icon_filename : string) : Z :=
  match find (fun e => String.eqb (fst e) icon_filename) kIconTypes with
  | Some e => snd e
  | None => 0
  end.

(** Lines 195-203: the copy loop. [error] is [ferror (infile)] once a read
    has come short; the test is made before the buffer is written. [fwrite]
    is taken to succeed. A turn that goes on has read a full buffer, which
    bounds the number of turns. *)
Fixpoint WriteIconToFile_copy (fuel : nat) (error : bool)
  (infile outfile : FILE) : outcome (bool * FILE * FILE) :=
  match fuel with
  | O => OutOfFuel
  | S fuel' =>
      let (buffer, infile') := fread kBufferSize infile in
      let read := List.length buffer in
      if (read <? kBufferSize)%nat && error
      then Ret (false, infile', outfile)
      else
        let outfile' := fwrite buffer outfile in
        if (read =? kBufferSize)%nat
        then WriteIconToFile_copy fuel' error infile' outfile'
        else Ret (true, infile', outfile')
  end.

(** [size] is a [long] and so is [size + 8]; [WriteUint32] takes its 32 low
    bits, also where the addition passes [LONG_MAX] and wraps. The writes
    of the header are taken to succeed. *)
Definition WriteIconToFile (o : os) (iconset_path icon_filename : string)
  (icon_type : Z) (outfile : FILE) (w : world)
  : outcome (bool * FILE * world) :=
  let icon_path := (iconset_path ++ "/" ++ icon_filename)%string in
  match fopen_read o icon_path with
  | None => Ret (false, outfile, PrintSystemError w)
  | Some (data, unreadable) =>
      let infile := fopen_r data in
      let size := match unreadable with
                  | None => ftell (fseek_end infile)
                  | Some size => size
                  end in
      if size <? 0 then Ret (false, outfile, PrintSystemError w)
      else
        let infile := fseek_set 0 infile in
        let outfile := WriteUint32 icon_type outfile in
        let outfile := WriteUint32 (size + 8) outfile in
        let error := match unreadable with
                     | None => false
                     | Some _ => true
                     end in
        '(ok, _, outfile) <-
          WriteIconToFile_copy (S (List.length data)) error infile outfile ;;
        if ok : bool then Ret (true, outfile, w)
        else Ret (false, outfile, PrintSystemError w)
  end.

(** [ftell], [fseek] and the write on the output stream are taken to
    succeed. Where one of them fails the source returns false, and
    [CreateIcnsFromIconset] then closes the file and returns false without
    a message. *)
Definition WriteIcnsFileMetadata (file : FILE) : FILE :=
  let size := ftell file in
  WriteUint32 size (fseek_set 4 file).

Definition is_dot (d_name : string) : bool :=
  Ascii.eqb (char_at d_name 0) ".".

(** The [for] loop of [CreateIcnsFromIconset] over the entries that
    [readdir] yields. *)
Fixpoint CreateIcnsFromIconset_loop (o : os) (iconset_path : string)
  (entries : list string) (icns : FILE) (w : world)
  : outcome (bool * FILE * world) :=
  match entries with
  | [] => Ret (true, icns, w)
  | d_name :: entries' =>
      if is_dot d_name
      then CreateIcnsFromIconset_loop o iconset_path entries' icns w
      else
        let icon_type := FindIconType d_name in
        if icon_type =? 0
        then CreateIcnsFromIconset_loop o iconset_path entries' icns
               (print (Warning d_name) w)
        else
          '(ok, icns, w) <-
            WriteIconToFile o iconset_path d_name icon_type icns w ;;
          if ok : bool
          then CreateIcnsFromIconset_loop o iconset_path entries' icns w
          else Ret (false, icns, w)
  end.

Definition CreateIcnsFromIconset (o : os) (iconset_path : string) (w : world)
  : outcome (bool * world) :=
  match os_readdir o iconset_path with
  | None => Ret (false, PrintSystemError w)
  | Some entries =>
      let (opened, w) := OpenIcnsFileForIconset o iconset_path w in
      match opened with
      | None => Ret (false, w)
      | Some (icns_path, icns) =>
          '(ok, icns, w) <-
            CreateIcnsFromIconset_loop o iconset_path entries icns w ;;
          if ok : bool
          then Ret (true, fclose_w icns_path (WriteIcnsFileMetadata icns) w)
          else Ret (false, fclose_w icns_path icns w)
      end
  end.

Definition PrintUsage (own_path : string) : world -> world :=
  print (Usage ("Usage: " ++ own_path ++ " [iconset]")%string).

Definition IconsetFromArguments (argv : list string) (w : world)
  : option string * world :=
  let argc := List.length argv in
  if (argc <? 2)%nat
  then (None,
        PrintUsage (nth 0 argv "")
          (PrintError "No path given to iconset directory." w))
  else if (2 <? argc)%nat
  then (None, PrintUsage (nth 0 argv "") (PrintError "Too many arguments." w))
  else (Some (nth 1 argv ""), w).

Definition main (o : os) (argv : list string) (w : world)
  : outcome (Z * world) :=
  let (iconset_path, w) := IconsetFromArguments argv w in
  match iconset_path with
  | None => Ret (-1, w)
  | Some iconset_path =>
      '(ok, w) <- CreateIcnsFromIconset o iconset_path w ;;
      Ret (if ok : bool then 0 else -1, w)
  end.

End Createicns.

(** ** The container format *)

Module Format.
Import Libc.

(** A chunk as [WriteIconToFile] lays it out: the type, the size of the
    chunk with its 8-byte header, the data. Both words are [uint32_t]. *)
Definition chunk (icon_type : Z) (data : list byte) : list byte :=
  htonl (to_uint32 icon_type)
  ++ htonl (to_uint32 (Z.of_nat (List.length data) + 8))
  ++ data.

(** What [WriteIconToFile] has written when it fails on an entry that
    [os_read] does not give: nothing when the entry cannot be opened or a
    seek fails, the header of the chunk, with the size that [ftell]
    reported, when it is the first read that fails. *)
Definition dangling (o : os) (icon_path : string) (icon_type : Z)
  : list byte :=
  match os_unreadable o icon_path with
  | Some size =>
      if size <? 0 then []
      else htonl (to_uint32 icon_type) ++ htonl (to_uint32 (size + 8))
  | None => []
  end.

(** What the loop of [CreateIcnsFromIconset] does on a listing, entry by
    entry, as a function of the listing: whether it runs to the end, the
    bytes it adds to the container and what it prints. *)
Fixpoint chunks (o : os) (iconset_path : string) (entries : list string)
  : bool * list byte * list message :=
  match entries with
  | [] => (true, [], [])
  | d_name :: entries' =>
      let '(ok, bs, ms) := chunks o iconset_path entries' in
      if Createicns.is_dot d_name then (ok, bs, ms)
      else if Createicns.FindIconType d_name =? 0
      then (ok, bs, Warning d_name :: ms)
      else
        match os_read o (iconset_path ++ "/" ++ d_name)%string with
        | None =>
            (false,
             dangling o (iconset_path ++ "/" ++ d_name)%string
               (Createicns.FindIconType d_name),
             [SystemError])
        | Some data =>
            (ok, chunk (Createicns.FindIconType d_name) data ++ bs, ms)
        end
  end.

(** The word at offset 4 of a container: the total size field. *)
Definition total_size (container : list byte) : Z :=
  ntohl (firstn 4 (skipn 4 container)).

(** The first word of the chunk at an offset, its type, and the second, its
    size field. *)
Definition chunk_type_at (off : nat) (container : list byte) : Z :=
  ntohl (firstn 4 (skipn off container)).
Definition chunk_size_at (off : nat) (container : list byte) : Z :=
  ntohl (firstn 4 (skipn (off + 4) container)).

(** The entries of a listing that [CreateIcnsFromIconset] does not skip for
    their name. *)
Definition icons (entries : list string) : list string :=
  filter (fun d_name => negb (Createicns.is_dot d_name)) entries.

(** The file that the decoder writes for an icon, and the chunk that the
    encoder writes for it. *)
Definition store (iconset_path : string) (w : world)
  (item : string * list byte) : world :=
  fclose_w (iconset_path ++ "/" ++ fst item)%string
    (mkFILE (snd item) (List.length (snd item)) false) w.

Definition item_chunk (item : string * list byte) : list byte :=
  chunk (Createicns.FindIconType (fst item)) (snd item).

(** The bytes of an icon of the iconset directory; no bytes when the file
    cannot be read. *)
Definition payload (o : os) (iconset_path name : string) : list byte :=
  match os_read o (iconset_path ++ "/" ++ name)%string with
  | Some data => data
  | None => []
  end.

(** The icons of a listing with their bytes. *)
Definition iconset (o : os) (iconset_path : string) (entries : list string)
  : list (string * list byte) :=
  map (fun name => (name, payload o iconset_path name)) (icons entries).

(** The files of an iconset in the directory that the decoder makes. *)
Definition in_directory (dir : string) (items : list (string * list byte))
  : list (string * list byte) :=
  map (fun item => ((dir ++ "/" ++ fst item)%string, snd item)) items.

End Format.

(** ** Inputs of the examples *)

Module Examples.
Import Libc.

(** A directory [x.iconset] that holds [icon_16x16.png] with the given
    bytes, in a file system where everything can be created. *)
Definition single_icon (data : list byte) : os :=
  mkOs (fun path =>
          if String.eqb path "x.iconset/icon_16x16.png" then Some data
          else None)
       (fun path =>
          if String.eqb path "x.iconset"
          then Some ["."; ".."; "icon_16x16.png"]
          else None)
       (fun _ => true) (fun _ => true) (fun _ => None).

Definition png4 : list byte := list_byte_of_string "PNG!".

(** A file system that holds one file, where everything can be created. *)
Definition single_file (path : string) (data : list byte) : os :=
  mkOs (fun p => if String.eqb p path then Some data else None)
       (fun _ => None) (fun _ => true) (fun _ => true) (fun _ => None).

(** A file system with one more file, or with that file replaced. *)
Definition with_file (o : os) (path : string) (data : list byte) : os :=
  mkOs (fun p => if String.eqb p path then Some data else os_read o p)
       (os_readdir o) (mkdir_ok o) (create_ok o) (os_unreadable o).

(** A file system where a directory has the given listing. *)
Definition with_listing (o : os) (path : string) (entries : list string)
  : os :=
  mkOs (os_read o)
       (fun p => if String.eqb p path then Some entries else os_readdir o p)
       (mkdir_ok o) (create_ok o) (os_unreadable o).

(** A file system where a path can be opened but not read, as a directory
    can, and [ftell] reports the given size for it. *)
Definition with_unreadable (o : os) (path : string) (size : Z) : os :=
  mkOs (fun p => if String.eqb p path then None else os_read o p)
       (os_readdir o) (mkdir_ok o) (create_ok o)
       (fun p => if String.eqb p path then Some size else os_unreadable o p).

Definition zeros (n : Z) : list byte := repeat x00 (Z.to_nat n).

(** A file of 2^32 - 8 bytes: with the 8 bytes of the chunk header the chunk
    has 2^32 bytes. *)
Definition big_png : list byte := zeros 4294967288.

(** A file of 2^32 - 16 bytes: the container with this one icon has 2^32
    bytes. *)
Definition full_png : list byte := zeros 4294967280.

End Examples.

(** ** The layout of a container, chunk by chunk *)

Module Layout.
Import Libc.

(** The entries of a listing that the encoder writes, and those it warns
    about. *)
Definition known (entries : list string) : list string :=
  filter (fun d_name => negb (Createicns.is_dot d_name)
                        && negb (Createicns.FindIconType d_name =? 0))
    entries.

Definition unknown (entries : list string) : list string :=
  filter (fun d_name => negb (Createicns.is_dot d_name)
                        && (Createicns.FindIconType d_name =? 0))
    entries.

(** The chunk of an entry. *)
Definition entry_chunk (o : os) (iconset_path d_name : string) : list byte :=
  Format.chunk (Createicns.FindIconType d_name)
    (Format.payload o iconset_path d_name).

(** The body of the container of a listing: the chunks of the entries that
    the encoder writes, in the order of the listing. *)
Definition body (o : os) (iconset_path : string) (entries : list string)
  : list byte :=
  List.concat (map (entry_chunk o iconset_path) (known entries)).

(** The name that lines 198-213 of [CopyIconToIconset] give to the file of a
    chunk, when the path buffer has room for it. *)
Definition target_name (header : Z) : string :=
  match Readicns.GetFilenameFromType header with
  | Some icon_filename => icon_filename
  | None =>
      (Readicns.kUnknownFormatFilename
       ++ c_str [ char_of_Z (Z.land (Z.shiftr header 24) 255);
                  char_of_Z (Z.land (Z.shiftr header 16) 255);
                  char_of_Z (Z.land (Z.shiftr header 8) 255);
                  char_of_Z (Z.land header 255) ])%string
  end.

(** The file that the decoder writes for a chunk, given by its type and its
    data. *)
Definition extract (iconset_path : string) (w : world)
  (item : Z * list byte) : world :=
  fclose_w (iconset_path ++ "/" ++ target_name (fst item))%string
    (mkFILE (snd item) (List.length (snd item)) false) w.

Definition typed_chunk (item : Z * list byte) : list byte :=
  Format.chunk (fst item) (snd item).

(** A chunk that the decoder reads to its end: a type that is a
    [uint32_t], data that are not empty and whose size fits the length
    field. *)
Definition well_formed (item : Z * list byte) : Prop :=
  0 <= fst item < 2 ^ 32
  /\ snd item <> []
  /\ Z.of_nat (List.length (snd item)) + 8 < 2 ^ 32.

(** A string without the given character. *)
Fixpoint lacks (c : ascii) (s : string) : bool :=
  match s with
  | EmptyString => true
  | String c' s' => negb (Ascii.eqb c' c) && lacks c s'
  end.

(** A string of [n] times the same character. *)
Fixpoint replicate (n : nat) (c : ascii) : string :=
  match n with
  | O => EmptyString
  | S n' => String c (replicate n' c)
  end.

(** What a run leaves of the world: the directories as they were, and
    files that were there or are in the directory of the decoder. *)
Definition inside (dir : string) (w w' : world) : Prop :=
  w_dirs w' = w_dirs w
  /\ forall f, In f (w_files w') ->
               In f (w_files w)
               \/ exists name, fst f = (dir ++ "/" ++ name)%string.

(** A container as the encoder closes it: the magic header, the total
    size, a [uint32_t], and the chunks. *)
Definition container (bs : list byte) : list byte :=
  htonl (to_uint32 Createicns.kMagicHeader)
  ++ htonl (to_uint32 (Z.of_nat (8 + List.length bs)))
  ++ bs.

(** A container as the encoder leaves it when it gives up: the total size
    is still the 0 that [OpenIcnsFileForIconset] wrote. *)
Definition unfinished (bs : list byte) : list byte :=
  htonl (to_uint32 Createicns.kMagicHeader) ++ htonl 0 ++ bs.

(** The file system after a file was written. *)
Definition written (path : string) (data : list byte)
  (files : list (string * list byte)) : list (string * list byte) :=
  filter (fun e => negb (String.eqb (fst e) path)) files ++ [(path, data)].

Definition is_warning (m : message) : bool :=
  match m with
  | Warning _ => true
  | _ => false
  end.



(** Two chunks, of a type of the table and of another type. *)
Definition two_chunks : list (Z * list byte) :=
  [ (multichar "i" "c" "p" "4", Examples.png4);
    (multichar "T" "O" "C" " ", list_byte_of_string "table") ].


End Layout.

(** ** The programs on small inputs *)

Section Runs.
Import Libc Examples.

Example Basename_of_a_path :
  Readicns.Basename "/usr/share/app.icns//" = Some "app.icns".
Proof. reflexivity. Qed.

Example Basename_of_slashes : Readicns.Basename "///" = Some "/".
Proof. reflexivity. Qed.

Example Basename_of_nothing : Readicns.Basename "" = Some ".".
Proof. reflexivity. Qed.

Example GetIconsetPath_of_a_path :
  Readicns.GetIconsetPath "icons/app.icns" empty_world
  = ("app.iconset", empty_world).
Proof. reflexivity. Qed.

Example GetIconsetPath_without_extension :
  Readicns.GetIconsetPath "icons/app.png" empty_world
  = ("", mkWorld [Error "Can't find .icns extension on input file"] [] []).
Proof. reflexivity. Qed.

Example FindIconType_of_a_name :
  Createicns.FindIconType "icon_512x512@2x.png" = multichar "i" "c" "1" "0".
Proof. reflexivity. Qed.

Example FindIconType_of_another_name :
  Createicns.FindIconType "icon_48x48.png" = 0.
Proof. reflexivity. Qed.

Example kMagicHeader_bytes :
  htonl Createicns.kMagicHeader = list_byte_of_string "icns".
Proof. reflexivity. Qed.

Example createicns_run :
  Createicns.main (single_icon png4) ["createicns"; "x.iconset"] empty_world
  = Ret (0,
         mkWorld [] []
           [("x.icns",
             list_byte_of_string "icns" ++ htonl 20
             ++ list_byte_of_string "icp4" ++ htonl 12 ++ png4)]).
Proof. vm_compute. reflexivity. Qed.

Example createicns_needs_an_iconset :
  Createicns.main (single_icon png4) ["createicns"; "x.icons"] empty_world
  = Ret (-1, mkWorld [SystemError] [] []).
Proof. vm_compute. reflexivity. Qed.

Example createicns_needs_the_extension :
  Createicns.main
    (with_listing (single_icon png4) "x.icons" ["icon_16x16.png"])
    ["createicns"; "x.icons"] empty_world
  = Ret (-1, mkWorld [Error "Need .iconset directory as input."] [] []).
Proof. vm_compute. reflexivity. Qed.

Example readicns_run :
  Readicns.main
    (single_file "x.icns"
       (list_byte_of_string "icns" ++ htonl 20
        ++ list_byte_of_string "icp4" ++ htonl 12 ++ png4))
    ["readicns"; "x.icns"] empty_world
  = Ret (0, mkWorld [] ["x.iconset"] [("x.iconset/icon_16x16.png", png4)]).
Proof. vm_compute. reflexivity. Qed.

Example readicns_cut_payload :
  Readicns.main
    (single_file "x.icns"
       (list_byte_of_string "icns" ++ htonl 20
        ++ list_byte_of_string "icp4" ++ htonl 12
        ++ list_byte_of_string "PN"))
    ["readicns"; "x.icns"] empty_world
  = Ret (-1,
         mkWorld [Error "Error copying from .icns file to iconset"]
           ["x.iconset"] [("x.iconset/icon_16x16.png", [])]).
Proof. vm_compute. reflexivity. Qed.

Example readicns_no_argument :
  Readicns.main (single_file "x.icns" []) ["readicns"] empty_world
  = Ret (-1,
         mkWorld [Error "No path given to icns file.";
                  Usage "Usage: readicns [file.icns]"] [] []).
Proof. vm_compute. reflexivity. Qed.

(** An entry of the iconset that is a directory: its header is written
    before the first read fails. *)
Example createicns_on_a_directory_entry :
  Createicns.main
    (Examples.with_unreadable (Examples.single_icon Examples.png4)
       "x.iconset/icon_16x16.png" (2 ^ 63 - 1))
    ["createicns"; "x.iconset"] empty_world
  = Ret (-1,
         mkWorld [SystemError] []
           [("x.icns",
             list_byte_of_string "icns" ++ [x00; x00; x00; x00]
             ++ list_byte_of_string "icp4" ++ [x00; x00; x00; x07])]).
Proof. reflexivity. Qed.

(** An entry on which a seek fails: nothing is written for it. *)
Example createicns_when_a_seek_fails :
  Createicns.main
    (Examples.with_unreadable (Examples.single_icon Examples.png4)
       "x.iconset/icon_16x16.png" (-1))
    ["createicns"; "x.iconset"] empty_world
  = Ret (-1,
         mkWorld [SystemError] []
           [("x.icns", list_byte_of_string "icns" ++ [x00; x00; x00; x00])]).
Proof. reflexivity. Qed.

(** A directory given to the decoder: the first read fails and the magic
    header is not found. *)
Example readicns_on_a_directory :
  Readicns.main
    (Examples.with_unreadable (Examples.single_file "y.icns" []) "x.icns"
       4096)
    ["readicns"; "x.icns"] empty_world
  = Ret (-1,
         PrintError "This doesn't look like an Apple .icns file."
           empty_world).
Proof. reflexivity. Qed.

End Runs.

(** ** Bytes and 32-bit words *)

Section Words.
Import Libc.

Lemma Z_of_byte_range (b : byte) : 0 <= Z_of_byte b < 256.
Proof.
  unfold Z_of_byte. pose proof (Byte.to_N_bounded b). lia.
Qed.

Lemma Z_of_byte_of_Z (z : Z) : Z_of_byte (byte_of_Z z) = z mod 256.
Proof.
  unfold Z_of_byte, byte_of_Z.
  assert (Hr : 0 <= z mod 256 < 256) by (apply Z.mod_pos_bound; lia).
  destruct (Byte.of_N (Z.to_N (z mod 256))) as [b|] eqn:E.
  - apply Byte.to_of_N in E. rewrite E. apply Z2N.id. lia.
  - apply Byte.of_N_None_iff in E. lia.
Qed.

Lemma byte_of_Z_of_byte (b : byte) : byte_of_Z (Z_of_byte b) = b.
Proof. destruct b; reflexivity. Qed.

Lemma htonl_length (v : Z) : List.length (htonl v) = 4%nat.
Proof. reflexivity. Qed.

Lemma ntohl_htonl (v : Z) : 0 <= v < 2 ^ 32 -> ntohl (htonl v) = v.
Proof.
  intros Hv. unfold ntohl, htonl.
  rewrite !Z_of_byte_of_Z, !Z.shiftr_div_pow2 by lia.
  change (2 ^ 24) with (256 * (256 * 256)).
  change (2 ^ 16) with (256 * 256).
  change (2 ^ 8) with 256.
  rewrite <- !Z.div_div by lia.
  assert (H3 : v / 256 / 256 / 256 < 256).
  { repeat (apply Z.div_lt_upper_bound; [lia|]). lia. }
  assert (H0 : 0 <= v / 256 / 256 / 256) by (repeat apply Z.div_pos; lia).
  rewrite (Z.mod_small (v / 256 / 256 / 256)) by lia.
  pose proof (Z.div_mod v 256).
  pose proof (Z.div_mod (v / 256) 256).
  pose proof (Z.div_mod (v / 256 / 256) 256).
  lia.
Qed.

Lemma ntohl_range (bs : list byte) : 0 <= ntohl bs < 2 ^ 32.
Proof.
  destruct bs as [|a [|b [|c [|d [|e bs]]]]]; simpl; try lia.
  pose proof (Z_of_byte_range a). pose proof (Z_of_byte_range b).
  pose proof (Z_of_byte_range c). pose proof (Z_of_byte_range d).
  lia.
Qed.

Lemma to_uint32_range (z : Z) : 0 <= to_uint32 z < 2 ^ 32.
Proof. unfold to_uint32. apply Z.mod_pos_bound. lia. Qed.

Lemma to_uint32_small (z : Z) : 0 <= z < 2 ^ 32 -> to_uint32 z = z.
Proof. intros. unfold to_uint32. apply Z.mod_small. lia. Qed.

End Words.

(** ** Streams *)

Section Streams.
Import Libc.

Lemma advance_unread (n : nat) (f : FILE) :
  unread (advance n f) = skipn n (unread f).
Proof.
  unfold unread, advance; simpl. rewrite skipn_skipn. f_equal. lia.
Qed.

Lemma advance_0 (f : FILE) : advance 0 f = f.
Proof. destruct f; unfold advance; simpl. now rewrite Nat.add_0_r. Qed.

Lemma advance_advance (n m : nat) (f : FILE) :
  advance m (advance n f) = advance (n + m) f.
Proof. unfold advance; simpl. now rewrite Nat.add_assoc. Qed.

Lemma fread_enough (n : nat) (f : FILE) :
  (n <= List.length (unread f))%nat ->
  fread n f = (firstn n (unread f), advance n f).
Proof.
  intros H. unfold fread. apply Nat.leb_le in H. now rewrite H.
Qed.

Lemma fread_app (f : FILE) (bs rest : list byte) :
  unread f = bs ++ rest ->
  fread (List.length bs) f = (bs, advance (List.length bs) f).
Proof.
  intros H. rewrite fread_enough.
  - rewrite H. now rewrite firstn_app, Nat.sub_diag, firstn_all, firstn_O, app_nil_r.
  - rewrite H, length_app. lia.
Qed.

Lemma fread_short (n : nat) (f : FILE) :
  (List.length (unread f) < n)%nat ->
  fread n f
  = (unread f, mkFILE (f_data f) (f_pos f + List.length (unread f)) true).
Proof.
  intros H. unfold fread. apply Nat.leb_gt in H. now rewrite H.
Qed.

Lemma fwrite_at_end (bs : list byte) (f : FILE) :
  at_end f ->
  fwrite bs f
  = mkFILE (f_data f ++ bs) (List.length (f_data f ++ bs)) (f_eof f).
Proof.
  unfold at_end, fwrite. intros ->.
  rewrite firstn_all, skipn_all2 by lia.
  now rewrite app_nil_r, length_app.
Qed.

Lemma ReadUint32_bytes (f : FILE) (a b c d : byte) (rest : list byte) :
  unread f = a :: b :: c :: d :: rest ->
  Readicns.ReadUint32 f = (ntohl [a; b; c; d], advance 4 f).
Proof.
  intros H. unfold Readicns.ReadUint32.
  change 4%nat with (List.length [a; b; c; d]) at 1.
  rewrite (fread_app f [a; b; c; d] rest H). reflexivity.
Qed.

Lemma ReadUint32_htonl (f : FILE) (v : Z) (rest : list byte) :
  0 <= v < 2 ^ 32 ->
  unread f = htonl v ++ rest ->
  Readicns.ReadUint32 f = (v, advance 4 f).
Proof.
  intros Hv H. unfold htonl in H. simpl in H.
  rewrite (ReadUint32_bytes _ _ _ _ _ _ H).
  f_equal. exact (ntohl_htonl v Hv).
Qed.

Lemma ReadUint32_short (f : FILE) :
  (List.length (unread f) < 4)%nat ->
  Readicns.ReadUint32 f
  = (0, mkFILE (f_data f) (f_pos f + List.length (unread f)) true).
Proof.
  intros H. unfold Readicns.ReadUint32. rewrite fread_short by exact H.
  destruct (Nat.eqb_spec (List.length (unread f)) 4); [lia | reflexivity].
Qed.

End Streams.

(** ** The encoder *)

Section Encoder.
Import Libc Createicns Format.

Lemma WriteUint32_at_end (v : Z) (f : FILE) :
  at_end f ->
  WriteUint32 v f
  = mkFILE (f_data f ++ htonl (to_uint32 v))
      (List.length (f_data f ++ htonl (to_uint32 v))) (f_eof f).
Proof. intros H. unfold WriteUint32. now apply fwrite_at_end. Qed.

Lemma at_end_mk (data : list byte) (e : bool) :
  at_end (mkFILE data (List.length data) e).
Proof. reflexivity. Qed.

Lemma WriteIconToFile_copy_spec (fuel : nat) :
  forall infile outfile,
    (List.length (unread infile) < fuel)%nat ->
    at_end outfile ->
    exists infile',
      WriteIconToFile_copy fuel false infile outfile
      = Ret (true, infile',
             mkFILE (f_data outfile ++ unread infile)
               (List.length (f_data outfile ++ unread infile))
               (f_eof outfile)).
Proof.
  induction fuel as [|fuel IH]; intros infile outfile Hfuel Hend; [lia|].
  cbn [WriteIconToFile_copy].
  destruct (Nat.le_gt_cases kBufferSize (List.length (unread infile)))
    as [Hfull | Hlast].
  - rewrite fread_enough by exact Hfull.
    rewrite length_firstn, Nat.min_l by exact Hfull.
    rewrite andb_false_r.
    rewrite Nat.eqb_refl, (fwrite_at_end _ _ Hend).
    assert (Hk : (0 < kBufferSize)%nat) by (unfold kBufferSize; lia).
    destruct (IH (advance kBufferSize infile)
                (mkFILE (f_data outfile ++ firstn kBufferSize (unread infile))
                   (List.length
                      (f_data outfile ++ firstn kBufferSize (unread infile)))
                   (f_eof outfile))) as [infile' Hrun].
    + rewrite advance_unread, length_skipn. lia.
    + apply at_end_mk.
    + exists infile'. rewrite Hrun. cbn [f_data f_eof].
      rewrite advance_unread, <- app_assoc, firstn_skipn. reflexivity.
  - rewrite fread_short by exact Hlast. rewrite andb_false_r.
    destruct (Nat.eqb_spec (List.length (unread infile)) kBufferSize); [lia|].
    rewrite (fwrite_at_end _ _ Hend). eexists. reflexivity.
Qed.

Lemma fopen_read_some (o : os) (path : string) (data : list byte) :
  os_read o path = Some data ->
  fopen_read o path = Some (data, None).
Proof. intros H. unfold fopen_read. now rewrite H. Qed.

Lemma WriteIconToFile_spec (o : os) (iconset_path icon_filename : string)
  (icon_type : Z) (outfile : FILE) (w : world) (data : list byte) :
  os_read o (iconset_path ++ "/" ++ icon_filename)%string = Some data ->
  at_end outfile ->
  WriteIconToFile o iconset_path icon_filename icon_type outfile w
  = Ret (true,
         mkFILE (f_data outfile ++ chunk icon_type data)
           (List.length (f_data outfile ++ chunk icon_type data))
           (f_eof outfile),
         w).
Proof.
  intros Hread Hend. unfold WriteIconToFile.
  rewrite (fopen_read_some _ _ _ Hread). cbv zeta.
  change (ftell (fseek_end (fopen_r data)))
    with (Z.of_nat (List.length data)).
  destruct (Z.ltb_spec (Z.of_nat (List.length data)) 0); [lia|].
  rewrite (WriteUint32_at_end _ _ Hend).
  rewrite WriteUint32_at_end by apply at_end_mk.
  cbn [f_data f_eof].
  destruct (WriteIconToFile_copy_spec (S (List.length data))
              (fseek_set 0 (fopen_r data))
              (mkFILE
                 ((f_data outfile ++ htonl (to_uint32 icon_type))
                  ++ htonl (to_uint32 (Z.of_nat (List.length data) + 8)))
                 (List.length
                    ((f_data outfile ++ htonl (to_uint32 icon_type))
                     ++ htonl
                          (to_uint32 (Z.of_nat (List.length data) + 8))))
                 (f_eof outfile))) as [infile' Hrun].
  - cbn. lia.
  - apply at_end_mk.
  - rewrite Hrun. cbn [bind f_data f_eof]. unfold chunk.
    change (unread (fseek_set 0 (fopen_r data))) with data.
    rewrite <- !app_assoc. reflexivity.
Qed.

(** An entry that [os_read] does not give: [WriteIconToFile] fails, and has
    written the header of the chunk when it is the first read that fails. *)
Lemma WriteIconToFile_fails (o : os) (iconset_path icon_filename : string)
  (icon_type : Z) (outfile : FILE) (w : world) :
  os_read o (iconset_path ++ "/" ++ icon_filename)%string = None ->
  at_end outfile ->
  WriteIconToFile o iconset_path icon_filename icon_type outfile w
  = Ret (false,
         mkFILE
           (f_data outfile
            ++ dangling o (iconset_path ++ "/" ++ icon_filename)%string
                 icon_type)
           (List.length
              (f_data outfile
               ++ dangling o (iconset_path ++ "/" ++ icon_filename)%string
                    icon_type))
           (f_eof outfile),
         PrintSystemError w).
Proof.
  intros Hread Hend. unfold WriteIconToFile, fopen_read, dangling.
  rewrite Hread.
  assert (Hsame : outfile
                  = mkFILE (f_data outfile ++ [])
                      (List.length (f_data outfile ++ [])) (f_eof outfile))
    by (rewrite app_nil_r, <- Hend; now destruct outfile).
  destruct (os_unreadable o _) as [size|]; [|now rewrite <- Hsame].
  destruct (size <? 0); [now rewrite <- Hsame|].
  rewrite (WriteUint32_at_end _ _ Hend).
  rewrite WriteUint32_at_end by apply at_end_mk.
  cbn [f_data f_eof List.length WriteIconToFile_copy].
  unfold fread. cbn [unread fseek_set fopen_r f_data f_pos skipn List.length
                     Nat.leb kBufferSize].
  cbn [List.length Nat.ltb Nat.leb andb bind].
  now rewrite <- app_assoc.
Qed.

Lemma CreateIcnsFromIconset_loop_spec (o : os) (iconset_path : string)
  (entries : list string) :
  forall icns w,
    at_end icns ->
    CreateIcnsFromIconset_loop o iconset_path entries icns w
    = let '(ok, bs, ms) := chunks o iconset_path entries in
      Ret (ok,
           mkFILE (f_data icns ++ bs) (List.length (f_data icns ++ bs))
             (f_eof icns),
           mkWorld (w_stderr w ++ ms) (w_dirs w) (w_files w)).
Proof.
  induction entries as [|d_name entries IH]; intros icns w Hend.
  - cbn. rewrite !app_nil_r. rewrite <- Hend. now destruct icns, w.
  - cbn [CreateIcnsFromIconset_loop chunks].
    destruct (is_dot d_name).
    { rewrite (IH icns w Hend).
      now destruct (chunks o iconset_path entries) as [[ok bs] ms]. }
    destruct (FindIconType d_name =? 0).
    { rewrite (IH icns _ Hend).
      destruct (chunks o iconset_path entries) as [[ok bs] ms].
      cbn. now rewrite <- app_assoc. }
    destruct (os_read o (iconset_path ++ "/" ++ d_name)%string)
      as [data|] eqn:Hread.
    + rewrite (WriteIconToFile_spec _ _ _ _ _ _ _ Hread Hend).
      cbn [bind]. rewrite IH by apply at_end_mk.
      destruct (chunks o iconset_path entries) as [[ok bs] ms].
      cbn [f_data f_eof]. now rewrite <- !app_assoc.
    + rewrite (WriteIconToFile_fails _ _ _ _ _ _ Hread Hend). cbn [bind].
      now destruct (chunks o iconset_path entries) as [[ok bs] ms].
Qed.

End Encoder.

Section EncoderRun.
Import Libc Createicns Format.

(** The stream that [OpenIcnsFileForIconset] returns holds the magic header
    and a total size of 0, and nothing is printed on that path. *)
Lemma OpenIcnsFileForIconset_some (o : os) (iconset_path : string)
  (w w' : world) (icns_path : string) (icns : FILE) :
  OpenIcnsFileForIconset o iconset_path w = (Some (icns_path, icns), w') ->
  icns = mkFILE (htonl (to_uint32 kMagicHeader) ++ htonl 0) 8 false
  /\ w' = w.
Proof.
  unfold OpenIcnsFileForIconset.
  destruct (basename_r iconset_path) as [path|]; [|discriminate].
  destruct (_ || _); [discriminate|].
  destruct (negb _); [discriminate|].
  intros H. injection H as _ <- <-. split; reflexivity.
Qed.

Lemma WriteIcnsFileMetadata_spec (magic : Z) (bs : list byte) (e : bool) :
  WriteIcnsFileMetadata
    (mkFILE ((htonl magic ++ htonl 0) ++ bs)
       (List.length ((htonl magic ++ htonl 0) ++ bs)) e)
  = mkFILE
      (htonl magic
       ++ htonl (to_uint32 (Z.of_nat (8 + List.length bs))) ++ bs)
      8 false.
Proof.
  unfold WriteIcnsFileMetadata, WriteUint32, fwrite, fseek_set, ftell.
  cbn [f_data f_pos f_eof]. rewrite htonl_length.
  unfold htonl at 1 2 3 4.
  cbn [firstn skipn app Nat.add List.length]. reflexivity.
Qed.

(** The whole run of the encoder, once the directory is listed and the
    container is open. *)
Lemma CreateIcnsFromIconset_spec (o : os) (iconset_path : string) (w : world)
  (entries : list string) (icns_path : string) (icns : FILE) (w0 : world) :
  os_readdir o iconset_path = Some entries ->
  OpenIcnsFileForIconset o iconset_path w = (Some (icns_path, icns), w0) ->
  CreateIcnsFromIconset o iconset_path w
  = let '(ok, bs, ms) := chunks o iconset_path entries in
    let w' := mkWorld (w_stderr w ++ ms) (w_dirs w) (w_files w) in
    if ok : bool
    then Ret (true,
              fclose_w icns_path
                (mkFILE
                   (htonl (to_uint32 kMagicHeader)
                    ++ htonl (to_uint32 (Z.of_nat (8 + List.length bs)))
                    ++ bs) 8 false) w')
    else Ret (false,
              fclose_w icns_path
                (mkFILE ((htonl (to_uint32 kMagicHeader) ++ htonl 0) ++ bs)
                   (List.length
                      ((htonl (to_uint32 kMagicHeader) ++ htonl 0) ++ bs))
                   false) w').
Proof.
  intros Hdir Hopen. unfold CreateIcnsFromIconset. rewrite Hdir, Hopen.
  destruct (OpenIcnsFileForIconset_some _ _ _ _ _ _ Hopen) as [-> ->].
  rewrite CreateIcnsFromIconset_loop_spec by reflexivity.
  destruct (chunks o iconset_path entries) as [[ok bs] ms].
  cbn [bind f_data f_eof]. destruct ok; [|reflexivity].
  now rewrite WriteIcnsFileMetadata_spec.
Qed.

(** The encoder always returns: its loops are bounded by the files it
    reads. *)
Lemma CreateIcnsFromIconset_returns (o : os) (iconset_path : string)
  (w : world) :
  exists ok w', CreateIcnsFromIconset o iconset_path w = Ret (ok, w').
Proof.
  destruct (os_readdir o iconset_path) as [entries|] eqn:Hdir.
  - destruct (OpenIcnsFileForIconset o iconset_path w) as [[[n f]|] w0]
      eqn:Hopen.
    + rewrite (CreateIcnsFromIconset_spec _ _ _ _ _ _ _ Hdir Hopen).
      destruct (chunks o iconset_path entries) as [[[|] bs] ms];
        eexists; eexists; reflexivity.
    + unfold CreateIcnsFromIconset. rewrite Hdir, Hopen.
      eexists; eexists; reflexivity.
  - unfold CreateIcnsFromIconset. rewrite Hdir.
    eexists; eexists; reflexivity.
Qed.

Lemma chunk_length (icon_type : Z) (data : list byte) :
  List.length (chunk icon_type data) = (8 + List.length data)%nat.
Proof. unfold chunk. rewrite !length_app, !htonl_length. lia. Qed.

Lemma total_size_written (magic size : Z) (bs : list byte) :
  total_size (htonl magic ++ htonl (to_uint32 size) ++ bs) = to_uint32 size.
Proof.
  unfold total_size. unfold htonl at 1 2.
  cbn [firstn skipn app]. apply (ntohl_htonl (to_uint32 size)).
  apply to_uint32_range.
Qed.

Lemma chunk_size_at_first (a b c size : Z) (rest : list byte) :
  chunk_size_at 8 (htonl a ++ htonl b ++ htonl c ++ htonl (to_uint32 size) ++ rest)
  = to_uint32 size.
Proof.
  unfold chunk_size_at. unfold htonl at 1 2 3 4.
  cbn [firstn skipn app Nat.add]. apply (ntohl_htonl (to_uint32 size)).
  apply to_uint32_range.
Qed.

End EncoderRun.

(** ** The size fields of the encoder *)

Section EncoderSizes.
Import Libc Createicns Format Examples.

Lemma chunks_icons (o : os) (iconset_path : string) (entries : list string) :
  chunks o iconset_path entries = chunks o iconset_path (icons entries).
Proof.
  induction entries as [|d_name entries IH]; [reflexivity|].
  unfold icons in *. cbn [filter chunks].
  destruct (is_dot d_name) eqn:Hdot; cbn [negb].
  - rewrite <- IH. now destruct (chunks o iconset_path entries) as [[ok bs] ms].
  - cbn [chunks]. rewrite Hdot, IH. reflexivity.
Qed.

Lemma zeros_length (n : Z) : 0 <= n -> Z.of_nat (List.length (zeros n)) = n.
Proof.
  intros Hn. unfold zeros. rewrite repeat_length. now apply Z2Nat.id.
Qed.

Lemma big_png_length : Z.of_nat (List.length big_png) = 4294967288.
Proof. apply zeros_length. lia. Qed.

Lemma full_png_length : Z.of_nat (List.length full_png) = 4294967280.
Proof. apply zeros_length. lia. Qed.

(** What the encoder makes of [single_icon data], whatever the data. *)
Lemma single_icon_run (data : list byte) :
  CreateIcnsFromIconset (single_icon data) "x.iconset" empty_world
  = Ret (true,
         mkWorld [] []
           [("x.icns",
             htonl (to_uint32 kMagicHeader)
             ++ htonl (to_uint32 (Z.of_nat (8 + (8 + List.length data))))
             ++ htonl (to_uint32 (FindIconType "icon_16x16.png"))
             ++ htonl (to_uint32 (Z.of_nat (List.length data) + 8))
             ++ data)]).
Proof.
  rewrite (CreateIcnsFromIconset_spec (single_icon data) "x.iconset"
             empty_world ["."; ".."; "icon_16x16.png"] "x.icns"
             (mkFILE (htonl (to_uint32 kMagicHeader) ++ htonl 0) 8 false)
             empty_world eq_refl eq_refl).
  rewrite chunks_icons.
  change (icons ["."; ".."; "icon_16x16.png"]) with ["icon_16x16.png"].
  change (chunks (single_icon data) "x.iconset" ["icon_16x16.png"])
    with (true, chunk (FindIconType "icon_16x16.png") data ++ [],
          @nil message).
  cbv beta iota zeta. rewrite (app_nil_r (chunk _ _)), chunk_length.
  unfold chunk. reflexivity.
Qed.

(** C3, as stated, fails: a successful encode of a directory that holds one
    icon of 2^32 - 8 bytes writes a container of 2^32 + 8 bytes whose
    total size field is 8. *)
Lemma total_size_field_wraps :
  exists w container,
    CreateIcnsFromIconset (single_icon big_png) "x.iconset" empty_world
    = Ret (true, w)
    /\ w_files w = [("x.icns", container)]
    /\ Z.of_nat (List.length container) = 4294967304
    /\ total_size container = 8
    /\ total_size container <> Z.of_nat (List.length container).
Proof.
  eexists; eexists. split; [apply single_icon_run|].
  split; [reflexivity|].
  assert (Hlen :
    Z.of_nat
      (List.length
         (htonl (to_uint32 kMagicHeader)
          ++ htonl (to_uint32 (Z.of_nat (8 + (8 + List.length big_png))))
          ++ htonl (to_uint32 (FindIconType "icon_16x16.png"))
          ++ htonl (to_uint32 (Z.of_nat (List.length big_png) + 8))
          ++ big_png)) = 4294967304).
  { rewrite !length_app, !htonl_length, !Nat2Z.inj_add, big_png_length.
    reflexivity. }
  assert (Hfield :
    total_size
      (htonl (to_uint32 kMagicHeader)
       ++ htonl (to_uint32 (Z.of_nat (8 + (8 + List.length big_png))))
       ++ htonl (to_uint32 (FindIconType "icon_16x16.png"))
       ++ htonl (to_uint32 (Z.of_nat (List.length big_png) + 8))
       ++ big_png) = 8).
  { rewrite total_size_written, !Nat2Z.inj_add, big_png_length.
    reflexivity. }
  split; [exact Hlen|]. split; [exact Hfield|].
  rewrite Hlen, Hfield. discriminate.
Qed.

(** C3, amended: after a successful encode the total size field of the
    container is its byte length modulo 2^32; it is the exact byte length of
    every container shorter than 2^32 bytes. *)
Theorem total_size_field_is_length (o : os) (iconset_path : string)
  (w w' : world) :
  CreateIcnsFromIconset o iconset_path w = Ret (true, w') ->
  exists icns_path container,
    w_files w'
    = filter (fun e => negb (String.eqb (fst e) icns_path)) (w_files w)
      ++ [(icns_path, container)]
    /\ total_size container = Z.of_nat (List.length container) mod 2 ^ 32
    /\ (Z.of_nat (List.length container) < 2 ^ 32 ->
        total_size container = Z.of_nat (List.length container)).
Proof.
  intros Hrun.
  destruct (os_readdir o iconset_path) as [entries|] eqn:Hdir;
    [|unfold CreateIcnsFromIconset in Hrun; rewrite Hdir in Hrun;
      discriminate].
  destruct (OpenIcnsFileForIconset o iconset_path w) as [[[icns_path f]|] w0]
    eqn:Hopen;
    [|unfold CreateIcnsFromIconset in Hrun; rewrite Hdir, Hopen in Hrun;
      discriminate].
  rewrite (CreateIcnsFromIconset_spec _ _ _ _ _ _ _ Hdir Hopen) in Hrun.
  destruct (chunks o iconset_path entries) as [[[|] bs] ms];
    [|discriminate].
  assert (Hw' :
    w' = fclose_w icns_path
           (mkFILE
              (htonl (to_uint32 kMagicHeader)
               ++ htonl (to_uint32 (Z.of_nat (8 + List.length bs))) ++ bs)
              8 false)
           (mkWorld (w_stderr w ++ ms) (w_dirs w) (w_files w)))
    by congruence.
  subst w'. clear Hrun.
  exists icns_path. eexists. split; [reflexivity|].
  cbn [f_data]. rewrite total_size_written.
  assert (Hlen :
    List.length
      (htonl (to_uint32 kMagicHeader)
       ++ htonl (to_uint32 (Z.of_nat (8 + List.length bs))) ++ bs)
    = (8 + List.length bs)%nat).
  { rewrite !length_app, !htonl_length. lia. }
  rewrite Hlen. split; [reflexivity|].
  intros Hsmall. apply to_uint32_small. lia.
Qed.

Lemma total_size_field_is_length_witness :
  exists w',
    CreateIcnsFromIconset (single_icon png4) "x.iconset" empty_world
    = Ret (true, w')
    /\ exists icns_path container,
         w_files w'
         = filter (fun e => negb (String.eqb (fst e) icns_path))
             (w_files empty_world)
           ++ [(icns_path, container)]
         /\ total_size container
            = Z.of_nat (List.length container) mod 2 ^ 32
         /\ (Z.of_nat (List.length container) < 2 ^ 32 ->
             total_size container = Z.of_nat (List.length container)).
Proof.
  eexists. split; [vm_compute; reflexivity|].
  apply (total_size_field_is_length (single_icon png4) "x.iconset"
           empty_world).
  vm_compute. reflexivity.
Defined.

(** C4, as stated, fails: for [icon_16x16.png] of N = 2^32 - 8 bytes the
    size field of the chunk is 0 and the total size field is 8. *)
Lemma single_icon_size_fields_wrap :
  exists w container,
    CreateIcnsFromIconset (single_icon big_png) "x.iconset" empty_world
    = Ret (true, w)
    /\ w_files w = [("x.icns", container)]
    /\ chunk_size_at 8 container <> 8 + Z.of_nat (List.length big_png)
    /\ total_size container <> 16 + Z.of_nat (List.length big_png).
Proof.
  eexists; eexists. split; [apply single_icon_run|].
  split; [reflexivity|]. split.
  - rewrite chunk_size_at_first, big_png_length. discriminate.
  - rewrite total_size_written, !Nat2Z.inj_add, big_png_length.
    discriminate.
Qed.

(** C4, amended: when [icon_16x16.png], of N bytes with 16 + N < 2^32, is
    the only entry that does not start with a dot, the container is the
    magic header, the total size 16 + N, one chunk of type ['icp4'] and
    size 8 + N, and the N bytes. *)
Theorem single_icon_container (o : os) (iconset_path : string) (w w0 : world)
  (entries : list string) (data : list byte) (icns_path : string)
  (icns : FILE) :
  os_readdir o iconset_path = Some entries ->
  icons entries = ["icon_16x16.png"] ->
  os_read o (iconset_path ++ "/" ++ "icon_16x16.png")%string = Some data ->
  OpenIcnsFileForIconset o iconset_path w = (Some (icns_path, icns), w0) ->
  16 + Z.of_nat (List.length data) < 2 ^ 32 ->
  let container :=
    list_byte_of_string "icns"
    ++ htonl (16 + Z.of_nat (List.length data))
    ++ list_byte_of_string "icp4"
    ++ htonl (8 + Z.of_nat (List.length data))
    ++ data in
  CreateIcnsFromIconset o iconset_path w
  = Ret (true,
         fclose_w icns_path (mkFILE container 8 false) w)
  /\ Z.of_nat (List.length container) = 16 + Z.of_nat (List.length data)
  /\ total_size container = 16 + Z.of_nat (List.length data)
  /\ chunk_type_at 8 container = multichar "i" "c" "p" "4"
  /\ chunk_size_at 8 container = 8 + Z.of_nat (List.length data)
  /\ skipn 16 container = data.
Proof.
  intros Hdir Hicons Hread Hopen Hsmall container.
  assert (Hn := Nat2Z.is_nonneg (List.length data)).
  assert (Hc :
    container
    = htonl kMagicHeader
      ++ htonl (to_uint32 (16 + Z.of_nat (List.length data)))
      ++ htonl (multichar "i" "c" "p" "4")
      ++ htonl (to_uint32 (8 + Z.of_nat (List.length data)))
      ++ data).
  { unfold container. rewrite !to_uint32_small by lia. reflexivity. }
  clearbody container. subst container.
  split; [|split; [|split; [|split; [|split]]]].
  - rewrite (CreateIcnsFromIconset_spec _ _ _ _ _ _ _ Hdir Hopen).
    rewrite chunks_icons, Hicons. cbn [chunks].
    change (is_dot "icon_16x16.png") with false.
    change (FindIconType "icon_16x16.png" =? 0) with false.
    cbv iota. rewrite Hread. cbv beta iota zeta.
    rewrite (app_nil_r (chunk _ _)), (app_nil_r (w_stderr w)), chunk_length.
    unfold chunk.
    replace (Z.of_nat (8 + (8 + List.length data)))
      with (16 + Z.of_nat (List.length data)) by lia.
    replace (Z.of_nat (List.length data) + 8)
      with (8 + Z.of_nat (List.length data)) by lia.
    destruct w; reflexivity.
  - rewrite !length_app, !htonl_length. lia.
  - rewrite total_size_written. apply to_uint32_small. lia.
  - reflexivity.
  - rewrite chunk_size_at_first. apply to_uint32_small. lia.
  - unfold htonl. reflexivity.
Qed.

Lemma single_icon_container_witness :
  let container :=
    list_byte_of_string "icns" ++ htonl 20 ++ list_byte_of_string "icp4"
    ++ htonl 12 ++ png4 in
  CreateIcnsFromIconset (single_icon png4) "x.iconset" empty_world
  = Ret (true, fclose_w "x.icns" (mkFILE container 8 false) empty_world)
  /\ Z.of_nat (List.length container) = 20
  /\ total_size container = 20
  /\ chunk_type_at 8 container = multichar "i" "c" "p" "4"
  /\ chunk_size_at 8 container = 12
  /\ skipn 16 container = png4.
Proof.
  apply (single_icon_container (single_icon png4) "x.iconset" empty_world
           empty_world ["."; ".."; "icon_16x16.png"] png4 "x.icns"
           (mkFILE (htonl (to_uint32 kMagicHeader) ++ htonl 0) 8 false));
    try reflexivity.
Defined.

End EncoderSizes.

(** ** Strings and the table of icon types *)

Section Strings.
Import Libc.

Lemma length_append (s t : string) :
  String.length (s ++ t) = (String.length s + String.length t)%nat.
Proof. induction s as [|c s IH]; simpl; [reflexivity | now rewrite IH]. Qed.

Lemma append_assoc (s t u : string) : ((s ++ t) ++ u = s ++ (t ++ u))%string.
Proof. induction s as [|c s IH]; simpl; [reflexivity | now rewrite IH]. Qed.

Lemma append_nil_r (s : string) : (s ++ "" = s)%string.
Proof. induction s as [|c s IH]; simpl; [reflexivity | now rewrite IH]. Qed.

Lemma take_all (n : nat) (s : string) :
  (String.length s <= n)%nat -> take n s = s.
Proof.
  revert n. induction s as [|c s IH]; intros [|n] H; simpl in *;
    try reflexivity; try lia.
  rewrite IH by lia. reflexivity.
Qed.

Lemma strlcpy_fits (src : string) (size : nat) :
  (String.length src < size)%nat -> strlcpy src size = src.
Proof. intros H. unfold strlcpy. apply take_all. lia. Qed.

Lemma append_inj_l (s t u : string) : (s ++ t = s ++ u)%string -> t = u.
Proof.
  induction s as [|c s IH]; simpl; intros H; [exact H|].
  injection H as H. now apply IH.
Qed.

Lemma FindIconType_cases (name : string) :
  Createicns.FindIconType name = 0
  \/ In name (map fst Createicns.kIconTypes).
Proof.
  unfold Createicns.FindIconType, Createicns.kIconTypes.
  cbn [find fst snd].
  repeat match goal with
         | |- context [String.eqb ?a name] =>
             destruct (String.eqb_spec a name) as [<-|_];
             [right; cbn [In map fst]; auto 20|]
         end.
  now left.
Qed.

(** A name that [FindIconType] knows has a type that is a non-zero
    [uint32_t], which [GetFilenameFromType] maps back to the name; the names
    of the table have at most 19 characters. *)
Lemma FindIconType_known (name : string) :
  Createicns.FindIconType name <> 0 ->
  Readicns.GetFilenameFromType (Createicns.FindIconType name) = Some name
  /\ 0 < Createicns.FindIconType name < 2 ^ 32
  /\ (String.length name <= 19)%nat.
Proof.
  intros Hknown.
  destruct (FindIconType_cases name) as [H|H]; [contradiction|].
  cbn in H.
  repeat (destruct H as [<-|H];
          [split; [reflexivity|];
           split; [vm_compute; split; reflexivity | cbn; lia]|]).
  contradiction.
Qed.

(** A type that [GetFilenameFromType] knows is the type of its name. *)
Lemma GetFilenameFromType_known (type : Z) (name : string) :
  Readicns.GetFilenameFromType type = Some name ->
  Createicns.FindIconType name = type.
Proof.
  unfold Readicns.GetFilenameFromType, Readicns.kIconTypes.
  cbn [find fst snd].
  repeat match goal with
         | |- context [Z.eqb ?a type] =>
             destruct (Z.eqb_spec a type) as [<-|_];
             [cbn [option_map fst]; intros H; injection H as <-;
              vm_compute; reflexivity|]
         end.
  discriminate.
Qed.

End Strings.

(** ** The decoder *)

Section Decoder.
Import Libc Readicns Format.

Lemma CopyIconToIconset_copy_spec (fuel : nat) :
  forall size icns target payload rest,
    unread icns = payload ++ rest ->
    Z.of_nat (List.length payload) = size ->
    (List.length payload <= fuel)%nat ->
    at_end target ->
    CopyIconToIconset_copy fuel size icns target
    = Ret (true, advance (List.length payload) icns,
           mkFILE (f_data target ++ payload)
             (List.length (f_data target ++ payload)) (f_eof target)).
Proof.
  induction fuel as [|fuel IH]; intros size icns target payload rest
    Hunread Hsize Hfuel Hend.
  - destruct payload; [|simpl in Hfuel; lia].
    subst size. cbn. rewrite advance_0, app_nil_r, <- Hend.
    now destruct target.
  - cbn [CopyIconToIconset_copy].
    destruct (Z.ltb_spec 0 size) as [Hpos|Hzero].
    2:{ destruct payload; [|simpl in Hsize; lia].
        rewrite advance_0, app_nil_r, <- Hend. now destruct target. }
    set (to_read := if kBufferSize <? size then kBufferSize else size).
    assert (Hto : 0 < to_read <= size /\ to_read <= kBufferSize).
    { unfold to_read, kBufferSize.
      destruct (Z.ltb_spec 1024 size); lia. }
    assert (Hk : (Z.to_nat to_read <= List.length payload)%nat) by lia.
    rewrite fread_enough
      by (rewrite Hunread, length_app; lia).
    rewrite length_firstn, Nat.min_l
      by (rewrite Hunread, length_app; lia).
    rewrite Z2Nat.id by lia. rewrite Z.eqb_refl. cbn [negb].
    rewrite (fwrite_at_end _ _ Hend).
    rewrite (IH (size - to_read) (advance (Z.to_nat to_read) icns) _
               (skipn (Z.to_nat to_read) payload) rest).
    + rewrite advance_advance. cbn [f_data f_eof].
      rewrite length_skipn, Hunread.
      rewrite firstn_app.
      replace (Z.to_nat to_read - List.length payload)%nat with 0%nat by lia.
      rewrite firstn_O, app_nil_r, <- app_assoc, firstn_skipn.
      replace (Z.to_nat to_read + (List.length payload - Z.to_nat to_read))%nat
        with (List.length payload) by lia.
      reflexivity.
    + rewrite advance_unread, Hunread, skipn_app.
      replace (Z.to_nat to_read - List.length payload)%nat with 0%nat by lia.
      reflexivity.
    + rewrite length_skipn. lia.
    + rewrite length_skipn. lia.
    + apply at_end_mk.
Qed.

Lemma CopyIconToIconset_path_known (iconset_path : string) (header : Z)
  (name : string) :
  GetFilenameFromType header = Some name ->
  (String.length iconset_path + 1 + String.length name < MAXPATHLEN)%nat ->
  CopyIconToIconset_path iconset_path header
  = Ret (iconset_path ++ "/" ++ name)%string.
Proof.
  intros Hname Hfit. unfold CopyIconToIconset_path. rewrite Hname.
  rewrite length_append. cbn [String.length].
  destruct (Z.leb_spec
              (Z.of_nat MAXPATHLEN
               - Z.of_nat (String.length iconset_path + 1)) 0); [lia|].
  rewrite strlcpy_fits by lia. now rewrite append_assoc.
Qed.

Lemma skipn_htonl (v : Z) (l : list byte) : skipn 4 (htonl v ++ l) = l.
Proof. reflexivity. Qed.

(** [CopyIconToIconset] on a stream that stands before a chunk of a known
    type with a payload that is not empty. *)
Lemma CopyIconToIconset_chunk (o : os) (iconset_path : string) (icns : FILE)
  (w : world) (name : string) (data rest : list byte) :
  unread icns = chunk (Createicns.FindIconType name) data ++ rest ->
  Createicns.FindIconType name <> 0 ->
  data <> [] ->
  Z.of_nat (List.length data) + 8 < 2 ^ 32 ->
  (String.length iconset_path + 21 <= MAXPATHLEN)%nat ->
  create_ok o (iconset_path ++ "/" ++ name)%string = true ->
  CopyIconToIconset o icns iconset_path w
  = Ret (true, advance (8 + List.length data) icns,
         fclose_w (iconset_path ++ "/" ++ name)%string
           (mkFILE data (List.length data) false) w).
Proof.
  intros Hunread Hknown Hdata Hsize Hfit Hcreate.
  destruct (FindIconType_known name Hknown) as (Hname & Htype & Hlen).
  assert (Hpos : (0 < List.length data)%nat)
    by (destruct data; [congruence | simpl; lia]).
  unfold chunk in Hunread. rewrite <- !app_assoc in Hunread.
  rewrite (to_uint32_small (Createicns.FindIconType name)) in Hunread by lia.
  rewrite (to_uint32_small (_ + 8)) in Hunread by lia.
  unfold CopyIconToIconset.
  rewrite (ReadUint32_htonl icns _ _ (conj (Z.lt_le_incl _ _ (proj1 Htype))
                                        (proj2 Htype)) Hunread).
  destruct (Z.eqb_spec (Createicns.FindIconType name) 0); [contradiction|].
  cbn [andb].
  assert (Hunread4 :
    unread (advance 4 icns)
    = htonl (Z.of_nat (List.length data) + 8) ++ data ++ rest).
  { rewrite advance_unread, Hunread. apply skipn_htonl. }
  assert (Hrange : 0 <= Z.of_nat (List.length data) + 8 < 2 ^ 32) by lia.
  rewrite (ReadUint32_htonl (advance 4 icns) _ _ Hrange Hunread4).
  destruct (Z.leb_spec (Z.of_nat (List.length data) + 8) 8); [lia|].
  rewrite (CopyIconToIconset_path_known _ _ _ Hname) by lia.
  cbn [bind]. rewrite Hcreate. cbn [negb].
  assert (Hunread8 : unread (advance 4 (advance 4 icns)) = data ++ rest).
  { rewrite advance_unread, Hunread4. apply skipn_htonl. }
  rewrite (CopyIconToIconset_copy_spec _ _ _ fopen_w data rest Hunread8);
    [|lia|rewrite Hunread8, length_app; lia|reflexivity].
  cbn [bind fopen_w f_data f_eof app].
  rewrite !advance_advance. reflexivity.
Qed.

(** A length field of at most 8 is the format error. *)
Lemma CopyIconToIconset_invalid_size (o : os) (icns : FILE)
  (iconset_path : string) (w : world) (a b c d : byte) (v : Z)
  (rest : list byte) :
  unread icns = a :: b :: c :: d :: htonl v ++ rest ->
  0 <= v <= 8 ->
  feof icns = false ->
  CopyIconToIconset o icns iconset_path w
  = Ret (false, advance 8 icns, PrintError "Invalid size in .icns file" w).
Proof.
  intros Hunread Hv Heof. unfold CopyIconToIconset.
  rewrite (ReadUint32_bytes icns a b c d _ Hunread).
  change (feof (advance 4 icns)) with (feof icns). rewrite Heof, andb_false_r.
  assert (Hunread4 : unread (advance 4 icns) = htonl v ++ rest)
    by (rewrite advance_unread, Hunread; reflexivity).
  assert (Hrange : 0 <= v < 2 ^ 32) by lia.
  rewrite (ReadUint32_htonl (advance 4 icns) v rest Hrange Hunread4).
  destruct (Z.leb_spec v 8); [|lia].
  now rewrite advance_advance.
Qed.

(** The stream at the end of the data: one more turn of the loop reads no
    header, sees the end of the file and stops the decoder with success. *)
Lemma CreateIconsetFromIcns_loop_end (o : os) (fuel : nat) (icns : FILE)
  (iconset_path : string) (w : world) :
  unread icns = [] ->
  CreateIconsetFromIcns_loop o (S fuel) icns iconset_path w = Ret (true, w).
Proof.
  intros Hunread. cbn [CreateIconsetFromIcns_loop].
  destruct (feof icns); [reflexivity|].
  unfold CopyIconToIconset.
  rewrite ReadUint32_short by (rewrite Hunread; simpl; lia).
  cbn [feof f_eof andb Z.eqb bind].
  destruct fuel; reflexivity.
Qed.

Lemma CreateIconsetFromIcns_loop_chunks (o : os) (iconset_path : string)
  (items : list (string * list byte)) :
  forall fuel icns w,
    unread icns = List.concat (map item_chunk items) ->
    feof icns = false ->
    (List.length (unread icns) < fuel)%nat ->
    Forall (fun item =>
              Createicns.FindIconType (fst item) <> 0
              /\ snd item <> []
              /\ Z.of_nat (List.length (snd item)) + 8 < 2 ^ 32
              /\ create_ok o (iconset_path ++ "/" ++ fst item)%string = true)
      items ->
    (String.length iconset_path + 21 <= MAXPATHLEN)%nat ->
    CreateIconsetFromIcns_loop o fuel icns iconset_path w
    = Ret (true, fold_left (store iconset_path) items w).
Proof.
  induction items as [|[name data] items IH];
    intros fuel icns w Hunread Heof Hfuel Hitems Hfit.
  - destruct fuel; [lia|]. now apply CreateIconsetFromIcns_loop_end.
  - destruct fuel; [lia|].
    inversion Hitems as [|? ? (Hknown & Hdata & Hsize & Hcreate) Hrest];
      subst.
    cbn [fst snd] in *.
    cbn [CreateIconsetFromIcns_loop]. rewrite Heof.
    cbn [map List.concat] in Hunread. unfold item_chunk at 1 in Hunread.
    cbn [fst snd] in Hunread.
    rewrite (CopyIconToIconset_chunk o iconset_path icns w name data _
               Hunread Hknown Hdata Hsize Hfit Hcreate).
    cbn [bind fold_left].
    apply IH; try assumption.
    + rewrite advance_unread, Hunread.
      rewrite <- (chunk_length (Createicns.FindIconType name) data).
      rewrite skipn_app, skipn_all, Nat.sub_diag. reflexivity.
    + rewrite advance_unread, length_skipn.
      assert (Hlen := f_equal (@List.length byte) Hunread).
      rewrite length_app, chunk_length in Hlen. lia.
Qed.

End Decoder.

(** ** Encoding, then decoding *)

Section RoundTrip.
Import Libc Format Examples.

Lemma triple_inj {A B C : Type} (a a' : A) (b b' : B) (c c' : C) :
  (a, b, c) = (a', b', c') -> a = a' /\ b = b' /\ c = c'.
Proof. intros H. repeat split; congruence. Qed.

Lemma chunks_known (o : os) (iconset_path : string) (entries : list string) :
  forall bs ms,
    chunks o iconset_path entries = (true, bs, ms) ->
    (forall name, In name (icons entries) ->
                  Createicns.FindIconType name <> 0) ->
    bs = List.concat (map item_chunk (iconset o iconset_path entries))
    /\ ms = [].
Proof.
  unfold iconset, icons.
  induction entries as [|d_name entries IH]; intros bs ms Hrun Hknown.
  - apply triple_inj in Hrun. destruct Hrun as (_ & <- & <-).
    split; reflexivity.
  - cbn [chunks] in Hrun. cbn [filter] in *.
    destruct (chunks o iconset_path entries) as [[ok bs'] ms'] eqn:Hrec.
    destruct (Createicns.is_dot d_name); cbn [negb] in *.
    { apply triple_inj in Hrun. destruct Hrun as (-> & <- & <-).
      now apply IH. }
    assert (Hk : Createicns.FindIconType d_name <> 0)
      by (apply Hknown; now left).
    destruct (Z.eqb_spec (Createicns.FindIconType d_name) 0);
      [contradiction|].
    cbn [map List.concat]. unfold item_chunk at 1.
    cbn [fst snd]. unfold payload at 1.
    destruct (os_read o (iconset_path ++ "/" ++ d_name)%string);
      [|discriminate].
    apply triple_inj in Hrun. destruct Hrun as (-> & <- & <-).
    destruct (IH bs' ms' eq_refl) as [-> ->];
      [intros; apply Hknown; now right|].
    split; reflexivity.
Qed.

Lemma filter_absent (path : string) (files : list (string * list byte)) :
  Forall (fun e => fst e <> path) files ->
  filter (fun e => negb (String.eqb (fst e) path)) files = files.
Proof.
  induction 1 as [|e files He _ IH]; [reflexivity|].
  cbn [filter]. destruct (String.eqb_spec (fst e) path); [contradiction|].
  cbn [negb]. now rewrite IH.
Qed.

Lemma fold_store (dir : string) (items : list (string * list byte)) :
  forall w,
    NoDup (map fst items) ->
    Forall (fun e => forall item, In item items ->
                                  fst e <> (dir ++ "/" ++ fst item)%string)
      (w_files w) ->
    fold_left (store dir) items w
    = mkWorld (w_stderr w) (w_dirs w) (w_files w ++ in_directory dir items).
Proof.
  induction items as [|[name data] items IH]; intros w Hnodup Hfresh.
  - cbn. rewrite app_nil_r. now destruct w.
  - cbn [fold_left]. cbn [map fst] in Hnodup.
    inversion Hnodup as [|? ? Hnotin Hnodup']; subst.
    rewrite IH; [| exact Hnodup' |].
    + unfold store, fclose_w. cbn [w_stderr w_dirs w_files fst snd f_data].
      rewrite filter_absent.
      * unfold in_directory. cbn [map fst snd]. now rewrite <- app_assoc.
      * eapply Forall_impl; [|exact Hfresh].
        intros e He. apply (He (name, data)). now left.
    + unfold store, fclose_w. cbn [w_files fst snd f_data].
      rewrite filter_absent.
      * apply Forall_app. split.
        -- eapply Forall_impl; [|exact Hfresh].
           intros e He item Hitem. apply He. now right.
        -- constructor; [|constructor].
           cbn [fst]. intros item Hitem Heq.
           apply append_inj_l in Heq. cbn in Heq. injection Heq as Heq.
           apply Hnotin. rewrite Heq. now apply in_map.
      * eapply Forall_impl; [|exact Hfresh].
        intros e He. apply (He (name, data)). now left.
Qed.

Lemma GetIconsetPath_some (icns_path dir : string) (w w' : world) :
  Readicns.GetIconsetPath icns_path w = (dir, w') ->
  Readicns.IsEmpty dir = false ->
  w' = w.
Proof.
  unfold Readicns.GetIconsetPath.
  destruct (Readicns.Basename icns_path) as [path|].
  - destruct (strstr path Readicns.kIcnsExtension).
    + intros H _. now injection H as _ <-.
    + intros H. injection H as <- _. discriminate.
  - intros H. injection H as <- _. discriminate.
Qed.

Lemma unread_after_header (a b : Z) (bs : list byte) :
  unread (advance 4 (advance 4 (fopen_r (htonl a ++ htonl b ++ bs)))) = bs.
Proof. reflexivity. Qed.

(** The decoder on a file that starts with the magic header and a total
    size that is not zero: the directory is made and the loop runs on what
    follows the 8 bytes. *)
Lemma CreateIconsetFromIcns_open (o : os) (icns_path dir : string) (w : world)
  (size : Z) (bs : list byte) :
  os_read o icns_path = Some (htonl Readicns.kMagicHeader ++ htonl size ++ bs) ->
  0 < size < 2 ^ 32 ->
  Readicns.GetIconsetPath icns_path w = (dir, w) ->
  Readicns.IsEmpty dir = false ->
  mkdir_ok o dir = true ->
  Readicns.CreateIconsetFromIcns o icns_path w
  = Readicns.CreateIconsetFromIcns_loop o (S (List.length bs))
      (advance 4
         (advance 4
            (fopen_r (htonl Readicns.kMagicHeader ++ htonl size ++ bs))))
      dir (mkdir dir w).
Proof.
  intros Hread Hsize Hpath Hdir Hmkdir.
  unfold Readicns.CreateIconsetFromIcns, Readicns.OpenIcnsFileForReading.
  rewrite (fopen_read_some _ _ _ Hread).
  set (icns := fopen_r (htonl Readicns.kMagicHeader ++ htonl size ++ bs)).
  assert (Hmagic : 0 <= Readicns.kMagicHeader < 2 ^ 32)
    by (vm_compute; split; [discriminate | reflexivity]).
  rewrite (ReadUint32_htonl icns _ (htonl size ++ bs) Hmagic eq_refl).
  rewrite Z.eqb_refl. cbn [negb].
  assert (Hrange : 0 <= size < 2 ^ 32) by lia.
  rewrite (ReadUint32_htonl (advance 4 icns) size bs Hrange eq_refl).
  destruct (Z.eqb_spec size 0); [lia|].
  rewrite Hpath, Hdir, Hmkdir. cbn [negb]. reflexivity.
Qed.

Lemma iconset_names (o : os) (iconset_path : string) (entries : list string) :
  map fst (iconset o iconset_path entries) = icons entries.
Proof.
  unfold iconset. rewrite map_map. cbn [fst]. apply map_id.
Qed.

(** The container that the encoder makes of a directory with the one icon
    [icon_16x16.png], as [single_icon_run] gives it. *)
Lemma single_icon_decoded_invalid_size (data : list byte) :
  to_uint32 (Z.of_nat (8 + (8 + List.length data))) <> 0 ->
  to_uint32 (Z.of_nat (List.length data) + 8) <= 8 ->
  Readicns.CreateIconsetFromIcns
    (single_file "x.icns"
       (htonl (to_uint32 Createicns.kMagicHeader)
        ++ htonl (to_uint32 (Z.of_nat (8 + (8 + List.length data))))
        ++ htonl (to_uint32 (Createicns.FindIconType "icon_16x16.png"))
        ++ htonl (to_uint32 (Z.of_nat (List.length data) + 8))
        ++ data))
    "x.icns" empty_world
  = Ret (false,
         mkWorld [Error "Invalid size in .icns file"] ["x.iconset"] []).
Proof.
  intros Htotal Hchunk.
  pose proof (to_uint32_range (Z.of_nat (8 + (8 + List.length data)))).
  pose proof (to_uint32_range (Z.of_nat (List.length data) + 8)).
  rewrite (CreateIconsetFromIcns_open _ "x.icns" "x.iconset" empty_world
             (to_uint32 (Z.of_nat (8 + (8 + List.length data))))
             (htonl (to_uint32 (Createicns.FindIconType "icon_16x16.png"))
              ++ htonl (to_uint32 (Z.of_nat (List.length data) + 8))
              ++ data));
    [|reflexivity|lia|reflexivity|reflexivity|reflexivity].
  cbn [Readicns.CreateIconsetFromIcns_loop].
  change (feof (advance 4 (advance 4 (fopen_r _)))) with false. cbv iota.
  rewrite (CopyIconToIconset_invalid_size _ _ _ _
             "i"%byte "c"%byte "p"%byte "4"%byte
             (to_uint32 (Z.of_nat (List.length data) + 8)) data);
    [reflexivity|now rewrite unread_after_header|lia|reflexivity].
Qed.

Lemma single_icon_decoded_empty (data : list byte) :
  to_uint32 (Z.of_nat (8 + (8 + List.length data))) = 0 ->
  Readicns.CreateIconsetFromIcns
    (single_file "x.icns"
       (htonl (to_uint32 Createicns.kMagicHeader)
        ++ htonl (to_uint32 (Z.of_nat (8 + (8 + List.length data))))
        ++ htonl (to_uint32 (Createicns.FindIconType "icon_16x16.png"))
        ++ htonl (to_uint32 (Z.of_nat (List.length data) + 8))
        ++ data))
    "x.icns" empty_world
  = Ret (false,
         mkWorld [Error "This looks like an empty .icns file."] [] []).
Proof.
  intros Htotal. rewrite Htotal.
  unfold Readicns.CreateIconsetFromIcns, Readicns.OpenIcnsFileForReading.
  change (fopen_read (single_file "x.icns" ?c) "x.icns")
    with (Some (c, @None Z)).
  cbv iota.
  rewrite (ReadUint32_htonl (fopen_r _) Readicns.kMagicHeader
             (htonl 0
              ++ htonl (to_uint32 (Createicns.FindIconType "icon_16x16.png"))
              ++ htonl (to_uint32 (Z.of_nat (List.length data) + 8))
              ++ data));
    [|vm_compute; split; [discriminate|reflexivity]|reflexivity].
  rewrite Z.eqb_refl. cbn [negb].
  rewrite (ReadUint32_htonl (advance 4 (fopen_r _)) 0
             (htonl (to_uint32 (Createicns.FindIconType "icon_16x16.png"))
              ++ htonl (to_uint32 (Z.of_nat (List.length data) + 8))
              ++ data));
    [|lia|reflexivity].
  reflexivity.
Qed.

(** C1, as stated, fails, in three ways. An iconset that holds an empty
    [icon_16x16.png] is encoded with success, and the decoder rejects the
    length 8 of its chunk. With an icon of 2^32 - 8 bytes the length field
    of the chunk is 0, which the decoder rejects. With an icon of 2^32 - 16
    bytes the container has 2^32 bytes and its total size field is 0, which
    the decoder rejects as an empty container. *)
Lemma roundtrip_fails_on_empty_or_oversized_icon :
  (exists w container,
      Createicns.CreateIcnsFromIconset (single_icon []) "x.iconset"
        empty_world = Ret (true, w)
      /\ w_files w = [("x.icns", container)]
      /\ Readicns.CreateIconsetFromIcns (single_file "x.icns" container)
           "x.icns" empty_world
         = Ret (false,
                mkWorld [Error "Invalid size in .icns file"] ["x.iconset"]
                  []))
  /\ (exists w container,
         Createicns.CreateIcnsFromIconset (single_icon big_png) "x.iconset"
           empty_world = Ret (true, w)
         /\ w_files w = [("x.icns", container)]
         /\ Readicns.CreateIconsetFromIcns (single_file "x.icns" container)
              "x.icns" empty_world
            = Ret (false,
                   mkWorld [Error "Invalid size in .icns file"] ["x.iconset"]
                     []))
  /\ (exists w container,
         Createicns.CreateIcnsFromIconset (single_icon full_png) "x.iconset"
           empty_world = Ret (true, w)
         /\ w_files w = [("x.icns", container)]
         /\ Readicns.CreateIconsetFromIcns (single_file "x.icns" container)
              "x.icns" empty_world
            = Ret (false,
                   mkWorld [Error "This looks like an empty .icns file."] []
                     [])).
Proof.
  split; [|split].
  - eexists; eexists.
    split; [vm_compute; reflexivity|]. split; [reflexivity|].
    vm_compute. reflexivity.
  - eexists; eexists. split; [apply single_icon_run|].
    split; [reflexivity|].
    apply single_icon_decoded_invalid_size.
    + rewrite !Nat2Z.inj_add, big_png_length. discriminate.
    + rewrite big_png_length. discriminate.
  - eexists; eexists. split; [apply single_icon_run|].
    split; [reflexivity|].
    apply single_icon_decoded_empty.
    rewrite !Nat2Z.inj_add, full_png_length. reflexivity.
Qed.

(** C1, amended: when every entry of the directory that does not start with
    a dot is a name of the table and a file that is not empty and has less
    than 2^32 - 8 bytes, and the byte length of the container that a
    successful encode produces is not a multiple of 2^32, then decoding the
    container succeeds and writes exactly those files, with their bytes,
    under their names, in the order of the listing, whatever that order is.
    The decoder must be able to make the directory and the files, and the
    path of the directory must leave room for the names in the path
    buffer. *)
Theorem roundtrip (o : os) (iconset_path : string) (entries : list string)
  (w w1 : world) (icns_path : string) (container : list byte)
  (o' : os) (path dir : string) (w2 : world) :
  os_readdir o iconset_path = Some entries ->
  NoDup (icons entries) ->
  (forall name, In name (icons entries) ->
                Createicns.FindIconType name <> 0) ->
  (forall name, In name (icons entries) ->
                payload o iconset_path name <> []) ->
  (forall name, In name (icons entries) ->
                Z.of_nat (List.length (payload o iconset_path name)) + 8
                < 2 ^ 32) ->
  Createicns.CreateIcnsFromIconset o iconset_path w = Ret (true, w1) ->
  last (w_files w1) ("", []) = (icns_path, container) ->
  Z.of_nat (List.length container) mod 2 ^ 32 <> 0 ->
  os_read o' path = Some container ->
  Readicns.GetIconsetPath path w2 = (dir, w2) ->
  Readicns.IsEmpty dir = false ->
  (String.length dir + 21 <= MAXPATHLEN)%nat ->
  mkdir_ok o' dir = true ->
  (forall name, In name (icons entries) ->
                create_ok o' (dir ++ "/" ++ name)%string = true) ->
  w_files w2 = [] ->
  Readicns.CreateIconsetFromIcns o' path w2
  = Ret (true,
         mkWorld (w_stderr w2) (w_dirs w2 ++ [dir])
           (in_directory dir (iconset o iconset_path entries))).
Proof.
  intros Hdir Hnodup Hknown Hdata Hbound Hrun Hlast Htotal Hread Hpath Hempty
    Hfit Hmkdir Hcreate Hfiles.
  (* the container that the encoder wrote *)
  destruct (Createicns.OpenIcnsFileForIconset o iconset_path w)
    as [[[icns_path' f]|] w0] eqn:Hopen;
    [|unfold Createicns.CreateIcnsFromIconset in Hrun;
      rewrite Hdir, Hopen in Hrun; discriminate].
  rewrite (CreateIcnsFromIconset_spec _ _ _ _ _ _ _ Hdir Hopen) in Hrun.
  destruct (chunks o iconset_path entries) as [[[|] bs] ms] eqn:Hchunks;
    [|discriminate].
  destruct (chunks_known _ _ _ _ _ Hchunks Hknown) as [Hbs ->].
  cbv zeta in Hrun.
  assert (Hw1 :=
    f_equal (fun r => match r with Ret (_, x) => x | _ => w1 end) Hrun).
  cbv beta iota in Hw1. symmetry in Hw1.
  clear Hrun. subst w1.
  unfold fclose_w in Hlast. cbn [w_files f_data] in Hlast.
  rewrite last_last in Hlast.
  assert (Hcontainer := f_equal snd Hlast).
  cbn [snd] in Hcontainer. symmetry in Hcontainer.
  change (to_uint32 Createicns.kMagicHeader) with Readicns.kMagicHeader
    in Hcontainer.
  clear Hlast.
  assert (Hlen : List.length container = (8 + List.length bs)%nat).
  { rewrite Hcontainer, !length_app, !htonl_length. lia. }
  rewrite Hlen in Htotal. fold (to_uint32 (Z.of_nat (8 + List.length bs)))
    in Htotal.
  pose proof (to_uint32_range (Z.of_nat (8 + List.length bs))) as Hrange.
  (* the decoder on it *)
  rewrite Hcontainer in Hread.
  rewrite (CreateIconsetFromIcns_open o' path dir w2 _ bs Hread)
    by (assumption || lia).
  rewrite (CreateIconsetFromIcns_loop_chunks o' dir
             (iconset o iconset_path entries)).
  - rewrite fold_store.
    + cbn [mkdir w_stderr w_dirs w_files]. now rewrite Hfiles.
    + now rewrite iconset_names.
    + cbn [mkdir w_files]. rewrite Hfiles. constructor.
  - rewrite unread_after_header. exact Hbs.
  - reflexivity.
  - rewrite unread_after_header. lia.
  - apply Forall_forall. intros [name data] Hin.
    unfold iconset in Hin. apply in_map_iff in Hin.
    destruct Hin as (name' & Heq & Hin).
    injection Heq as -> <-. cbn [fst snd].
    repeat split.
    + now apply Hknown.
    + now apply Hdata.
    + now apply Hbound.
    + now apply Hcreate.
  - exact Hfit.
Qed.

Lemma roundtrip_witness :
  Readicns.CreateIconsetFromIcns
    (single_file "x.icns"
       (list_byte_of_string "icns" ++ htonl 20 ++ list_byte_of_string "icp4"
        ++ htonl 12 ++ png4))
    "x.icns" empty_world
  = Ret (true,
         mkWorld (w_stderr empty_world) (w_dirs empty_world ++ ["x.iconset"])
           (in_directory "x.iconset"
              (iconset (single_icon png4) "x.iconset"
                 ["."; ".."; "icon_16x16.png"]))).
Proof.
  apply (roundtrip (single_icon png4) "x.iconset"
           ["."; ".."; "icon_16x16.png"] empty_world
           (mkWorld [] []
              [("x.icns",
                list_byte_of_string "icns" ++ htonl 20
                ++ list_byte_of_string "icp4" ++ htonl 12 ++ png4)])
           "x.icns"
           (list_byte_of_string "icns" ++ htonl 20
            ++ list_byte_of_string "icp4" ++ htonl 12 ++ png4)
           (single_file "x.icns"
              (list_byte_of_string "icns" ++ htonl 20
               ++ list_byte_of_string "icp4" ++ htonl 12 ++ png4))
           "x.icns" "x.iconset" empty_world).
  - reflexivity.
  - constructor; [intros []|constructor].
  - intros name [<-|[]]. vm_compute. discriminate.
  - intros name [<-|[]]. vm_compute. discriminate.
  - intros name [<-|[]]. vm_compute. reflexivity.
  - vm_compute. reflexivity.
  - reflexivity.
  - vm_compute. discriminate.
  - reflexivity.
  - reflexivity.
  - reflexivity.
  - vm_compute. lia.
  - reflexivity.
  - intros name _. reflexivity.
  - reflexivity.
Defined.

(** The order of the listing only decides the order in which the files are
    written: two listings of the same entries give the same files. *)
Lemma roundtrip_any_order (o : os) (iconset_path dir : string)
  (entries entries' : list string) :
  Permutation entries entries' ->
  Permutation (in_directory dir (iconset o iconset_path entries))
    (in_directory dir (iconset o iconset_path entries')).
Proof.
  intros Hperm. unfold in_directory, iconset, icons.
  do 2 apply Permutation_map.
  induction Hperm as [|x l l' _ IH|x y l|l l' l'' _ IH1 _ IH2].
  - constructor.
  - cbn [filter]. destruct (negb (Createicns.is_dot x));
      [now constructor | exact IH].
  - cbn [filter].
    destruct (negb (Createicns.is_dot x)), (negb (Createicns.is_dot y));
      try reflexivity.
    apply perm_swap.
  - now transitivity (filter (fun d => negb (Createicns.is_dot d)) l').
Qed.

End RoundTrip.

(** ** The checks of the decoder *)

Section DecoderChecks.
Import Libc Readicns Format Examples.

Lemma byte_of_Z_eq (z : Z) (b : byte) :
  z mod 256 = Z_of_byte b -> byte_of_Z z = b.
Proof.
  intros H. rewrite <- (byte_of_Z_of_byte b). unfold byte_of_Z.
  rewrite H. rewrite (Z.mod_small (Z_of_byte b)); [reflexivity|].
  apply Z_of_byte_range.
Qed.

Lemma htonl_ntohl (a b c d : byte) : htonl (ntohl [a; b; c; d]) = [a; b; c; d].
Proof.
  unfold htonl, ntohl.
  pose proof (Z_of_byte_range a). pose proof (Z_of_byte_range b).
  pose proof (Z_of_byte_range c). pose proof (Z_of_byte_range d).
  rewrite !Z.shiftr_div_pow2 by lia.
  change (2 ^ 24) with 16777216. change (2 ^ 16) with 65536.
  change (2 ^ 8) with 256.
  repeat f_equal; apply byte_of_Z_eq; Z.div_mod_to_equations; lia.
Qed.

Lemma ntohl_inj (a b c d a' b' c' d' : byte) :
  ntohl [a; b; c; d] = ntohl [a'; b'; c'; d'] ->
  [a; b; c; d] = [a'; b'; c'; d'].
Proof.
  intros H. rewrite <- (htonl_ntohl a b c d), <- (htonl_ntohl a' b' c' d').
  now rewrite H.
Qed.

(** The header word that [OpenIcnsFileForReading] reads is the magic header
    only when the file starts with the four bytes of "icns". *)
Lemma ReadUint32_magic (data : list byte) :
  fst (ReadUint32 (fopen_r data)) = kMagicHeader ->
  firstn 4 data = list_byte_of_string "icns".
Proof.
  destruct data as [|a [|b [|c [|d rest]]]];
    try (vm_compute; discriminate).
  rewrite (ReadUint32_bytes (fopen_r (a :: b :: c :: d :: rest)) a b c d rest
             eq_refl).
  cbn [fst firstn]. intros H.
  change kMagicHeader with (ntohl (list_byte_of_string "icns")) in H.
  exact (ntohl_inj _ _ _ _ _ _ _ _ H).
Qed.

(** C7: a file whose first 4 bytes are not the magic header makes the decoder
    fail with the message of the bad header, before any directory or file
    is made. *)
Theorem bad_magic_fails_before_mkdir (o : os) (icns_path : string)
  (data : list byte) (w : world) :
  os_read o icns_path = Some data ->
  firstn 4 data <> list_byte_of_string "icns" ->
  exists w',
    CreateIconsetFromIcns o icns_path w = Ret (false, w')
    /\ w_stderr w'
       = w_stderr w ++ [Error "This doesn't look like an Apple .icns file."]
    /\ w_dirs w' = w_dirs w
    /\ w_files w' = w_files w.
Proof.
  intros Hread Hmagic.
  unfold CreateIconsetFromIcns, OpenIcnsFileForReading.
  rewrite (fopen_read_some _ _ _ Hread).
  pose proof (ReadUint32_magic data) as Hword.
  destruct (ReadUint32 (fopen_r data)) as [header icns].
  cbn [fst] in Hword.
  destruct (Z.eqb_spec header kMagicHeader) as [Heq|_];
    [elim Hmagic; now apply Hword|].
  cbn [negb]. eexists. split; [reflexivity|].
  repeat split.
Qed.

Lemma bad_magic_fails_before_mkdir_witness :
  exists w',
    CreateIconsetFromIcns (single_file "x.icns" (list_byte_of_string "icnx____"))
      "x.icns" empty_world = Ret (false, w')
    /\ w_stderr w'
       = w_stderr empty_world
         ++ [Error "This doesn't look like an Apple .icns file."]
    /\ w_dirs w' = w_dirs empty_world
    /\ w_files w' = w_files empty_world.
Proof.
  apply (bad_magic_fails_before_mkdir
           (single_file "x.icns" (list_byte_of_string "icnx____")) "x.icns"
           (list_byte_of_string "icnx____") empty_world).
  - reflexivity.
  - vm_compute. discriminate.
Defined.

Lemma app_one_inj {A : Type} (l : list A) (x y : A) :
  l ++ [x] = l ++ [y] -> x = y.
Proof. intros H. apply app_inv_head in H. congruence. Qed.

(** From two equal runs that end with a message, the equality of the
    messages. *)
Ltac last_message H :=
  let E := fresh "Hmsg" in
  assert (E := f_equal (fun r => match r with
                                 | Ret (_, _, x) => w_stderr x
                                 | _ => []
                                 end) H);
  cbv beta iota in E;
  cbn [fclose_w PrintSystemError PrintError print w_stderr] in E;
  apply app_one_inj in E.

(** C2, as stated, fails: a chunk whose length field is exactly 8 is
    rejected with the format error. *)
Lemma length_8_is_rejected :
  8 <= 8
  /\ CopyIconToIconset (single_file "x.icns" [])
       (fopen_r (list_byte_of_string "icp4" ++ htonl 8)) "x.iconset"
       empty_world
     = Ret (false,
            advance 8 (fopen_r (list_byte_of_string "icp4" ++ htonl 8)),
            mkWorld [Error "Invalid size in .icns file"] [] []).
Proof. split; [lia | vm_compute; reflexivity]. Qed.

(** C2, amended: for every chunk that the decoder reads, the length field is
    rejected with the format error exactly when its value is at most 8: the
    value 8 of an empty payload is rejected, and no value above 8 is. *)
Theorem invalid_size_iff (o : os) (icns : FILE) (iconset_path : string)
  (w : world) (a b c d : byte) (v : Z) (rest : list byte) :
  unread icns = a :: b :: c :: d :: htonl v ++ rest ->
  0 <= v < 2 ^ 32 ->
  feof icns = false ->
  v <= 8
  <-> CopyIconToIconset o icns iconset_path w
      = Ret (false, advance 8 icns,
             PrintError "Invalid size in .icns file" w).
Proof.
  intros Hunread Hv Heof. unfold CopyIconToIconset.
  rewrite (ReadUint32_bytes icns a b c d _ Hunread).
  change (feof (advance 4 icns)) with (feof icns). rewrite Heof, andb_false_r.
  assert (Hunread4 : unread (advance 4 icns) = htonl v ++ rest)
    by (rewrite advance_unread, Hunread; reflexivity).
  rewrite (ReadUint32_htonl (advance 4 icns) v rest Hv Hunread4).
  destruct (Z.leb_spec v 8) as [Hle|Hgt].
  - split; [intros _|intros _; exact Hle].
    now rewrite advance_advance.
  - split; [lia|]. intros Hrun. exfalso.
    destruct (CopyIconToIconset_path iconset_path (ntohl [a; b; c; d]))
      as [path| |]; cbn [bind] in Hrun; try discriminate.
    destruct (create_ok o path); cbn [negb] in Hrun.
    + destruct (CopyIconToIconset_copy _ _ _ _) as [[[[|] i] t]| |];
        cbn [bind] in Hrun; try discriminate.
      last_message Hrun. discriminate.
    + last_message Hrun. discriminate.
Qed.

Lemma invalid_size_iff_witness :
  8 <= 8
  <-> CopyIconToIconset (single_file "x.icns" [])
        (fopen_r (list_byte_of_string "icp4" ++ htonl 8)) "x.iconset"
        empty_world
      = Ret (false,
             advance 8 (fopen_r (list_byte_of_string "icp4" ++ htonl 8)),
             PrintError "Invalid size in .icns file" empty_world).
Proof.
  apply (invalid_size_iff (single_file "x.icns" [])
           (fopen_r (list_byte_of_string "icp4" ++ htonl 8)) "x.iconset"
           empty_world "i"%byte "c"%byte "p"%byte "4"%byte 8 []).
  - reflexivity.
  - lia.
  - reflexivity.
Defined.

End DecoderChecks.

(** ** The total size field and the decoder *)

Section TotalSizeIgnored.
Import Libc Readicns Format Examples.

Lemma same_stream_unread (f g : FILE) :
  same_stream f g -> unread f = unread g.
Proof. now intros [H _]. Qed.

Lemma unread_at_eof (f : FILE) :
  skipn (f_pos f + List.length (unread f)) (f_data f) = [].
Proof.
  apply skipn_all2. unfold unread. rewrite length_skipn. lia.
Qed.

Lemma fread_same (n : nat) (f g : FILE) :
  same_stream f g ->
  fst (fread n f) = fst (fread n g)
  /\ same_stream (snd (fread n f)) (snd (fread n g)).
Proof.
  intros Hsame. pose proof (same_stream_unread f g Hsame) as Hunread.
  destruct Hsame as [_ Heof]. unfold fread. rewrite <- Hunread.
  destruct (n <=? List.length (unread f))%nat;
    cbn [fst snd]; (split; [reflexivity|]); unfold same_stream;
    cbn [f_data f_pos f_eof].
  - split; [|exact Heof].
    rewrite !(Nat.add_comm _ n), <- !skipn_skipn.
    fold (unread f). fold (unread g). now rewrite Hunread.
  - split; [|reflexivity].
    rewrite (unread_at_eof f). rewrite Hunread.
    symmetry. apply (unread_at_eof g).
Qed.

Lemma ReadUint32_same (f g : FILE) :
  same_stream f g ->
  fst (ReadUint32 f) = fst (ReadUint32 g)
  /\ same_stream (snd (ReadUint32 f)) (snd (ReadUint32 g)).
Proof.
  intros Hsame. unfold ReadUint32.
  destruct (fread_same 4 f g Hsame) as [Hbytes Hnext].
  destruct (fread 4 f) as [bs f'], (fread 4 g) as [bs' g'].
  cbn [fst snd] in *. subst bs'.
  destruct (List.length bs =? 4)%nat; cbn [fst snd]; now split.
Qed.

Lemma CopyIconToIconset_copy_same (fuel : nat) :
  forall size f g target,
    same_stream f g ->
    match CopyIconToIconset_copy fuel size f target,
          CopyIconToIconset_copy fuel size g target with
    | Ret (ok, f', t), Ret (ok', g', t') =>
        ok = ok' /\ same_stream f' g' /\ t = t'
    | Undefined, Undefined => True
    | OutOfFuel, OutOfFuel => True
    | _, _ => False
    end.
Proof.
  induction fuel as [|fuel IH]; intros size f g target Hsame;
    cbn [CopyIconToIconset_copy]; destruct (0 <? size); try easy.
  destruct (fread_same
              (Z.to_nat (if kBufferSize <? size then kBufferSize else size))
              f g Hsame) as [Hbytes Hnext].
  destruct (fread _ f) as [bs f'], (fread _ g) as [bs' g'].
  cbn [fst snd] in *. subst bs'.
  destruct (negb _); [easy|]. now apply IH.
Qed.

Lemma CopyIconToIconset_same (o : os) (f g : FILE) (iconset_path : string)
  (w : world) :
  same_stream f g ->
  match CopyIconToIconset o f iconset_path w,
        CopyIconToIconset o g iconset_path w with
  | Ret (ok, f', w1), Ret (ok', g', w1') =>
      ok = ok' /\ same_stream f' g' /\ w1 = w1'
  | Undefined, Undefined => True
  | OutOfFuel, OutOfFuel => True
  | _, _ => False
  end.
Proof.
  intros Hsame. unfold CopyIconToIconset.
  destruct (ReadUint32_same f g Hsame) as [Hheader Hnext].
  destruct (ReadUint32 f) as [header f1], (ReadUint32 g) as [header' g1].
  cbn [fst snd] in *. subst header'.
  unfold feof. rewrite (proj2 Hnext).
  destruct ((header =? 0) && f_eof g1); [easy|].
  destruct (ReadUint32_same f1 g1 Hnext) as [Hsize Hnext2].
  destruct (ReadUint32 f1) as [size f2], (ReadUint32 g1) as [size' g2].
  cbn [fst snd] in *. subst size'.
  destruct (size <=? 8); [easy|].
  destruct (CopyIconToIconset_path iconset_path header) as [path| |];
    cbn [bind]; try easy.
  destruct (negb (create_ok o path)); [easy|].
  rewrite <- (same_stream_unread f2 g2 Hnext2).
  pose proof (CopyIconToIconset_copy_same (S (List.length (unread f2)))
                (size - 8) f2 g2 fopen_w Hnext2) as Hcopy.
  destruct (CopyIconToIconset_copy _ _ f2 _) as [[[ok f3] t]| |],
           (CopyIconToIconset_copy _ _ g2 _) as [[[ok' g3] t']| |];
    cbn [bind]; try easy.
  destruct Hcopy as (<- & Hnext3 & <-).
  destruct ok; easy.
Qed.

Lemma CreateIconsetFromIcns_loop_same (o : os) (fuel : nat) :
  forall f g iconset_path w,
    same_stream f g ->
    CreateIconsetFromIcns_loop o fuel f iconset_path w
    = CreateIconsetFromIcns_loop o fuel g iconset_path w.
Proof.
  induction fuel as [|fuel IH]; intros f g iconset_path w Hsame;
    cbn [CreateIconsetFromIcns_loop]; unfold feof; rewrite (proj2 Hsame);
    destruct (f_eof g); try reflexivity.
  pose proof (CopyIconToIconset_same o f g iconset_path w Hsame) as Hcopy.
  destruct (CopyIconToIconset o f iconset_path w) as [[[ok f'] w1]| |],
           (CopyIconToIconset o g iconset_path w) as [[[ok' g'] w1']| |];
    cbn [bind]; try easy.
  destruct Hcopy as (<- & Hnext & <-).
  destruct ok; [now apply IH | reflexivity].
Qed.

(** The decoder asks the file system for the container once; after that
    only [create_ok] matters. *)
Lemma CopyIconToIconset_create_ok (o o' : os) (icns : FILE)
  (iconset_path : string) (w : world) :
  (forall path, create_ok o path = create_ok o' path) ->
  CopyIconToIconset o icns iconset_path w
  = CopyIconToIconset o' icns iconset_path w.
Proof.
  intros Hsame. unfold CopyIconToIconset.
  destruct (ReadUint32 icns) as [header f1].
  destruct ((header =? 0) && feof f1); [reflexivity|].
  destruct (ReadUint32 f1) as [size f2].
  destruct (size <=? 8); [reflexivity|].
  destruct (CopyIconToIconset_path iconset_path header) as [path| |];
    cbn [bind]; try reflexivity.
  now rewrite Hsame.
Qed.

Lemma CreateIconsetFromIcns_loop_create_ok (o o' : os) (fuel : nat) :
  (forall path, create_ok o path = create_ok o' path) ->
  forall icns iconset_path w,
    CreateIconsetFromIcns_loop o fuel icns iconset_path w
    = CreateIconsetFromIcns_loop o' fuel icns iconset_path w.
Proof.
  intros Hsame. induction fuel as [|fuel IH]; intros icns iconset_path w;
    cbn [CreateIconsetFromIcns_loop]; [reflexivity|].
  destruct (feof icns); [reflexivity|].
  rewrite (CopyIconToIconset_create_ok o o' _ _ _ Hsame).
  destruct (CopyIconToIconset o' icns iconset_path w) as [[[[|] f] w1]| |];
    cbn [bind]; try reflexivity.
  apply IH.
Qed.

(** A list of length 4 is its four bytes. *)
Ltac four_bytes l a b c d :=
  destruct l as [|a [|b [|c [|d [|? ?]]]]]; try discriminate.

(** C10: two containers that differ only in their total size fields, both
    non-zero, are decoded alike: the same outcome, the same messages, the
    same directory and the same files with the same bytes. *)
Theorem total_size_is_not_checked (o : os) (icns_path : string)
  (magic size1 size2 rest : list byte) (w : world) :
  List.length magic = 4%nat ->
  List.length size1 = 4%nat ->
  List.length size2 = 4%nat ->
  ntohl size1 <> 0 ->
  ntohl size2 <> 0 ->
  CreateIconsetFromIcns (with_file o icns_path (magic ++ size1 ++ rest))
    icns_path w
  = CreateIconsetFromIcns (with_file o icns_path (magic ++ size2 ++ rest))
      icns_path w.
Proof.
  intros Hmagic Hsize1 Hsize2 Hnz1 Hnz2.
  four_bytes magic m0 m1 m2 m3.
  four_bytes size1 a0 a1 a2 a3.
  four_bytes size2 b0 b1 b2 b3.
  clear Hmagic Hsize1 Hsize2.
  unfold CreateIconsetFromIcns, OpenIcnsFileForReading, fopen_read.
  cbn [with_file os_read]. rewrite String.eqb_refl.
  cbn [app].
  rewrite (ReadUint32_bytes (fopen_r (m0 :: m1 :: m2 :: m3 :: a0 :: _))
             m0 m1 m2 m3 _ eq_refl).
  rewrite (ReadUint32_bytes (fopen_r (m0 :: m1 :: m2 :: m3 :: b0 :: _))
             m0 m1 m2 m3 _ eq_refl).
  destruct (negb (ntohl [m0; m1; m2; m3] =? kMagicHeader)); [reflexivity|].
  rewrite (ReadUint32_bytes (advance 4 (fopen_r (_ :: _ :: _ :: _ :: a0 :: _)))
             a0 a1 a2 a3 rest eq_refl).
  rewrite (ReadUint32_bytes (advance 4 (fopen_r (_ :: _ :: _ :: _ :: b0 :: _)))
             b0 b1 b2 b3 rest eq_refl).
  destruct (Z.eqb_spec (ntohl [a0; a1; a2; a3]) 0); [contradiction|].
  destruct (Z.eqb_spec (ntohl [b0; b1; b2; b3]) 0); [contradiction|].
  destruct (GetIconsetPath icns_path w) as [iconset_path w'].
  destruct (IsEmpty iconset_path); [reflexivity|].
  cbn [with_file mkdir_ok].
  destruct (negb (mkdir_ok o iconset_path)); [reflexivity|].
  change (unread (advance 4 (advance 4 (fopen_r (_ :: _ :: _ :: _ :: a0 :: _)))))
    with rest.
  change (unread (advance 4 (advance 4 (fopen_r (_ :: _ :: _ :: _ :: b0 :: _)))))
    with rest.
  rewrite (CreateIconsetFromIcns_loop_create_ok
             (with_file o icns_path
                (m0 :: m1 :: m2 :: m3 :: a0 :: a1 :: a2 :: a3 :: rest))
             (with_file o icns_path
                (m0 :: m1 :: m2 :: m3 :: b0 :: b1 :: b2 :: b3 :: rest)))
    by reflexivity.
  apply CreateIconsetFromIcns_loop_same. split; reflexivity.
Qed.

Lemma total_size_is_not_checked_witness :
  CreateIconsetFromIcns
    (with_file (single_file "y.icns" []) "x.icns"
       (list_byte_of_string "icns" ++ htonl 20
        ++ list_byte_of_string "icp4" ++ htonl 12 ++ png4))
    "x.icns" empty_world
  = CreateIconsetFromIcns
      (with_file (single_file "y.icns" []) "x.icns"
         (list_byte_of_string "icns" ++ htonl 4000000000
          ++ list_byte_of_string "icp4" ++ htonl 12 ++ png4))
      "x.icns" empty_world.
Proof.
  apply (total_size_is_not_checked (single_file "y.icns" []) "x.icns"
           (list_byte_of_string "icns") (htonl 20) (htonl 4000000000)
           (list_byte_of_string "icp4" ++ htonl 12 ++ png4) empty_world).
  - reflexivity.
  - reflexivity.
  - reflexivity.
  - vm_compute. discriminate.
  - vm_compute. discriminate.
Defined.

End TotalSizeIgnored.

(** ** Entries that the encoder does not know *)

Section UnknownEntries.
Import Libc Createicns Format Examples.



(** The loop on a listing in two parts: the second part is reached when
    the first succeeds. *)
Lemma chunks_app (o : os) (iconset_path : string)
  (before rest : list string) :
  chunks o iconset_path (before ++ rest)
  = let '(ok1, bs1, ms1) := chunks o iconset_path before in
    if ok1 : bool
    then let '(ok, bs, ms) := chunks o iconset_path rest in
         (ok, bs1 ++ bs, ms1 ++ ms)
    else (false, bs1, ms1).
Proof.
  induction before as [|e before IH].
  - cbn [app chunks].
    now destruct (chunks o iconset_path rest) as [[ok bs] ms].
  - cbn [app chunks]. rewrite IH.
    destruct (chunks o iconset_path before) as [[[|] bs1] ms1];
      destruct (chunks o iconset_path rest) as [[ok bs] ms];
      destruct (is_dot e); try reflexivity;
      destruct (FindIconType e =? 0); try reflexivity;
      destruct (os_read o (iconset_path ++ "/" ++ e)%string);
      try reflexivity; now rewrite app_assoc.
Qed.



End UnknownEntries.

(** ** Chunks of a type that is not in the table *)

Section UnknownTypes.
Import Libc Readicns Format Examples.

Lemma land_255 (z : Z) : Z.land z 255 = z mod 256.
Proof. change 255 with (Z.ones 8). now rewrite Z.land_ones by lia. Qed.

(** The four characters of [unknown_format] are the four bytes of the type
    as they are in the file. *)
Lemma unknown_format_bytes (a b c d : byte) :
  let header := ntohl [a; b; c; d] in
  [ char_of_Z (Z.land (Z.shiftr header 24) 255);
    char_of_Z (Z.land (Z.shiftr header 16) 255);
    char_of_Z (Z.land (Z.shiftr header 8) 255);
    char_of_Z (Z.land header 255) ]
  = map ascii_of_byte [a; b; c; d].
Proof.
  intros header.
  assert (Hbytes : htonl header = [a; b; c; d]) by apply htonl_ntohl.
  assert (Hchar : forall z, char_of_Z (Z.land z 255)
                            = ascii_of_byte (byte_of_Z z)).
  { intros z. rewrite land_255, ascii_of_byte_via_N. unfold char_of_Z.
    f_equal. rewrite <- (Z_of_byte_of_Z z). unfold Z_of_byte.
    now rewrite N2Z.id. }
  rewrite !Hchar. fold (htonl header) in *.
  change [ascii_of_byte (byte_of_Z (Z.shiftr header 24));
          ascii_of_byte (byte_of_Z (Z.shiftr header 16));
          ascii_of_byte (byte_of_Z (Z.shiftr header 8));
          ascii_of_byte (byte_of_Z header)]
    with (map ascii_of_byte (htonl header)).
  now rewrite Hbytes.
Qed.

Lemma ascii_of_byte_not_zero (b : byte) :
  b <> x00 -> Ascii.eqb (ascii_of_byte b) zero = false.
Proof.
  intros Hb. apply Ascii.eqb_neq. intros Heq. apply Hb.
  rewrite <- (byte_of_ascii_of_byte b), Heq. reflexivity.
Qed.

Lemma c_str_length (cs : list ascii) :
  (String.length (c_str cs) <= List.length cs)%nat.
Proof.
  induction cs as [|c cs IH]; [reflexivity|].
  cbn [c_str]. destruct (Ascii.eqb c zero); cbn [String.length List.length];
    lia.
Qed.

(** The name of a type without zero byte is the four bytes. *)
Lemma c_str_no_zero (a b c d : byte) :
  a <> x00 -> b <> x00 -> c <> x00 -> d <> x00 ->
  c_str (map ascii_of_byte [a; b; c; d]) = string_of_list_byte [a; b; c; d].
Proof.
  intros Ha Hb Hc Hd. cbn [map c_str].
  now rewrite !ascii_of_byte_not_zero by assumption.
Qed.

Lemma CopyIconToIconset_path_unknown (iconset_path : string) (a b c d : byte) :
  GetFilenameFromType (ntohl [a; b; c; d]) = None ->
  (String.length iconset_path + 16 <= MAXPATHLEN)%nat ->
  CopyIconToIconset_path iconset_path (ntohl [a; b; c; d])
  = Ret (iconset_path ++ "/" ++ kUnknownFormatFilename
         ++ c_str (map ascii_of_byte [a; b; c; d]))%string.
Proof.
  intros Hunknown Hfit. unfold CopyIconToIconset_path.
  rewrite Hunknown.
  rewrite (unknown_format_bytes a b c d).
  pose proof (c_str_length (map ascii_of_byte [a; b; c; d])) as Hlen.
  cbn [map List.length] in Hlen.
  rewrite length_append. cbn [String.length kUnknownFormatFilename].
  set (room := Z.of_nat MAXPATHLEN
               - Z.of_nat (String.length iconset_path + 1)).
  assert (Hroom : 15 <= room) by (unfold room; lia).
  destruct (Z.ltb_spec (room - Z.of_nat 10) 0); [lia|].
  destruct (Z.eqb_spec (room - Z.of_nat 10) 0); [lia|].
  rewrite (strlcpy_fits kUnknownFormatFilename)
    by (unfold kUnknownFormatFilename; cbn [String.length]; lia).
  rewrite strlcpy_fits by (cbn [map]; lia).
  rewrite !append_assoc. reflexivity.
Qed.

(** C8, as stated, fails: a type with a zero byte, here 'a', 0, 'b', 'c',
    gives a file name that stops before that byte. *)
Lemma zero_byte_cuts_the_name :
  GetFilenameFromType (ntohl ["a"%byte; x00; "b"%byte; "c"%byte]) = None
  /\ CreateIconsetFromIcns
       (single_file "x.icns"
          (list_byte_of_string "icns" ++ htonl 20
           ++ ["a"%byte; x00; "b"%byte; "c"%byte] ++ htonl 12 ++ png4))
       "x.icns" empty_world
     = Ret (true,
            mkWorld [] ["x.iconset"] [("x.iconset/icon_data_a", png4)])
  /\ "x.iconset/icon_data_a"
     <> ("x.iconset" ++ "/" ++ kUnknownFormatFilename
         ++ string_of_list_byte ["a"%byte; x00; "b"%byte; "c"%byte])%string.
Proof.
  split; [reflexivity|]. split; [vm_compute; reflexivity|].
  vm_compute. discriminate.
Qed.

(** C8, amended: for every chunk whose type is not in the table, the decoder
    writes the payload to the file whose name is "icon_data_" followed by
    the bytes of the type, as they are in the container, that come before
    its first zero byte: all four bytes when the type has no zero byte (the
    name fitting the path buffer, and the file being one that can be
    created). *)
Theorem unknown_type_filename (o : os) (icns : FILE) (iconset_path : string)
  (w : world) (a b c d : byte) (v : Z) (data rest : list byte) :
  unread icns = a :: b :: c :: d :: htonl v ++ data ++ rest ->
  feof icns = false ->
  GetFilenameFromType (ntohl [a; b; c; d]) = None ->
  8 < v < 2 ^ 32 ->
  Z.of_nat (List.length data) = v - 8 ->
  (String.length iconset_path + 16 <= MAXPATHLEN)%nat ->
  create_ok o (iconset_path ++ "/" ++ kUnknownFormatFilename
               ++ c_str (map ascii_of_byte [a; b; c; d]))%string = true ->
  CopyIconToIconset o icns iconset_path w
  = Ret (true, advance (8 + List.length data) icns,
         fclose_w (iconset_path ++ "/" ++ kUnknownFormatFilename
                   ++ c_str (map ascii_of_byte [a; b; c; d]))%string
           (mkFILE data (List.length data) false) w)
  /\ (a <> x00 -> b <> x00 -> c <> x00 -> d <> x00 ->
      c_str (map ascii_of_byte [a; b; c; d])
      = string_of_list_byte [a; b; c; d]).
Proof.
  intros Hunread Heof Hunknown Hv Hlen Hfit Hcreate.
  split; [|apply c_str_no_zero].
  unfold CopyIconToIconset.
  rewrite (ReadUint32_bytes icns a b c d _ Hunread).
  change (feof (advance 4 icns)) with (feof icns). rewrite Heof, andb_false_r.
  assert (Hunread4 : unread (advance 4 icns) = htonl v ++ data ++ rest)
    by (rewrite advance_unread, Hunread; reflexivity).
  assert (Hrange : 0 <= v < 2 ^ 32) by lia.
  rewrite (ReadUint32_htonl (advance 4 icns) v _ Hrange Hunread4).
  destruct (Z.leb_spec v 8); [lia|].
  rewrite (CopyIconToIconset_path_unknown _ _ _ _ _ Hunknown Hfit).
  cbn [bind]. rewrite Hcreate. cbn [negb].
  assert (Hunread8 : unread (advance 4 (advance 4 icns)) = data ++ rest).
  { rewrite advance_unread, Hunread4. apply skipn_htonl. }
  rewrite (CopyIconToIconset_copy_spec _ _ _ fopen_w data rest Hunread8);
    [|lia|rewrite Hunread8, length_app; lia|reflexivity].
  cbn [bind fopen_w f_data f_eof app].
  rewrite !advance_advance. reflexivity.
Qed.

Lemma unknown_type_filename_witness :
  CopyIconToIconset (single_file "x.icns" [])
    (fopen_r (list_byte_of_string "TOC " ++ htonl 12 ++ png4 ++ []))
    "x.iconset" empty_world
  = Ret (true,
         advance (8 + List.length png4)
           (fopen_r (list_byte_of_string "TOC " ++ htonl 12 ++ png4 ++ [])),
         fclose_w "x.iconset/icon_data_TOC "
           (mkFILE png4 (List.length png4) false) empty_world)
  /\ ("T"%byte <> x00 -> "O"%byte <> x00 -> "C"%byte <> x00 ->
      " "%byte <> x00 ->
      c_str (map ascii_of_byte ["T"%byte; "O"%byte; "C"%byte; " "%byte])
      = string_of_list_byte ["T"%byte; "O"%byte; "C"%byte; " "%byte]).
Proof.
  apply (unknown_type_filename (single_file "x.icns" [])
           (fopen_r (list_byte_of_string "TOC " ++ htonl 12 ++ png4 ++ []))
           "x.iconset" empty_world "T"%byte "O"%byte "C"%byte " "%byte 12
           png4 []);
    try reflexivity.
  - lia.
  - apply Nat.leb_le. reflexivity.
Defined.

End UnknownTypes.

(** ** The end of the file and the loops of the decoder *)

Section EndOfFile.
Import Libc Readicns Format Examples.

(** Less than four bytes where a chunk should start: [ReadUint32] returns 0
    and sets the end-of-file indicator, which [CopyIconToIconset] takes for
    the end of the container. *)
Lemma CopyIconToIconset_fragment (o : os) (icns : FILE) (iconset_path : string)
  (w : world) :
  (List.length (unread icns) < 4)%nat ->
  CopyIconToIconset o icns iconset_path w
  = Ret (true,
         mkFILE (f_data icns) (f_pos icns + List.length (unread icns)) true,
         w).
Proof.
  intros Hshort. unfold CopyIconToIconset.
  rewrite (ReadUint32_short icns Hshort). reflexivity.
Qed.

(** A length field that is cut short is read as 0 and rejected. *)
Lemma CopyIconToIconset_short_length (o : os) (icns : FILE)
  (iconset_path : string) (w : world) (a b c d : byte) (rest : list byte) :
  unread icns = a :: b :: c :: d :: rest ->
  (List.length rest < 4)%nat ->
  feof icns = false ->
  exists icns',
    CopyIconToIconset o icns iconset_path w
    = Ret (false, icns', PrintError "Invalid size in .icns file" w).
Proof.
  intros Hunread Hshort Heof. unfold CopyIconToIconset.
  rewrite (ReadUint32_bytes icns a b c d rest Hunread).
  change (feof (advance 4 icns)) with (feof icns). rewrite Heof, andb_false_r.
  rewrite ReadUint32_short
    by (rewrite advance_unread, Hunread; exact Hshort).
  eexists. reflexivity.
Qed.

(** A payload that is cut short makes the copy loop fail. *)
Lemma CopyIconToIconset_copy_short (fuel : nat) :
  forall size icns target,
    Z.of_nat (List.length (unread icns)) < size ->
    (List.length (unread icns) < fuel)%nat ->
    exists icns' target',
      CopyIconToIconset_copy fuel size icns target
      = Ret (false, icns', target').
Proof.
  induction fuel as [|fuel IH]; intros size icns target Hsize Hfuel; [lia|].
  cbn [CopyIconToIconset_copy].
  destruct (Z.ltb_spec 0 size); [|lia].
  unfold kBufferSize.
  destruct (Z.ltb_spec 1024 size) as [Hbig|Hsmall].
  - destruct (Nat.le_gt_cases (Z.to_nat 1024) (List.length (unread icns)))
      as [Hfull|Hlast].
    + rewrite fread_enough by exact Hfull.
      rewrite length_firstn, Nat.min_l by exact Hfull.
      rewrite Z2Nat.id by lia. rewrite Z.eqb_refl. cbn [negb].
      apply IH; rewrite advance_unread, length_skipn; lia.
    + rewrite fread_short by exact Hlast.
      destruct (Z.eqb_spec (Z.of_nat (List.length (unread icns))) 1024);
        [lia|].
      cbn [negb]. do 2 eexists. reflexivity.
  - rewrite fread_short by lia.
    destruct (Z.eqb_spec (Z.of_nat (List.length (unread icns))) size);
      [lia|].
    cbn [negb]. do 2 eexists. reflexivity.
Qed.

Lemma CopyIconToIconset_path_returns (iconset_path : string) (header : Z) :
  CopyIconToIconset_path iconset_path header <> OutOfFuel.
Proof.
  unfold CopyIconToIconset_path.
  destruct (GetFilenameFromType header).
  - destruct (_ <=? 0); discriminate.
  - destruct (_ <? 0); [discriminate|].
    destruct (_ =? 0); discriminate.
Qed.

(** A turn of the loop of the decoder never exhausts its fuel, and a turn
    that returns [true] has seen the end of the file or has read a chunk. *)
Lemma CopyIconToIconset_progress (o : os) (icns : FILE) (iconset_path : string)
  (w : world) :
  feof icns = false ->
  match CopyIconToIconset o icns iconset_path w with
  | OutOfFuel => False
  | Undefined => True
  | Ret (ok, icns', _) =>
      ok = true ->
      feof icns' = true
      \/ (List.length (unread icns') < List.length (unread icns))%nat
  end.
Proof.
  intros Heof.
  destruct (unread icns) as [|a [|b [|c [|d rest]]]] eqn:Hunread;
    try (rewrite CopyIconToIconset_fragment
           by (rewrite Hunread; simpl; lia);
         intros _; now left).
  destruct (Nat.le_gt_cases 4 (List.length rest)) as [Hlen|Hshort].
  2:{ destruct (CopyIconToIconset_short_length o icns iconset_path w
                  a b c d rest Hunread Hshort Heof) as [icns' ->].
      discriminate. }
  destruct rest as [|e [|f [|g [|h rest]]]]; try (simpl in Hlen; lia).
  clear Hlen. unfold CopyIconToIconset.
  rewrite (ReadUint32_bytes icns a b c d _ Hunread).
  change (feof (advance 4 icns)) with (feof icns). rewrite Heof, andb_false_r.
  assert (Hunread4 : unread (advance 4 icns) = e :: f :: g :: h :: rest)
    by (rewrite advance_unread, Hunread; reflexivity).
  rewrite (ReadUint32_bytes (advance 4 icns) e f g h rest Hunread4).
  destruct (Z.leb_spec (ntohl [e; f; g; h]) 8) as [|Hsize]; [discriminate|].
  pose proof (CopyIconToIconset_path_returns iconset_path (ntohl [a; b; c; d]))
    as Hpath.
  destruct (CopyIconToIconset_path iconset_path (ntohl [a; b; c; d]))
    as [path| |]; cbn [bind]; [|exact I|congruence].
  destruct (negb (create_ok o path)); [discriminate|].
  assert (Hunread8 : unread (advance 4 (advance 4 icns)) = rest)
    by (rewrite advance_unread, Hunread4; reflexivity).
  destruct (Z.le_gt_cases (ntohl [e; f; g; h] - 8)
              (Z.of_nat (List.length rest))) as [Hall|Hcut].
  - rewrite (CopyIconToIconset_copy_spec _ _ _ fopen_w
               (firstn (Z.to_nat (ntohl [e; f; g; h] - 8)) rest)
               (skipn (Z.to_nat (ntohl [e; f; g; h] - 8)) rest));
      [| now rewrite firstn_skipn
       | rewrite length_firstn; lia
       | rewrite Hunread8, length_firstn; lia
       | reflexivity].
    cbn [bind]. intros _. right.
    rewrite !advance_unread, Hunread. cbn [skipn].
    rewrite length_skipn, length_firstn. cbn [List.length]. lia.
  - destruct (CopyIconToIconset_copy_short
                (S (List.length (unread (advance 4 (advance 4 icns)))))
                (ntohl [e; f; g; h] - 8) (advance 4 (advance 4 icns)) fopen_w)
      as (icns' & target' & ->); [rewrite Hunread8; lia | lia |].
    cbn [bind]. discriminate.
Qed.

Lemma CreateIconsetFromIcns_loop_returns (o : os) (fuel : nat) :
  forall icns iconset_path w,
    (List.length (unread icns) < fuel)%nat ->
    CreateIconsetFromIcns_loop o fuel icns iconset_path w <> OutOfFuel.
Proof.
  induction fuel as [|fuel IH]; intros icns iconset_path w Hfuel; [lia|].
  cbn [CreateIconsetFromIcns_loop].
  destruct (feof icns) eqn:Heof; [discriminate|].
  pose proof (CopyIconToIconset_progress o icns iconset_path w Heof) as Hturn.
  destruct (CopyIconToIconset o icns iconset_path w)
    as [[[[|] icns'] w']| |]; cbn [bind]; try discriminate; [|contradiction].
  destruct (Hturn eq_refl) as [Hend|Hless].
  - destruct fuel; cbn [CreateIconsetFromIcns_loop]; rewrite Hend;
      discriminate.
  - apply IH. lia.
Qed.

(** The decoder never exhausts the fuel of its loops: it returns, or it
    overruns the path buffer. *)
Lemma CreateIconsetFromIcns_returns (o : os) (icns_path : string) (w : world) :
  CreateIconsetFromIcns o icns_path w <> OutOfFuel.
Proof.
  unfold CreateIconsetFromIcns.
  destruct (OpenIcnsFileForReading o icns_path w) as [[icns|] w'];
    [|discriminate].
  destruct (GetIconsetPath icns_path w') as [iconset_path w''].
  destruct (IsEmpty iconset_path); [discriminate|].
  destruct (negb (mkdir_ok o iconset_path)); [discriminate|].
  apply CreateIconsetFromIcns_loop_returns. lia.
Qed.

(** C9: the code accepts a trailing fragment. After a complete chunk, one,
    two or three more bytes, whatever they are, leave the decoder
    successful, with the file of the chunk written and nothing printed. *)
Theorem trailing_fragment_is_accepted (b1 b2 b3 : byte) :
  let container :=
    list_byte_of_string "icns" ++ htonl 20 ++ list_byte_of_string "icp4"
    ++ htonl 12 ++ png4 in
  let decoded :=
    Ret (true,
         mkWorld [] ["x.iconset"] [("x.iconset/icon_16x16.png", png4)]) in
  CreateIconsetFromIcns (single_file "x.icns" (container ++ [b1]))
    "x.icns" empty_world = decoded
  /\ CreateIconsetFromIcns (single_file "x.icns" (container ++ [b1; b2]))
       "x.icns" empty_world = decoded
  /\ CreateIconsetFromIcns (single_file "x.icns" (container ++ [b1; b2; b3]))
       "x.icns" empty_world = decoded.
Proof. repeat split; vm_compute; reflexivity. Qed.

End EndOfFile.

(** ** The name of the directory that the decoder makes *)

Section IconsetPath.
Import Libc Readicns Format Examples.

Lemma take_append (s t : string) : take (String.length s) (s ++ t) = s.
Proof. induction s as [|c s IH]; simpl; [now destruct t | now rewrite IH]. Qed.

(** When the first ".icns" of the base name is its suffix, the suffix is
    replaced and what is before it is kept. *)
Lemma GetIconsetPath_suffix (icns_path stem : string) (w : world) :
  Basename icns_path = Some (stem ++ kIcnsExtension)%string ->
  strstr (stem ++ kIcnsExtension) kIcnsExtension = Some (String.length stem) ->
  (String.length stem + 9 <= MAXPATHLEN)%nat ->
  GetIconsetPath icns_path w = ((stem ++ kIconsetExtension)%string, w).
Proof.
  intros Hbase Hfirst Hfit. unfold GetIconsetPath.
  rewrite Hbase, Hfirst, take_append.
  rewrite strlcpy_fits by (unfold kIconsetExtension; cbn [String.length]; lia).
  reflexivity.
Qed.

(** C5: the code replaces from the first ".icns" of the base name, which
    [strstr] finds, not the suffix. For [dir/a.icns.icns] the directory is
    [a.iconset], where the base name with its suffix replaced is
    [a.icns.iconset]; a path that does not end in ".icns" is accepted when
    ".icns" occurs in its base name. *)
Theorem first_icns_is_replaced :
  Basename "dir/a.icns.icns" = Some "a.icns.icns"
  /\ GetIconsetPath "dir/a.icns.icns" empty_world
     = ("a.iconset", empty_world)
  /\ "a.iconset" <> ("a.icns" ++ kIconsetExtension)%string
  /\ CreateIconsetFromIcns
       (single_file "dir/a.icns.icns"
          (list_byte_of_string "icns" ++ htonl 20
           ++ list_byte_of_string "icp4" ++ htonl 12 ++ png4))
       "dir/a.icns.icns" empty_world
     = Ret (true,
            mkWorld [] ["a.iconset"] [("a.iconset/icon_16x16.png", png4)])
  /\ GetIconsetPath "my.icns.backup" empty_world
     = ("my.iconset", empty_world).
Proof.
  repeat split; try (vm_compute; reflexivity).
  vm_compute. discriminate.
Qed.

End IconsetPath.

(** ** The decoder on any sequence of chunks *)

Section DecoderChunks.
Import Libc Readicns Format Layout Examples.

Lemma GetFilenameFromType_length (type : Z) (name : string) :
  GetFilenameFromType type = Some name -> (String.length name <= 19)%nat.
Proof.
  unfold GetFilenameFromType, kIconTypes. cbn [find fst snd].
  repeat match goal with
         | |- context [Z.eqb ?a type] =>
             destruct (Z.eqb_spec a type) as [_|_];
             [cbn [option_map fst]; intros H; injection H as <-;
              cbn [String.length]; lia|]
         end.
  discriminate.
Qed.

Lemma CopyIconToIconset_path_target (iconset_path : string) (header : Z) :
  (String.length iconset_path + 21 <= MAXPATHLEN)%nat ->
  CopyIconToIconset_path iconset_path header
  = Ret (iconset_path ++ "/" ++ target_name header)%string.
Proof.
  intros Hfit. unfold CopyIconToIconset_path, target_name.
  rewrite length_append. cbn [String.length].
  set (room := Z.of_nat MAXPATHLEN
               - Z.of_nat (String.length iconset_path + 1)).
  assert (Hroom : 20 <= room) by (unfold room; lia).
  destruct (GetFilenameFromType header) as [name|] eqn:Hname.
  - apply GetFilenameFromType_length in Hname.
    destruct (Z.leb_spec room 0); [lia|].
    rewrite strlcpy_fits by lia. now rewrite append_assoc.
  - set (cs := [char_of_Z (Z.land (Z.shiftr header 24) 255);
                char_of_Z (Z.land (Z.shiftr header 16) 255);
                char_of_Z (Z.land (Z.shiftr header 8) 255);
                char_of_Z (Z.land header 255)]).
    pose proof (c_str_length cs) as Hlen. cbn [cs List.length] in Hlen.
    cbn [String.length kUnknownFormatFilename].
    destruct (Z.ltb_spec (room - Z.of_nat 10) 0); [lia|].
    destruct (Z.eqb_spec (room - Z.of_nat 10) 0); [lia|].
    rewrite (strlcpy_fits kUnknownFormatFilename)
      by (unfold kUnknownFormatFilename; cbn [String.length]; lia).
    rewrite strlcpy_fits by lia.
    rewrite !append_assoc. reflexivity.
Qed.

(** [CopyIconToIconset] on a stream that stands before a well-formed chunk,
    of any type. *)
Lemma CopyIconToIconset_typed_chunk (o : os) (iconset_path : string)
  (icns : FILE) (w : world) (item : Z * list byte) (rest : list byte) :
  unread icns = typed_chunk item ++ rest ->
  feof icns = false ->
  well_formed item ->
  (String.length iconset_path + 21 <= MAXPATHLEN)%nat ->
  create_ok o (iconset_path ++ "/" ++ target_name (fst item))%string = true ->
  CopyIconToIconset o icns iconset_path w
  = Ret (true, advance (List.length (typed_chunk item)) icns,
         extract iconset_path w item).
Proof.
  destruct item as [header data]. unfold typed_chunk, well_formed, extract.
  cbn [fst snd].
  intros Hunread Heof (Hheader & Hdata & Hsize) Hfit Hcreate.
  assert (Hpos : (0 < List.length data)%nat)
    by (destruct data; [congruence | simpl; lia]).
  rewrite chunk_length.
  unfold chunk in Hunread. rewrite <- !app_assoc in Hunread.
  rewrite (to_uint32_small header) in Hunread by lia.
  rewrite (to_uint32_small (_ + 8)) in Hunread by lia.
  unfold CopyIconToIconset.
  rewrite (ReadUint32_htonl icns _ _ Hheader Hunread).
  change (feof (advance 4 icns)) with (feof icns). rewrite Heof, andb_false_r.
  assert (Hunread4 :
    unread (advance 4 icns)
    = htonl (Z.of_nat (List.length data) + 8) ++ data ++ rest).
  { rewrite advance_unread, Hunread. apply skipn_htonl. }
  assert (Hrange : 0 <= Z.of_nat (List.length data) + 8 < 2 ^ 32) by lia.
  rewrite (ReadUint32_htonl (advance 4 icns) _ _ Hrange Hunread4).
  destruct (Z.leb_spec (Z.of_nat (List.length data) + 8) 8); [lia|].
  rewrite (CopyIconToIconset_path_target _ _ Hfit).
  cbn [bind]. rewrite Hcreate. cbn [negb].
  assert (Hunread8 : unread (advance 4 (advance 4 icns)) = data ++ rest).
  { rewrite advance_unread, Hunread4. apply skipn_htonl. }
  rewrite (CopyIconToIconset_copy_spec _ _ _ fopen_w data rest Hunread8);
    [|lia|rewrite Hunread8, length_app; lia|reflexivity].
  cbn [bind fopen_w f_data f_eof app].
  rewrite !advance_advance. reflexivity.
Qed.

(** More fuel does not change a run of the loop that had enough. *)
Lemma CreateIconsetFromIcns_loop_fuel (o : os) (fuel : nat) :
  forall icns iconset_path w extra,
    CreateIconsetFromIcns_loop o fuel icns iconset_path w <> OutOfFuel ->
    CreateIconsetFromIcns_loop o (fuel + extra) icns iconset_path w
    = CreateIconsetFromIcns_loop o fuel icns iconset_path w.
Proof.
  induction fuel as [|fuel IH]; intros icns iconset_path w extra Hrun.
  - cbn [CreateIconsetFromIcns_loop] in Hrun.
    destruct extra; cbn [Nat.add CreateIconsetFromIcns_loop];
      destruct (feof icns); try reflexivity; now elim Hrun.
  - cbn [Nat.add CreateIconsetFromIcns_loop] in *.
    destruct (feof icns); [reflexivity|].
    destruct (CopyIconToIconset o icns iconset_path w)
      as [[[[|] icns'] w']| |]; cbn [bind] in *; try reflexivity.
    now apply IH.
Qed.

(** The loop on a stream that starts with well-formed chunks: their files
    are written, and the loop goes on with what follows them. *)
Lemma CreateIconsetFromIcns_loop_items (o : os) (iconset_path : string)
  (items : list (Z * list byte)) :
  forall fuel icns w tail,
    unread icns = List.concat (map typed_chunk items) ++ tail ->
    feof icns = false ->
    Forall well_formed items ->
    Forall (fun item =>
              create_ok o (iconset_path ++ "/" ++ target_name (fst item))%string
              = true) items ->
    (String.length iconset_path + 21 <= MAXPATHLEN)%nat ->
    CreateIconsetFromIcns_loop o (List.length items + fuel) icns iconset_path w
    = CreateIconsetFromIcns_loop o fuel
        (advance (List.length (List.concat (map typed_chunk items))) icns)
        iconset_path (fold_left (extract iconset_path) items w).
Proof.
  induction items as [|item items IH];
    intros fuel icns w tail Hunread Heof Hwf Hcreate Hfit.
  - cbn. now rewrite advance_0.
  - inversion Hwf as [|? ? Hitem Hwf']; subst.
    inversion Hcreate as [|? ? Hok Hcreate']; subst.
    cbn [map List.concat] in *. rewrite <- app_assoc in Hunread.
    cbn [List.length Nat.add CreateIconsetFromIcns_loop]. rewrite Heof.
    rewrite (CopyIconToIconset_typed_chunk o iconset_path icns w item _
               Hunread Heof Hitem Hfit Hok).
    cbn [bind fold_left].
    rewrite (IH fuel _ _ tail); try assumption.
    + now rewrite advance_advance, length_app.
    + rewrite advance_unread, Hunread, skipn_app, skipn_all, Nat.sub_diag.
      reflexivity.
Qed.

End DecoderChunks.

Section DecoderRuns.
Import Libc Readicns Format Layout Examples.

Lemma firstn_plus {A : Type} (a b : nat) (l : list A) :
  firstn (a + b) l = firstn a l ++ firstn b (skipn a l).
Proof.
  revert l. induction a as [|a IH]; intros l; [reflexivity|].
  destruct l as [|x l]; cbn [Nat.add firstn skipn app].
  - now rewrite firstn_nil.
  - now rewrite IH.
Qed.

(** The copy loop on a payload that is cut: it fails at the end of the
    file, after the whole buffers that it could read. *)
Lemma CopyIconToIconset_copy_cut (k : nat) :
  forall fuel size icns target r,
    (r < 1024)%nat ->
    List.length (unread icns) = (1024 * k + r)%nat ->
    Z.of_nat (List.length (unread icns)) < size ->
    (List.length (unread icns) < fuel)%nat ->
    at_end target ->
    CopyIconToIconset_copy fuel size icns target
    = Ret (false,
           mkFILE (f_data icns) (f_pos icns + List.length (unread icns)) true,
           mkFILE (f_data target ++ firstn (1024 * k) (unread icns))
             (List.length (f_data target ++ firstn (1024 * k) (unread icns)))
             (f_eof target)).
Proof.
  induction k as [|k IH]; intros fuel size icns target r Hr Hlen Hsize Hfuel
    Hend; (destruct fuel as [|fuel]; [lia|]); cbn [CopyIconToIconset_copy];
    (destruct (Z.ltb_spec 0 size); [|lia]); unfold kBufferSize.
  - rewrite Nat.mul_0_r in *. cbn [firstn].
    rewrite fread_short by (destruct (1024 <? size); lia).
    destruct (Z.eqb_spec (Z.of_nat (List.length (unread icns)))
                (if 1024 <? size then 1024 else size)) as [Heq|_];
      [destruct (1024 <? size); lia|].
    cbn [negb]. rewrite app_nil_r, <- Hend. now destruct target.
  - destruct (Z.ltb_spec 1024 size); [|lia].
    assert (Hfull : (Z.to_nat 1024 <= List.length (unread icns))%nat) by lia.
    rewrite fread_enough by exact Hfull.
    rewrite length_firstn, Nat.min_l by exact Hfull.
    rewrite Z2Nat.id by lia. rewrite Z.eqb_refl. cbn [negb].
    rewrite (fwrite_at_end _ _ Hend).
    rewrite (IH fuel (size - 1024) (advance (Z.to_nat 1024) icns) _ r Hr);
      try (rewrite advance_unread, length_skipn; lia);
      [|apply at_end_mk].
    rewrite advance_unread, length_skipn. cbn [f_data f_pos f_eof advance].
    replace (f_pos icns + Z.to_nat 1024
             + (List.length (unread icns) - Z.to_nat 1024))%nat
      with (f_pos icns + List.length (unread icns))%nat by lia.
    replace (1024 * S k)%nat with (Z.to_nat 1024 + 1024 * k)%nat by lia.
    rewrite firstn_plus, <- app_assoc. reflexivity.
Qed.

(** The decoder on a container that starts with well-formed chunks: the
    directory is made, the files of the chunks are written and the loop
    stands before what follows them. *)
Lemma CreateIconsetFromIcns_items (o : os) (icns_path dir : string) (w : world)
  (size : Z) (items : list (Z * list byte)) (tail : list byte) :
  os_read o icns_path
  = Some (list_byte_of_string "icns" ++ htonl size
          ++ List.concat (map typed_chunk items) ++ tail) ->
  0 < size < 2 ^ 32 ->
  GetIconsetPath icns_path w = (dir, w) ->
  IsEmpty dir = false ->
  mkdir_ok o dir = true ->
  Forall well_formed items ->
  Forall (fun item =>
            create_ok o (dir ++ "/" ++ target_name (fst item))%string = true)
    items ->
  (String.length dir + 21 <= MAXPATHLEN)%nat ->
  exists icns,
    unread icns = tail
    /\ feof icns = false
    /\ CreateIconsetFromIcns o icns_path w
       = CreateIconsetFromIcns_loop o
           (S (List.length (List.concat (map typed_chunk items) ++ tail)))
           icns dir (fold_left (extract dir) items (mkdir dir w)).
Proof.
  intros Hread Hsize Hpath Hdir Hmkdir Hwf Hcreate Hfit.
  change (list_byte_of_string "icns") with (htonl kMagicHeader) in Hread.
  set (bs := List.concat (map typed_chunk items) ++ tail) in *.
  set (icns0 := advance 4 (advance 4
                  (fopen_r (htonl kMagicHeader ++ htonl size ++ bs)))).
  assert (Hunread0 : unread icns0 = bs) by apply unread_after_header.
  exists (advance (List.length (List.concat (map typed_chunk items))) icns0).
  split; [|split].
  - rewrite advance_unread, Hunread0. unfold bs.
    now rewrite skipn_app, skipn_all, Nat.sub_diag.
  - reflexivity.
  - rewrite (CreateIconsetFromIcns_open o icns_path dir w size bs Hread Hsize
               Hpath Hdir Hmkdir).
    fold icns0.
    rewrite <- (CreateIconsetFromIcns_loop_fuel o (S (List.length bs)) icns0
                  dir (mkdir dir w) (List.length items))
      by (apply CreateIconsetFromIcns_loop_returns; rewrite Hunread0; lia).
    rewrite Nat.add_comm.
    now apply (CreateIconsetFromIcns_loop_items o dir items _ icns0 _ tail).
Qed.

(** X1: a container of well-formed chunks, of types in the table or not,
    followed by less than four more bytes, is decoded with success: the
    directory is made and every chunk is written to the file of its type, in
    the order of the container, a later chunk of a type replacing the file
    of an earlier one. *)
Theorem container_is_extracted (o : os) (icns_path dir : string) (w : world)
  (size : Z) (items : list (Z * list byte)) (tail : list byte) :
  os_read o icns_path
  = Some (list_byte_of_string "icns" ++ htonl size
          ++ List.concat (map typed_chunk items) ++ tail) ->
  0 < size < 2 ^ 32 ->
  (List.length tail < 4)%nat ->
  GetIconsetPath icns_path w = (dir, w) ->
  IsEmpty dir = false ->
  mkdir_ok o dir = true ->
  Forall well_formed items ->
  Forall (fun item =>
            create_ok o (dir ++ "/" ++ target_name (fst item))%string = true)
    items ->
  (String.length dir + 21 <= MAXPATHLEN)%nat ->
  CreateIconsetFromIcns o icns_path w
  = Ret (true, fold_left (extract dir) items (mkdir dir w)).
Proof.
  intros Hread Hsize Htail Hpath Hdir Hmkdir Hwf Hcreate Hfit.
  destruct (CreateIconsetFromIcns_items o icns_path dir w size items tail
              Hread Hsize Hpath Hdir Hmkdir Hwf Hcreate Hfit)
    as (icns & Hunread & Heof & ->).
  cbn [CreateIconsetFromIcns_loop]. rewrite Heof.
  rewrite CopyIconToIconset_fragment by (rewrite Hunread; exact Htail).
  cbn [bind].
  destruct (List.length (List.concat (map typed_chunk items) ++ tail));
    reflexivity.
Qed.

(** X2: a container that is cut in the length field of a chunk: the chunks
    before it are written to their files, and the decoder fails with the
    message of the invalid size. *)
Theorem cut_length_field_fails (o : os) (icns_path dir : string) (w : world)
  (size : Z) (items : list (Z * list byte)) (a b c d : byte)
  (cut : list byte) :
  os_read o icns_path
  = Some (list_byte_of_string "icns" ++ htonl size
          ++ List.concat (map typed_chunk items) ++ a :: b :: c :: d :: cut) ->
  0 < size < 2 ^ 32 ->
  (List.length cut < 4)%nat ->
  GetIconsetPath icns_path w = (dir, w) ->
  IsEmpty dir = false ->
  mkdir_ok o dir = true ->
  Forall well_formed items ->
  Forall (fun item =>
            create_ok o (dir ++ "/" ++ target_name (fst item))%string = true)
    items ->
  (String.length dir + 21 <= MAXPATHLEN)%nat ->
  CreateIconsetFromIcns o icns_path w
  = Ret (false,
         PrintError "Invalid size in .icns file"
           (fold_left (extract dir) items (mkdir dir w))).
Proof.
  intros Hread Hsize Hcut Hpath Hdir Hmkdir Hwf Hcreate Hfit.
  destruct (CreateIconsetFromIcns_items o icns_path dir w size items _
              Hread Hsize Hpath Hdir Hmkdir Hwf Hcreate Hfit)
    as (icns & Hunread & Heof & ->).
  cbn [CreateIconsetFromIcns_loop]. rewrite Heof.
  destruct (CopyIconToIconset_short_length o icns dir
              (fold_left (extract dir) items (mkdir dir w)) a b c d cut
              Hunread Hcut Heof) as [icns' ->].
  reflexivity.
Qed.

(** X3: a container that is cut in the payload of a chunk: the chunks before
    it are written to their files, the file of the cut chunk is left with
    the whole buffers of 1024 bytes that could be read, and the decoder
    fails with the message of the copy. *)
Theorem cut_payload_fails (o : os) (icns_path dir : string) (w : world)
  (size : Z) (items : list (Z * list byte)) (header v : Z)
  (part : list byte) :
  os_read o icns_path
  = Some (list_byte_of_string "icns" ++ htonl size
          ++ List.concat (map typed_chunk items)
          ++ htonl header ++ htonl v ++ part) ->
  0 < size < 2 ^ 32 ->
  0 <= header < 2 ^ 32 ->
  8 < v < 2 ^ 32 ->
  Z.of_nat (List.length part) < v - 8 ->
  GetIconsetPath icns_path w = (dir, w) ->
  IsEmpty dir = false ->
  mkdir_ok o dir = true ->
  Forall well_formed items ->
  Forall (fun item =>
            create_ok o (dir ++ "/" ++ target_name (fst item))%string = true)
    items ->
  create_ok o (dir ++ "/" ++ target_name header)%string = true ->
  (String.length dir + 21 <= MAXPATHLEN)%nat ->
  CreateIconsetFromIcns o icns_path w
  = Ret (false,
         extract dir
           (PrintError "Error copying from .icns file to iconset"
              (fold_left (extract dir) items (mkdir dir w)))
           (header, firstn (1024 * (List.length part / 1024)) part)).
Proof.
  intros Hread Hsize Hheader Hv Hpart Hpath Hdir Hmkdir Hwf Hcreate Hlast
    Hfit.
  destruct (CreateIconsetFromIcns_items o icns_path dir w size items _
              Hread Hsize Hpath Hdir Hmkdir Hwf Hcreate Hfit)
    as (icns & Hunread & Heof & ->).
  cbn [CreateIconsetFromIcns_loop]. rewrite Heof.
  unfold CopyIconToIconset.
  rewrite (ReadUint32_htonl icns _ _ Hheader Hunread).
  change (feof (advance 4 icns)) with (feof icns). rewrite Heof, andb_false_r.
  assert (Hunread4 : unread (advance 4 icns) = htonl v ++ part)
    by (rewrite advance_unread, Hunread; apply skipn_htonl).
  assert (Hrange : 0 <= v < 2 ^ 32) by lia.
  rewrite (ReadUint32_htonl (advance 4 icns) v part Hrange Hunread4).
  destruct (Z.leb_spec v 8); [lia|].
  rewrite (CopyIconToIconset_path_target _ _ Hfit).
  cbn [bind]. rewrite Hlast. cbn [negb].
  assert (Hunread8 : unread (advance 4 (advance 4 icns)) = part).
  { rewrite advance_unread, Hunread4. apply skipn_htonl. }
  rewrite (CopyIconToIconset_copy_cut (List.length part / 1024) _ _ _ fopen_w
             (List.length part mod 1024));
    rewrite ?Hunread8;
    [ | apply Nat.mod_upper_bound; lia | apply Nat.div_mod_eq | lia | lia
      | reflexivity ].
  cbn [bind fopen_w f_data app]. unfold extract, fclose_w, PrintError, print.
  cbn [fst snd f_data w_stderr w_dirs w_files]. reflexivity.
Qed.

(** The side conditions of the examples. *)
Ltac items_ok :=
  repeat (apply Forall_cons || apply Forall_nil);
  unfold well_formed; cbn [fst snd];
  repeat split;
  try (vm_compute; (reflexivity || discriminate)).

Lemma container_is_extracted_witness :
  CreateIconsetFromIcns
    (single_file "x.icns"
       (list_byte_of_string "icns" ++ htonl 77
        ++ List.concat (map typed_chunk two_chunks) ++ [x00; x01]))
    "x.icns" empty_world
  = Ret (true,
         fold_left (extract "x.iconset") two_chunks
           (mkdir "x.iconset" empty_world)).
Proof.
  apply (container_is_extracted _ "x.icns" "x.iconset" empty_world 77
           two_chunks [x00; x01]);
    try reflexivity; try items_ok; vm_compute; lia.
Defined.

Lemma cut_length_field_fails_witness :
  CreateIconsetFromIcns
    (single_file "x.icns"
       (list_byte_of_string "icns" ++ htonl 77
        ++ List.concat (map typed_chunk two_chunks)
        ++ "i"%byte :: "c"%byte :: "0"%byte :: "8"%byte :: [x00; x00]))
    "x.icns" empty_world
  = Ret (false,
         PrintError "Invalid size in .icns file"
           (fold_left (extract "x.iconset") two_chunks
              (mkdir "x.iconset" empty_world))).
Proof.
  apply (cut_length_field_fails _ "x.icns" "x.iconset" empty_world 77
           two_chunks "i"%byte "c"%byte "0"%byte "8"%byte [x00; x00]);
    try reflexivity; try items_ok; vm_compute; lia.
Defined.

Lemma cut_payload_fails_witness :
  CreateIconsetFromIcns
    (single_file "x.icns"
       (list_byte_of_string "icns" ++ htonl 77
        ++ List.concat (map typed_chunk two_chunks)
        ++ htonl (multichar "i" "c" "0" "8") ++ htonl 2000
        ++ list_byte_of_string "PNG"))
    "x.icns" empty_world
  = Ret (false,
         extract "x.iconset"
           (PrintError "Error copying from .icns file to iconset"
              (fold_left (extract "x.iconset") two_chunks
                 (mkdir "x.iconset" empty_world)))
           (multichar "i" "c" "0" "8",
            firstn (1024 * (List.length (list_byte_of_string "PNG") / 1024))
              (list_byte_of_string "PNG"))).
Proof.
  apply (cut_payload_fails _ "x.icns" "x.iconset" empty_world 77
           two_chunks (multichar "i" "c" "0" "8") 2000
           (list_byte_of_string "PNG"));
    try reflexivity; try items_ok; vm_compute; lia.
Defined.

End DecoderRuns.

(** ** What every run of the decoder keeps *)

Section DecoderInvariants.
Import Libc Readicns Format Layout Examples.

Lemma length_take_le (n : nat) (s : string) :
  (String.length (take n s) <= n)%nat
  /\ (String.length (take n s) <= String.length s)%nat.
Proof.
  revert n. induction s as [|c s IH]; intros [|n]; cbn; try lia.
  destruct (IH n). lia.
Qed.

Lemma length_drop_le (n : nat) (s : string) :
  (String.length (drop n s) <= String.length s)%nat.
Proof.
  revert n. induction s as [|c s IH]; intros [|n]; cbn; try lia.
  specialize (IH n). lia.
Qed.

Lemma prefix_length (a b : string) :
  prefix a b = true -> (String.length a <= String.length b)%nat.
Proof.
  revert b. induction a as [|c a IH]; intros b H; cbn; [lia|].
  destruct b as [|c' b]; cbn in H; [discriminate|].
  destruct (ascii_dec c c'); [|discriminate].
  specialize (IH b H). cbn. lia.
Qed.

Lemma strstr_bound (haystack needle : string) (i : nat) :
  strstr haystack needle = Some i ->
  (i + String.length needle <= String.length haystack)%nat.
Proof.
  revert i. induction haystack as [|c h IH]; intros i; cbn [strstr].
  - destruct (prefix needle "") eqn:Hp; [|discriminate].
    intros H. injection H as <-. apply prefix_length in Hp. lia.
  - destruct (prefix needle (String c h)) eqn:Hp.
    + intros H. injection H as <-. apply prefix_length in Hp. lia.
    + destruct (strstr h needle) as [j|]; [|discriminate].
      cbn [option_map]. intros H. injection H as <-.
      specialize (IH j eq_refl). cbn [String.length]. lia.
Qed.

Lemma Basename_length (path base : string) :
  Basename path = Some base ->
  (String.length base < MAXPATHLEN)%nat
  /\ (String.length base <= Nat.max 1 (String.length path))%nat.
Proof.
  unfold Basename. destruct (IsEmpty path).
  - intros H. injection H as <-.
    split; [apply Nat.ltb_lt; reflexivity | cbn [String.length]; lia].
  - match goal with
    | |- context [(MAXPATHLEN <=? ?n)%nat] =>
        destruct (Nat.leb_spec MAXPATHLEN n) as [|Hlt]; [discriminate|]
    end.
    intros H. injection H as <-. unfold strlcpy.
    match goal with
    | |- context [take ?n ?s] =>
        destruct (length_take_le n s) as [H1 H2];
        pose proof (length_drop_le
                      (Basename_begin path
                         (Basename_end path (String.length path - 1))) path)
    end.
    lia.
Qed.

(** The path that [GetIconsetPath] returns, when it is not the empty path
    of an error: what is before the first ".icns" of the base name, and
    ".iconset" as far as the buffer has room. *)
Lemma GetIconsetPath_shape (icns_path dir : string) (w w' : world) :
  GetIconsetPath icns_path w = (dir, w') ->
  (dir = "" /\ exists m, w' = print m w)
  \/ (w' = w
      /\ exists base i,
           Basename icns_path = Some base
           /\ strstr base kIcnsExtension = Some i
           /\ dir = (take i base
                     ++ strlcpy kIconsetExtension (MAXPATHLEN - i))%string).
Proof.
  unfold GetIconsetPath.
  destruct (Basename icns_path) as [base|] eqn:Hbase.
  - destruct (strstr base kIcnsExtension) as [i|] eqn:Hi.
    + intros H. right. split; [congruence|].
      exists base, i. split; [reflexivity|]. split; [exact Hi|].
      congruence.
    + intros H. left. split; [congruence|].
      eexists. unfold PrintError in H. injection H as _ <-. reflexivity.
  - intros H. left. split; [congruence|].
    eexists. unfold PrintError in H. injection H as _ <-. reflexivity.
Qed.

Lemma GetIconsetPath_length (icns_path dir : string) (w w' : world) :
  GetIconsetPath icns_path w = (dir, w') ->
  (String.length dir < MAXPATHLEN)%nat
  /\ (String.length dir <= String.length icns_path + 3)%nat
  /\ (IsEmpty dir = true -> exists m, w' = print m w).
Proof.
  intros H. destruct (GetIconsetPath_shape _ _ _ _ H)
    as [[-> Hm]|(-> & base & i & Hbase & Hi & ->)].
  - cbn. unfold MAXPATHLEN. repeat split; try lia. intros _. exact Hm.
  - destruct (Basename_length _ _ Hbase) as [Hmax Hlen].
    apply strstr_bound in Hi. unfold kIcnsExtension in Hi.
    cbn [String.length] in Hi.
    rewrite length_append.
    destruct (length_take_le i base) as [Ht _].
    unfold strlcpy.
    destruct (length_take_le (MAXPATHLEN - i - 1) kIconsetExtension)
      as [Hroom Hext].
    unfold kIconsetExtension, MAXPATHLEN in *. cbn [String.length] in *.
    repeat split; try lia.
    destruct (take i base); [|discriminate].
    destruct (1024 - i - 1)%nat eqn:Hn; [lia | discriminate].
Qed.

(** A property of the worlds before and after a turn that goes on, and one
    of the worlds before and after a turn that fails, hold of the loop. *)
Lemma CreateIconsetFromIcns_loop_keeps (o : os) (iconset_path : string)
  (P Q : world -> world -> Prop) :
  (forall w, P w w) ->
  (forall w1 w2 w3, P w1 w2 -> P w2 w3 -> P w1 w3) ->
  (forall w1 w2 w3, P w1 w2 -> Q w2 w3 -> Q w1 w3) ->
  (forall icns w,
      match CopyIconToIconset o icns iconset_path w with
      | Ret (true, _, w') => P w w'
      | Ret (false, _, w') => Q w w'
      | _ => True
      end) ->
  forall fuel icns w,
    match CreateIconsetFromIcns_loop o fuel icns iconset_path w with
    | Ret (true, w') => P w w'
    | Ret (false, w') => Q w w'
    | _ => True
    end.
Proof.
  intros Hrefl Htrans Hfail Hturn.
  induction fuel as [|fuel IH]; intros icns w;
    cbn [CreateIconsetFromIcns_loop]; destruct (feof icns);
    try apply Hrefl; try exact I.
  specialize (Hturn icns w).
  destruct (CopyIconToIconset o icns iconset_path w)
    as [[[[|] icns'] w1]| |]; cbn [bind]; try exact I; [|exact Hturn].
  specialize (IH icns' w1).
  destruct (CreateIconsetFromIcns_loop o fuel icns' iconset_path w1)
    as [[[|] w2]| |]; try exact I.
  - exact (Htrans _ _ _ Hturn IH).
  - exact (Hfail _ _ _ Hturn IH).
Qed.

Lemma CopyIconToIconset_copy_defined (fuel : nat) :
  forall size icns target,
    CopyIconToIconset_copy fuel size icns target <> Undefined.
Proof.
  induction fuel as [|fuel IH]; intros size icns target;
    cbn [CopyIconToIconset_copy]; destruct (0 <? size); try discriminate.
  destruct (fread _ icns) as [buffer icns']. destruct (negb _);
    [discriminate | apply IH].
Qed.

(** A turn of the loop prints nothing when it goes on and one message when
    it fails. *)
Lemma CopyIconToIconset_messages (o : os) (iconset_path : string)
  (icns : FILE) (w : world) :
  match CopyIconToIconset o icns iconset_path w with
  | Ret (true, _, w') => w_stderr w' = w_stderr w
  | Ret (false, _, w') => exists m, w_stderr w' = w_stderr w ++ [m]
  | _ => True
  end.
Proof.
  unfold CopyIconToIconset.
  destruct (ReadUint32 icns) as [header f1].
  destruct ((header =? 0) && feof f1); [reflexivity|].
  destruct (ReadUint32 f1) as [size f2].
  destruct (size <=? 8); [eexists; reflexivity|].
  destruct (CopyIconToIconset_path iconset_path header) as [path| |];
    cbn [bind]; try exact I.
  destruct (negb (create_ok o path)); [eexists; reflexivity|].
  destruct (CopyIconToIconset_copy _ _ _ _) as [[[[|] f3] t]| |];
    cbn [bind]; try exact I; [reflexivity | eexists; reflexivity].
Qed.

(** The decoder is silent when it succeeds and prints exactly one message
    when it fails, whatever the file and the file system. *)
Lemma CreateIconsetFromIcns_messages (o : os) (icns_path : string)
  (w : world) :
  match CreateIconsetFromIcns o icns_path w with
  | Ret (true, w') => w_stderr w' = w_stderr w
  | Ret (false, w') => exists m, w_stderr w' = w_stderr w ++ [m]
  | Undefined => True
  | OutOfFuel => False
  end.
Proof.
  pose proof (CreateIconsetFromIcns_returns o icns_path w) as Hfuel.
  unfold CreateIconsetFromIcns in *.
  destruct (OpenIcnsFileForReading o icns_path w) as [[icns|] w1] eqn:Hopen.
  - assert (Hw1 : w1 = w).
    { unfold OpenIcnsFileForReading in Hopen.
      destruct (fopen_read o icns_path) as [[l ?]|]; [|discriminate].
      destruct (ReadUint32 (fopen_r l)) as [header f1].
      destruct (negb _); [discriminate|].
      destruct (ReadUint32 f1) as [size f2].
      destruct (size =? 0); [discriminate|]. congruence. }
    subst w1.
    destruct (GetIconsetPath icns_path w) as [dir w2] eqn:Hpath.
    destruct (GetIconsetPath_length _ _ _ _ Hpath) as (_ & _ & Hmsg).
    destruct (IsEmpty dir) eqn:Hdir.
    + destruct (Hmsg eq_refl) as [m ->]. now exists m.
    + apply GetIconsetPath_some in Hpath; [|exact Hdir]. subst w2.
      destruct (negb (mkdir_ok o dir)); [now exists SystemError|].
      pose proof (CreateIconsetFromIcns_loop_keeps o dir
                    (fun w w' => w_stderr w' = w_stderr w)
                    (fun w w' => exists m, w_stderr w' = w_stderr w ++ [m]))
        as Hloop.
      specialize (Hloop (fun _ => eq_refl)).
      specialize (Hloop (fun _ _ _ H1 H2 => eq_trans H2 H1)).
      assert (Hfail : forall w1 w2 w3 : world,
                 w_stderr w2 = w_stderr w1 ->
                 (exists m, w_stderr w3 = w_stderr w2 ++ [m]) ->
                 exists m, w_stderr w3 = w_stderr w1 ++ [m])
        by (intros ? ? ? <- H; exact H).
      specialize (Hloop Hfail (CopyIconToIconset_messages o dir)).
      specialize (Hloop (S (List.length (unread icns))) icns (mkdir dir w)).
      destruct (CreateIconsetFromIcns_loop _ _ _ _ _) as [[[|] w3]| |];
        try exact I; [exact Hloop | exact Hloop | now elim Hfuel].
  - unfold OpenIcnsFileForReading in Hopen.
    destruct (fopen_read o icns_path) as [[l ?]|];
      [|injection Hopen as <-; now exists SystemError].
    destruct (ReadUint32 (fopen_r l)) as [header f1].
    destruct (negb _); [injection Hopen as <-; eexists; reflexivity|].
    destruct (ReadUint32 f1) as [size f2].
    destruct (size =? 0); [injection Hopen as <-; eexists; reflexivity|].
    discriminate.
Qed.

Lemma Ret_inj {A : Type} (a b : A) : Ret a = Ret b -> a = b.
Proof. intros H. now injection H. Qed.

Lemma CopyIconToIconset_path_inside (iconset_path : string) (header : Z)
  (path : string) :
  CopyIconToIconset_path iconset_path header = Ret path ->
  exists name, path = (iconset_path ++ "/" ++ name)%string.
Proof.
  unfold CopyIconToIconset_path.
  destruct (GetFilenameFromType header).
  - destruct (_ <=? 0); [discriminate|].
    intros H. apply Ret_inj in H. subst path.
    eexists. now rewrite append_assoc.
  - destruct (_ <? 0); [discriminate|].
    destruct (_ =? 0); intros H; apply Ret_inj in H; subst path; eexists;
      now rewrite append_assoc.
Qed.

Lemma inside_refl (dir : string) (w : world) : inside dir w w.
Proof. split; [reflexivity | now left]. Qed.

Lemma inside_trans (dir : string) (w1 w2 w3 : world) :
  inside dir w1 w2 -> inside dir w2 w3 -> inside dir w1 w3.
Proof.
  intros [Hd1 Hf1] [Hd2 Hf2]. split; [congruence|].
  intros f Hf. destruct (Hf2 f Hf) as [H|H]; [now apply Hf1 | now right].
Qed.

Lemma inside_fclose_w (dir name : string) (f : FILE) (w w' : world) :
  w_dirs w' = w_dirs w ->
  w_files w' = w_files w ->
  inside dir w (fclose_w (dir ++ "/" ++ name)%string f w').
Proof.
  intros Hd Hf. split; [exact Hd|].
  intros e He. cbn [fclose_w w_files] in He. rewrite Hf in He.
  apply in_app_or in He. destruct He as [He|[<-|[]]].
  - left. apply filter_In in He. tauto.
  - right. now exists name.
Qed.

Lemma inside_print (dir : string) (m : message) (w : world) :
  inside dir w (print m w).
Proof. split; [reflexivity | now left]. Qed.

Lemma CopyIconToIconset_inside (o : os) (iconset_path : string)
  (icns : FILE) (w : world) :
  match CopyIconToIconset o icns iconset_path w with
  | Ret (_, _, w') => inside iconset_path w w'
  | _ => True
  end.
Proof.
  unfold CopyIconToIconset.
  destruct (ReadUint32 icns) as [header f1].
  destruct ((header =? 0) && feof f1); [apply inside_refl|].
  destruct (ReadUint32 f1) as [size f2].
  destruct (size <=? 8); [apply inside_print|].
  destruct (CopyIconToIconset_path iconset_path header) as [path| |] eqn:Hp;
    cbn [bind]; try exact I.
  destruct (CopyIconToIconset_path_inside _ _ _ Hp) as [name ->].
  destruct (negb (create_ok o _)); [apply inside_print|].
  destruct (CopyIconToIconset_copy _ _ _ _) as [[[[|] f3] t]| |];
    cbn [bind]; try exact I; now apply inside_fclose_w.
Qed.

(** X4: the decoder changes nothing before it has made its directory; it
    makes this one directory, and every file that it writes is in it. *)
Theorem decoder_writes_in_its_directory (o : os) (icns_path : string)
  (w : world) :
  match CreateIconsetFromIcns o icns_path w with
  | Ret (_, w') =>
      (w_dirs w' = w_dirs w /\ w_files w' = w_files w)
      \/ (exists dir,
             GetIconsetPath icns_path w = (dir, w)
             /\ w_dirs w' = w_dirs w ++ [dir]
             /\ forall f, In f (w_files w') ->
                          In f (w_files w)
                          \/ exists name,
                               fst f = (dir ++ "/" ++ name)%string)
  | _ => True
  end.
Proof.
  unfold CreateIconsetFromIcns.
  destruct (OpenIcnsFileForReading o icns_path w) as [[icns|] w1] eqn:Hopen.
  - assert (Hw1 : w1 = w).
    { unfold OpenIcnsFileForReading in Hopen.
      destruct (fopen_read o icns_path) as [[l ?]|]; [|discriminate].
      destruct (ReadUint32 (fopen_r l)) as [header f1].
      destruct (negb _); [discriminate|].
      destruct (ReadUint32 f1) as [size f2].
      destruct (size =? 0); [discriminate|]. congruence. }
    subst w1.
    destruct (GetIconsetPath icns_path w) as [dir w2] eqn:Hpath.
    destruct (GetIconsetPath_length _ _ _ _ Hpath) as (_ & _ & Hmsg).
    destruct (IsEmpty dir) eqn:Hdir.
    + destruct (Hmsg eq_refl) as [m ->]. left. split; reflexivity.
    + apply GetIconsetPath_some in Hpath; [|exact Hdir]. subst w2.
      destruct (negb (mkdir_ok o dir)); [left; split; reflexivity|].
      pose proof (CreateIconsetFromIcns_loop_keeps o dir (inside dir)
                    (inside dir) (inside_refl dir) (inside_trans dir)
                    (inside_trans dir)) as Hloop.
      assert (Hturn : forall icns w,
                 match CopyIconToIconset o icns dir w with
                 | Ret (true, _, w') => inside dir w w'
                 | Ret (false, _, w') => inside dir w w'
                 | _ => True
                 end).
      { intros f w0. pose proof (CopyIconToIconset_inside o dir f w0) as H.
        destruct (CopyIconToIconset o f dir w0) as [[[[|] ?] ?]| |];
          exact H. }
      specialize (Hloop Hturn (S (List.length (unread icns))) icns
                    (mkdir dir w)).
      destruct (CreateIconsetFromIcns_loop _ _ _ _ _) as [[ok w3]| |];
        try exact I.
      right. exists dir. split; [reflexivity|].
      destruct ok; destruct Hloop as [Hd Hf]; split; assumption.
  - unfold OpenIcnsFileForReading in Hopen.
    left.
    destruct (fopen_read o icns_path) as [[l ?]|];
      [|injection Hopen as <-; split; reflexivity].
    destruct (ReadUint32 (fopen_r l)) as [header f1].
    destruct (negb _); [injection Hopen as <-; split; reflexivity|].
    destruct (ReadUint32 f1) as [size f2].
    destruct (size =? 0); [injection Hopen as <-; split; reflexivity|].
    discriminate.
Qed.

Lemma CopyIconToIconset_path_defined (iconset_path : string) (header : Z) :
  (String.length iconset_path + 11 <= MAXPATHLEN)%nat ->
  CopyIconToIconset_path iconset_path header <> Undefined.
Proof.
  intros Hfit. unfold CopyIconToIconset_path.
  rewrite length_append. unfold kUnknownFormatFilename.
  cbn [String.length].
  destruct (GetFilenameFromType header).
  - destruct (Z.leb_spec (Z.of_nat MAXPATHLEN
                          - Z.of_nat (String.length iconset_path + 1)) 0);
      [lia | discriminate].
  - destruct (Z.ltb_spec (Z.of_nat MAXPATHLEN
                          - Z.of_nat (String.length iconset_path + 1)
                          - Z.of_nat 10) 0); [lia|].
    destruct (_ =? 0); discriminate.
Qed.

Lemma CopyIconToIconset_defined (o : os) (iconset_path : string)
  (icns : FILE) (w : world) :
  (String.length iconset_path + 11 <= MAXPATHLEN)%nat ->
  CopyIconToIconset o icns iconset_path w <> Undefined.
Proof.
  intros Hfit. unfold CopyIconToIconset.
  destruct (ReadUint32 icns) as [header f1].
  destruct ((header =? 0) && feof f1); [discriminate|].
  destruct (ReadUint32 f1) as [size f2].
  destruct (size <=? 8); [discriminate|].
  pose proof (CopyIconToIconset_path_defined iconset_path header Hfit) as Hp.
  destruct (CopyIconToIconset_path iconset_path header) as [path| |];
    cbn [bind]; [|congruence|discriminate].
  destruct (negb (create_ok o path)); [discriminate|].
  pose proof (CopyIconToIconset_copy_defined
                (S (List.length (unread f2))) (size - 8) f2 fopen_w) as Hc.
  destruct (CopyIconToIconset_copy _ _ _ _) as [[[[|] f3] t]| |];
    cbn [bind]; try discriminate. congruence.
Qed.

Lemma CreateIconsetFromIcns_loop_defined (o : os) (iconset_path : string)
  (fuel : nat) :
  (String.length iconset_path + 11 <= MAXPATHLEN)%nat ->
  forall icns w,
    CreateIconsetFromIcns_loop o fuel icns iconset_path w <> Undefined.
Proof.
  intros Hfit. induction fuel as [|fuel IH]; intros icns w;
    cbn [CreateIconsetFromIcns_loop]; destruct (feof icns);
    try discriminate.
  pose proof (CopyIconToIconset_defined o iconset_path icns w Hfit) as Hturn.
  destruct (CopyIconToIconset o icns iconset_path w)
    as [[[[|] icns'] w']| |]; cbn [bind]; try discriminate;
    [apply IH | congruence].
Qed.

(** X5: on a path of at most 1010 characters the decoder returns, whatever
    the bytes of the file: its loops end and the path buffer is not
    overrun. *)
Theorem decoder_returns_on_short_paths (o : os) (icns_path : string)
  (w : world) :
  (String.length icns_path + 14 <= MAXPATHLEN)%nat ->
  exists ok w', CreateIconsetFromIcns o icns_path w = Ret (ok, w').
Proof.
  intros Hshort.
  pose proof (CreateIconsetFromIcns_returns o icns_path w) as Hfuel.
  assert (Hdef : CreateIconsetFromIcns o icns_path w <> Undefined).
  { unfold CreateIconsetFromIcns.
    destruct (OpenIcnsFileForReading o icns_path w) as [[icns|] w1];
      [|discriminate].
    destruct (GetIconsetPath icns_path w1) as [dir w2] eqn:Hpath.
    destruct (GetIconsetPath_length _ _ _ _ Hpath) as (_ & Hlen & _).
    destruct (IsEmpty dir); [discriminate|].
    destruct (negb (mkdir_ok o dir)); [discriminate|].
    apply CreateIconsetFromIcns_loop_defined. lia. }
  destruct (CreateIconsetFromIcns o icns_path w) as [[ok w']| |];
    [now exists ok, w' | congruence | congruence].
Qed.

Lemma decoder_returns_on_short_paths_witness :
  exists ok w',
    CreateIconsetFromIcns (single_file "x.icns" (list_byte_of_string "icns?"))
      "x.icns" empty_world = Ret (ok, w').
Proof.
  apply (decoder_returns_on_short_paths
           (single_file "x.icns" (list_byte_of_string "icns?")) "x.icns"
           empty_world).
  vm_compute. lia.
Defined.

(** X6: a file that starts with the magic header and has no total size, or
    the total size 0, is refused as an empty container, before anything is
    made. A file of 4 to 7 bytes is such a file: the size that is cut short
    is read as 0. *)
Theorem empty_container_is_refused (o : os) (icns_path : string)
  (data : list byte) (w : world) :
  os_read o icns_path = Some data ->
  firstn 4 data = list_byte_of_string "icns" ->
  total_size data = 0 ->
  CreateIconsetFromIcns o icns_path w
  = Ret (false, PrintError "This looks like an empty .icns file." w).
Proof.
  intros Hread Hmagic Hsize.
  unfold CreateIconsetFromIcns, OpenIcnsFileForReading.
  rewrite (fopen_read_some _ _ _ Hread).
  destruct data as [|a [|b [|c [|d rest]]]]; try discriminate.
  cbn [firstn] in Hmagic.
  rewrite (ReadUint32_bytes (fopen_r (a :: b :: c :: d :: rest)) a b c d rest
             eq_refl).
  rewrite Hmagic.
  change (ntohl (list_byte_of_string "icns") =? kMagicHeader) with true.
  cbn [negb].
  unfold total_size in Hsize. cbn [skipn] in Hsize.
  destruct rest as [|e [|f [|g [|h rest]]]];
    try (rewrite ReadUint32_short by (cbn; lia); reflexivity).
  rewrite (ReadUint32_bytes
             (advance 4
                (fopen_r (a :: b :: c :: d :: e :: f :: g :: h :: rest)))
             e f g h rest eq_refl).
  cbn [firstn] in Hsize. rewrite Hsize. reflexivity.
Qed.

Lemma empty_container_is_refused_witness :
  CreateIconsetFromIcns (single_file "x.icns" (list_byte_of_string "icns??"))
    "x.icns" empty_world
  = Ret (false,
         PrintError "This looks like an empty .icns file." empty_world).
Proof.
  apply (empty_container_is_refused _ "x.icns"
           (list_byte_of_string "icns??") empty_world); reflexivity.
Defined.

End DecoderInvariants.

(** ** Base names *)

Section BaseNames.
Import Libc Readicns Format Layout Examples.

Lemma char_at_cons (c : ascii) (s : string) (i : nat) :
  char_at (String c s) (S i) = char_at s i.
Proof. reflexivity. Qed.

Lemma char_at_append_l (s t : string) (i : nat) :
  (i < String.length s)%nat -> char_at (s ++ t) i = char_at s i.
Proof.
  revert i. induction s as [|c s IH]; intros i Hi; cbn in Hi; [lia|].
  destruct i as [|i]; [reflexivity|].
  cbn [append]. rewrite !char_at_cons. apply IH. lia.
Qed.

Lemma char_at_append_r (s t : string) (i : nat) :
  char_at (s ++ t) (String.length s + i) = char_at t i.
Proof.
  induction s as [|c s IH]; [reflexivity|].
  cbn [append String.length Nat.add]. now rewrite char_at_cons.
Qed.

Lemma char_at_replicate (n i : nat) (c : ascii) :
  (i < n)%nat -> char_at (replicate n c) i = c.
Proof.
  revert i. induction n as [|n IH]; intros i Hi; [lia|].
  destruct i as [|i]; [reflexivity|].
  cbn [replicate]. rewrite char_at_cons. apply IH. lia.
Qed.

Lemma lacks_char_at (c : ascii) (s : string) (i : nat) :
  lacks c s = true -> (i < String.length s)%nat ->
  Ascii.eqb (char_at s i) c = false.
Proof.
  revert i. induction s as [|a s IH]; intros i Hl Hi; cbn in Hi; [lia|].
  cbn [lacks] in Hl. apply andb_prop in Hl. destruct Hl as [Ha Hs].
  destruct i as [|i].
  - cbn. now apply negb_true_iff in Ha.
  - rewrite char_at_cons. apply IH; [exact Hs | lia].
Qed.

Lemma drop_append (s t : string) : drop (String.length s) (s ++ t) = t.
Proof. induction s as [|c s IH]; [now destruct t | exact IH]. Qed.

Lemma length_replicate (n : nat) (c : ascii) :
  String.length (replicate n c) = n.
Proof. induction n as [|n IH]; cbn; [reflexivity | now rewrite IH]. Qed.

(** The first loop of [Basename] steps back over the slashes at the end. *)
Lemma Basename_end_scan (path : string) (m : nat) :
  m = 0%nat \/ Ascii.eqb (char_at path m) "/" = false ->
  forall j,
    (forall i, (m < i <= m + j)%nat -> char_at path i = "/"%char) ->
    Basename_end path (m + j) = m.
Proof.
  intros Hm. induction j as [|j IH]; intros Hslashes.
  - rewrite Nat.add_0_r. destruct m as [|m]; [reflexivity|].
    cbn [Basename_end]. destruct Hm as [Hm|Hm]; [discriminate|].
    now rewrite Hm.
  - rewrite Nat.add_succ_r. cbn [Basename_end].
    rewrite (Hslashes (S (m + j))) by lia.
    rewrite Ascii.eqb_refl. apply IH. intros i Hi. apply Hslashes. lia.
Qed.

(** The second loop steps back to the slash before the name. *)
Lemma Basename_begin_scan (path : string) (b : nat) :
  b = 0%nat \/ char_at path (b - 1) = "/"%char ->
  forall j,
    (forall i, (b <= i < b + j)%nat ->
               Ascii.eqb (char_at path i) "/" = false) ->
    Basename_begin path (b + j) = b.
Proof.
  intros Hb. induction j as [|j IH]; intros Hname.
  - rewrite Nat.add_0_r. destruct b as [|b]; [reflexivity|].
    cbn [Basename_begin]. destruct Hb as [Hb|Hb]; [discriminate|].
    replace (S b - 1)%nat with b in Hb by lia.
    now rewrite Hb, Ascii.eqb_refl.
  - rewrite Nat.add_succ_r. cbn [Basename_begin].
    rewrite (Hname (b + j)%nat) by lia.
    apply IH. intros i Hi. apply Hname. lia.
Qed.

(** [Basename] of a path made of directories, a name without slash and any
    number of slashes after it is the name. *)
Lemma Basename_name (pre name : string) (k : nat) :
  pre = "" \/ (exists q, pre = (q ++ "/")%string) ->
  name <> "" ->
  lacks "/" name = true ->
  (String.length name < MAXPATHLEN)%nat ->
  Basename (pre ++ name ++ replicate k "/") = Some name.
Proof.
  intros Hpre Hname Hlacks Hmax.
  set (path := (pre ++ name ++ replicate k "/")%string).
  set (lp := String.length pre). set (ln := String.length name).
  assert (Hln : (0 < ln)%nat)
    by (unfold ln; destruct name; [congruence | cbn; lia]).
  assert (Hlen : String.length path = (lp + ln + k)%nat).
  { unfold path. rewrite !length_append, length_replicate. unfold lp, ln.
    lia. }
  assert (Hin : forall i, (i < ln)%nat ->
                          Ascii.eqb (char_at path (lp + i)) "/" = false).
  { intros i Hi. unfold path, lp. rewrite char_at_append_r.
    rewrite char_at_append_l by exact Hi. now apply lacks_char_at. }
  assert (Hafter : forall j, (j < k)%nat ->
                             char_at path (lp + (ln + j)) = "/"%char).
  { intros j Hj. unfold path, lp, ln. rewrite !char_at_append_r.
    now apply char_at_replicate. }
  assert (Hbefore : lp = 0%nat \/ char_at path (lp - 1) = "/"%char).
  { destruct Hpre as [->|[q ->]]; [now left|right].
    unfold path, lp. rewrite length_append. cbn [String.length].
    replace (String.length q + 1 - 1)%nat with (String.length q + 0)%nat
      by lia.
    rewrite append_assoc. now rewrite char_at_append_r. }
  assert (Hnonempty : IsEmpty path = false).
  { unfold path. destruct pre; [|reflexivity].
    destruct name; [congruence | reflexivity]. }
  unfold Basename. rewrite Hnonempty, Hlen.
  replace (lp + ln + k - 1)%nat with (lp + ln - 1 + k)%nat by lia.
  rewrite (Basename_end_scan path (lp + ln - 1)).
  - replace (lp + ln - 1)%nat with (lp + (ln - 1))%nat by lia.
    rewrite (Basename_begin_scan path lp Hbefore)
      by (intros i Hi; replace i with (lp + (i - lp))%nat by lia;
          apply Hin; lia).
    replace (lp + (ln - 1) - lp + 1)%nat with ln by lia.
    destruct (Nat.leb_spec MAXPATHLEN ln); [unfold ln in *; lia|].
    unfold strlcpy. replace (ln + 1 - 1)%nat with ln by lia.
    unfold path, lp, ln. now rewrite drop_append, take_append.
  - right. replace (lp + ln - 1)%nat with (lp + (ln - 1))%nat by lia.
    apply Hin. lia.
  - intros i Hi. replace i with (lp + (ln + (i - lp - ln)))%nat by lia.
    apply Hafter. lia.
Qed.

Lemma Basename_plain (pre name : string) :
  pre = "" \/ (exists q, pre = (q ++ "/")%string) ->
  name <> "" ->
  lacks "/" name = true ->
  (String.length name < MAXPATHLEN)%nat ->
  Basename (pre ++ name) = Some name.
Proof.
  intros Hpre Hname Hlacks Hmax.
  rewrite <- (append_nil_r name) at 1.
  now apply (Basename_name pre name 0).
Qed.

(** [Basename] of a path of slashes only. *)
Lemma Basename_slashes (k : nat) :
  Basename (replicate (S k) "/") = Some "/".
Proof.
  unfold Basename. cbn [replicate IsEmpty String.length].
  rewrite length_replicate. replace (S k - 1)%nat with (0 + k)%nat by lia.
  rewrite (Basename_end_scan (String "/" (replicate k "/")) 0).
  - reflexivity.
  - now left.
  - intros i Hi.
    apply (char_at_replicate (S k) i "/"). lia.
Qed.

(** X7: the base name of a path is its last component, whatever the
    directories before it and the slashes after it, when it fits the path
    buffer; the base name of a path of slashes only is one slash. *)
Theorem Basename_is_the_last_name (pre name : string) (k : nat) :
  pre = "" \/ (exists q, pre = (q ++ "/")%string) ->
  name <> "" ->
  lacks "/" name = true ->
  (String.length name < MAXPATHLEN)%nat ->
  Basename (pre ++ name ++ replicate k "/") = Some name
  /\ Basename (replicate (S k) "/") = Some "/".
Proof.
  intros Hpre Hname Hlacks Hmax. split.
  - now apply Basename_name.
  - apply Basename_slashes.
Qed.

Lemma Basename_is_the_last_name_witness :
  Basename ("/usr/share/" ++ "app.icns" ++ replicate 2 "/") = Some "app.icns"
  /\ Basename (replicate 3 "/") = Some "/".
Proof.
  apply (Basename_is_the_last_name "/usr/share/" "app.icns" 2).
  - right. now exists "/usr/share".
  - discriminate.
  - reflexivity.
  - vm_compute. lia.
Defined.

(** What the two loops of [Basename] find in any path. *)
Lemma Basename_end_spec (path : string) (e : nat) :
  (Basename_end path e <= e)%nat
  /\ (Basename_end path e = 0%nat
      \/ Ascii.eqb (char_at path (Basename_end path e)) "/" = false).
Proof.
  induction e as [|e IH]; [cbn; auto|].
  cbn [Basename_end].
  destruct (Ascii.eqb (char_at path (S e)) "/") eqn:Hc.
  - destruct IH as [Hle Hor]. split; [lia | exact Hor].
  - split; [lia | now right].
Qed.

Lemma Basename_begin_spec (path : string) (b : nat) :
  (Basename_begin path b <= b)%nat
  /\ forall i, (Basename_begin path b <= i < b)%nat ->
               Ascii.eqb (char_at path i) "/" = false.
Proof.
  induction b as [|b IH]; [cbn; split; [lia | intros; lia]|].
  cbn [Basename_begin].
  destruct (Ascii.eqb (char_at path b) "/") eqn:Hc.
  - split; [lia | intros; lia].
  - destruct IH as [Hle Hin]. split; [lia|].
    intros i Hi. destruct (Nat.eq_dec i b) as [->|]; [exact Hc|].
    apply Hin. lia.
Qed.

Lemma lacks_take_drop (c : ascii) (s : string) :
  forall b n,
    (forall i, (b <= i < b + n)%nat -> Ascii.eqb (char_at s i) c = false) ->
    lacks c (take n (drop b s)) = true.
Proof.
  induction s as [|a s IH]; intros b n H.
  - now destruct b, n.
  - destruct b as [|b].
    + destruct n as [|n]; [reflexivity|].
      cbn [drop take lacks].
      rewrite (H 0%nat ltac:(lia) : Ascii.eqb a c = false). cbn [negb andb].
      apply (IH 0%nat n). intros i Hi. apply (H (S i)). lia.
    + cbn [drop]. apply IH. intros i Hi. apply (H (S i)). lia.
Qed.

Lemma lacks_append (c : ascii) (s t : string) :
  lacks c (s ++ t) = lacks c s && lacks c t.
Proof.
  induction s as [|a s IH]; [reflexivity|].
  cbn [append lacks]. now rewrite IH, andb_assoc.
Qed.

Lemma lacks_take (c : ascii) (n : nat) (s : string) :
  lacks c s = true -> lacks c (take n s) = true.
Proof.
  revert n. induction s as [|a s IH]; intros [|n] H; try reflexivity.
  cbn [take lacks] in *. apply andb_prop in H. destruct H as [-> H].
  now rewrite IH.
Qed.

(** A base name is one slash or has no slash. *)
Lemma Basename_lacks (path base : string) :
  Basename path = Some base ->
  base = "/" \/ lacks "/" base = true.
Proof.
  unfold Basename. destruct path as [|c0 s0] eqn:Hpath.
  { intros H. injection H as <-. now right. }
  rewrite <- Hpath. rewrite Hpath at 1. cbn [IsEmpty]. cbv zeta.
  set (e := Basename_end path (String.length path - 1)).
  set (b := Basename_begin path e).
  destruct (Nat.leb_spec MAXPATHLEN (e - b + 1)) as [|Hlt]; [discriminate|].
  intros H. injection H as <-. unfold strlcpy.
  replace (e - b + 1 + 1 - 1)%nat with (e - b + 1)%nat by lia.
  destruct (Basename_end_spec path (String.length path - 1)) as [_ Hend].
  destruct (Basename_begin_spec path e) as [Hle Hin].
  fold e in Hend. fold b in Hle, Hin.
  destruct (Ascii.eqb (char_at path e) "/") eqn:Hc.
  - destruct Hend as [He|]; [|discriminate].
    assert (Hb : b = 0%nat) by lia.
    rewrite He in *. rewrite Hb. left.
    rewrite Hpath in *. cbn in Hc. apply Ascii.eqb_eq in Hc. subst c0.
    reflexivity.
  - right. apply lacks_take_drop. intros i Hi.
    destruct (Nat.eq_dec i e) as [->|]; [exact Hc|].
    apply Hin. lia.
Qed.

Lemma GetIconsetPath_lacks (icns_path dir : string) (w w' : world) :
  GetIconsetPath icns_path w = (dir, w') -> lacks "/" dir = true.
Proof.
  intros Hpath. unfold GetIconsetPath in Hpath.
  destruct (Basename icns_path) as [base|] eqn:Hbase;
    [|injection Hpath as <- _; reflexivity].
  destruct (strstr base kIcnsExtension) as [i|] eqn:Hext;
    [|injection Hpath as <- _; reflexivity].
  injection Hpath as <- _.
  destruct (Basename_lacks _ _ Hbase) as [->|Hlacks];
    [vm_compute in Hext; discriminate|].
  rewrite lacks_append, (lacks_take _ _ _ Hlacks). unfold strlcpy.
  now rewrite lacks_take.
Qed.

(** X8: the directory that the decoder makes is named without a slash, so
    it is made in the current directory whatever the directory of the
    .icns file, and its name fits the path buffer. *)
Theorem decoder_directory_has_no_slash (icns_path dir : string)
  (w w' : world) :
  GetIconsetPath icns_path w = (dir, w') ->
  lacks "/" dir = true /\ (String.length dir < MAXPATHLEN)%nat.
Proof.
  intros Hpath. split.
  - exact (GetIconsetPath_lacks _ _ _ _ Hpath).
  - now destruct (GetIconsetPath_length _ _ _ _ Hpath) as (H & _).
Qed.

Lemma decoder_directory_has_no_slash_witness :
  lacks "/" "app.iconset" = true
  /\ (String.length "app.iconset" < MAXPATHLEN)%nat.
Proof.
  apply (decoder_directory_has_no_slash "/usr/share/app.icns" "app.iconset"
           empty_world empty_world).
  reflexivity.
Defined.

(** X9: the container that the encoder writes is named without a slash,
    so it is written to the current directory whatever the directory of the
    iconset. *)
Theorem encoder_file_has_no_slash (o : os) (iconset_path : string)
  (w w' : world) (name : string) (icns : FILE) :
  Createicns.OpenIcnsFileForIconset o iconset_path w
  = (Some (name, icns), w') ->
  lacks "/" name = true /\ (String.length name < MAXPATHLEN)%nat.
Proof.
  unfold Createicns.OpenIcnsFileForIconset, Createicns.basename_r.
  destruct (Basename iconset_path) as [base|] eqn:Hbase; [|discriminate].
  change (String.length Createicns.kIconsetExtension) with 8%nat.
  destruct (Nat.leb_spec (String.length base) 8) as [|Hlong]; [discriminate|].
  cbn [orb]. destruct (negb (String.eqb _ _)); [discriminate|].
  destruct (negb (create_ok o _)); [discriminate|].
  intros H.
  assert (Hname : name
                  = (take (String.length base - 8) base
                     ++ Createicns.kIcnsExtension)%string) by congruence.
  subst name. clear H.
  destruct (Basename_length _ _ Hbase) as [Hmax _].
  split.
  - destruct (Basename_lacks _ _ Hbase) as [->|Hlacks];
      [cbn in Hlong; lia|].
    now rewrite lacks_append, (lacks_take _ _ _ Hlacks).
  - rewrite length_append.
    destruct (length_take_le (String.length base - 8) base) as [Hle _].
    change (String.length Createicns.kIcnsExtension) with 5%nat. lia.
Qed.

Lemma encoder_file_has_no_slash_witness :
  lacks "/" "x.icns" = true /\ (String.length "x.icns" < MAXPATHLEN)%nat.
Proof.
  apply (encoder_file_has_no_slash (single_icon png4) "a/b/x.iconset//"
           empty_world empty_world "x.icns"
           (mkFILE (htonl (to_uint32 Createicns.kMagicHeader) ++ htonl 0)
              8 false)).
  reflexivity.
Defined.

End BaseNames.

(** ** What the encoder writes *)

Section EncoderRuns.
Import Libc Createicns Format Layout Examples.

Lemma take_drop (n : nat) (s : string) : (take n s ++ drop n s)%string = s.
Proof.
  revert n. induction s as [|c s IH]; intros [|n]; cbn; try reflexivity.
  now rewrite IH.
Qed.

Lemma length_drop (n : nat) (s : string) :
  String.length (drop n s) = (String.length s - n)%nat.
Proof.
  revert n. induction s as [|c s IH]; intros [|n]; cbn; try reflexivity.
  apply IH.
Qed.

Lemma length_take (n : nat) (s : string) :
  (n <= String.length s)%nat -> String.length (take n s) = n.
Proof.
  revert n. induction s as [|c s IH]; intros [|n] H; cbn in *;
    try reflexivity; try lia.
  rewrite IH by lia. reflexivity.
Qed.

(** The container is opened for a base name that ends in the extension of
    an iconset and has something before it. *)
Lemma OpenIcnsFileForIconset_iconset (o : os) (iconset_path stem : string)
  (w : world) :
  stem <> "" ->
  basename_r iconset_path = Some (stem ++ kIconsetExtension)%string ->
  create_ok o (stem ++ kIcnsExtension)%string = true ->
  OpenIcnsFileForIconset o iconset_path w
  = (Some ((stem ++ kIcnsExtension)%string,
           mkFILE (htonl (to_uint32 kMagicHeader) ++ htonl 0) 8 false), w).
Proof.
  intros Hstem Hbase Hcreate. unfold OpenIcnsFileForIconset.
  rewrite Hbase, length_append.
  assert (Hlen : (0 < String.length stem)%nat)
    by (destruct stem; [congruence | cbn; lia]).
  change (String.length kIconsetExtension) with 8%nat.
  replace (String.length stem + 8 - 8)%nat with (String.length stem) by lia.
  destruct (Nat.leb_spec (String.length stem + 8) 8); [lia|].
  rewrite drop_append, take_append. cbn [orb].
  change (take 8 kIconsetExtension) with kIconsetExtension.
  rewrite String.eqb_refl, Hcreate. reflexivity.
Qed.

(** The other way round: what is known when the container was opened. *)
Lemma OpenIcnsFileForIconset_stem (o : os) (iconset_path : string)
  (w w' : world) (name : string) (icns : FILE) :
  OpenIcnsFileForIconset o iconset_path w = (Some (name, icns), w') ->
  exists stem,
    stem <> ""
    /\ basename_r iconset_path = Some (stem ++ ".iconset")%string
    /\ name = (stem ++ ".icns")%string
    /\ create_ok o name = true
    /\ icns = mkFILE (htonl (to_uint32 kMagicHeader) ++ htonl 0) 8 false
    /\ w' = w.
Proof.
  intros Hopen.
  destruct (OpenIcnsFileForIconset_some _ _ _ _ _ _ Hopen) as [-> ->].
  unfold OpenIcnsFileForIconset in Hopen.
  destruct (basename_r iconset_path) as [path|]; [|discriminate].
  change (String.length kIconsetExtension) with 8%nat in Hopen.
  destruct (Nat.leb_spec (String.length path) 8) as [|Hlong];
    [discriminate|].
  cbn [orb] in Hopen.
  destruct (String.eqb_spec
              (take 8 (drop (String.length path - 8) path))
              kIconsetExtension) as [Hext|]; [|discriminate].
  cbn [negb] in Hopen.
  destruct (create_ok o _) eqn:Hcreate; [|discriminate].
  cbn [negb] in Hopen.
  assert (Hname : (take (String.length path - 8) path ++ kIcnsExtension)%string
                  = name) by congruence.
  rewrite take_all in Hext by (rewrite length_drop; lia).
  exists (take (String.length path - 8) path).
  repeat split.
  - intros Hnil.
    assert (Hl := length_take (String.length path - 8) path ltac:(lia)).
    rewrite Hnil in Hl. cbn in Hl. lia.
  - f_equal. rewrite <- (take_drop (String.length path - 8) path) at 1.
    now rewrite Hext.
  - now rewrite <- Hname.
  - now rewrite <- Hname.
Qed.

(** X10: the encoder opens its container exactly when the base name of the
    directory is a non-empty stem followed by ".iconset" and the file
    stem.icns can be created; the stream then holds the magic header and a
    total size of 0, and nothing was printed. *)
Theorem encoder_output_name (o : os) (iconset_path : string) (w w' : world)
  (name : string) (icns : FILE) :
  OpenIcnsFileForIconset o iconset_path w = (Some (name, icns), w')
  <-> exists stem,
        stem <> ""
        /\ basename_r iconset_path = Some (stem ++ ".iconset")%string
        /\ name = (stem ++ ".icns")%string
        /\ create_ok o name = true
        /\ icns = mkFILE (htonl (to_uint32 kMagicHeader) ++ htonl 0) 8 false
        /\ w' = w.
Proof.
  split.
  - apply OpenIcnsFileForIconset_stem.
  - intros (stem & Hstem & Hbase & -> & Hcreate & -> & ->).
    now apply OpenIcnsFileForIconset_iconset.
Qed.

Lemma entry_chunk_read (o : os) (iconset_path d_name : string) :
  entry_chunk o iconset_path d_name
  = chunk (FindIconType d_name)
      match os_read o (iconset_path ++ "/" ++ d_name)%string with
      | Some data => data
      | None => []
      end.
Proof. reflexivity. Qed.

(** The loop on a listing whose icons can all be read. *)
Lemma chunks_readable (o : os) (iconset_path : string)
  (entries : list string) :
  (forall d_name, In d_name (known entries) ->
                  os_read o (iconset_path ++ "/" ++ d_name)%string <> None) ->
  chunks o iconset_path entries
  = (true, body o iconset_path entries, map Warning (unknown entries)).
Proof.
  unfold body, known, unknown.
  induction entries as [|d_name entries IH]; intros Hread; [reflexivity|].
  cbn [chunks filter] in *.
  destruct (is_dot d_name); cbn [negb andb] in *;
    [rewrite (IH Hread); reflexivity|].
  destruct (FindIconType d_name =? 0); cbn [negb] in *;
    [rewrite (IH Hread); reflexivity|].
  rewrite IH by (intros d Hd; apply Hread; now right).
  cbn [map List.concat].
  rewrite (entry_chunk_read o iconset_path d_name).
  specialize (Hread d_name (or_introl eq_refl)).
  destruct (os_read o (iconset_path ++ "/" ++ d_name)%string);
    [reflexivity | contradiction].
Qed.

(** The loop runs to the end only when every icon of the listing was
    read. *)
Lemma chunks_success (o : os) (iconset_path : string)
  (entries : list string) :
  forall bs ms,
    chunks o iconset_path entries = (true, bs, ms) ->
    forall d_name,
      In d_name (known entries) ->
      os_read o (iconset_path ++ "/" ++ d_name)%string <> None.
Proof.
  unfold known.
  induction entries as [|e entries IH]; intros bs ms Hrun d_name Hin;
    [destruct Hin|].
  cbn [chunks filter] in *.
  destruct (chunks o iconset_path entries) as [[ok bs'] ms'].
  destruct (is_dot e); cbn [negb andb] in *.
  { assert (ok = true) by congruence. subst ok. now apply (IH bs' ms'). }
  destruct (FindIconType e =? 0); cbn [negb] in *.
  { assert (ok = true) by congruence. subst ok. now apply (IH bs' ms'). }
  destruct (os_read o (iconset_path ++ "/" ++ e)%string) eqn:Hread;
    [|discriminate].
  assert (ok = true) by congruence. subst ok.
  destruct Hin as [<-|Hin]; [congruence | now apply (IH bs' ms')].
Qed.

(** The loop on a listing with an icon that [os_read] does not give. *)
Lemma chunks_unreadable (o : os) (iconset_path : string)
  (before : list string) (d_name : string) (after : list string) :
  (forall d, In d (known before) ->
             os_read o (iconset_path ++ "/" ++ d)%string <> None) ->
  is_dot d_name = false ->
  FindIconType d_name <> 0 ->
  os_read o (iconset_path ++ "/" ++ d_name)%string = None ->
  chunks o iconset_path (before ++ d_name :: after)
  = (false,
     body o iconset_path before
     ++ dangling o (iconset_path ++ "/" ++ d_name)%string
          (FindIconType d_name),
     map Warning (unknown before) ++ [SystemError]).
Proof.
  intros Hread Hdot Hknown Hnone.
  rewrite chunks_app, (chunks_readable _ _ _ Hread). cbn [chunks].
  destruct (chunks o iconset_path after) as [[ok bs] ms].
  rewrite Hdot, Hnone.
  destruct (Z.eqb_spec (FindIconType d_name) 0); [contradiction|].
  reflexivity.
Qed.

(** X11: a run of the encoder that succeeds was given a directory named
    stem.iconset and has read every entry with a name of the table; it
    leaves stem.icns with the magic header, the total size modulo 2^32 and
    the chunks of those entries, in the order of the listing; it has
    printed one warning for each other entry that does not start with a
    dot, in that order, and nothing else, and has written nothing else. *)
Theorem encoder_writes_the_container (o : os) (iconset_path : string)
  (entries : list string) (w w' : world) :
  os_readdir o iconset_path = Some entries ->
  CreateIcnsFromIconset o iconset_path w = Ret (true, w') ->
  exists stem,
    stem <> ""
    /\ basename_r iconset_path = Some (stem ++ ".iconset")%string
    /\ create_ok o (stem ++ ".icns")%string = true
    /\ (forall d_name,
           In d_name (known entries) ->
           os_read o (iconset_path ++ "/" ++ d_name)%string <> None)
    /\ w' = mkWorld (w_stderr w ++ map Warning (unknown entries)) (w_dirs w)
              (written (stem ++ ".icns")
                 (container (body o iconset_path entries)) (w_files w)).
Proof.
  intros Hdir Hrun.
  destruct (OpenIcnsFileForIconset o iconset_path w)
    as [[[name icns]|] w0] eqn:Hopen;
    [|unfold CreateIcnsFromIconset in Hrun; rewrite Hdir, Hopen in Hrun;
      discriminate].
  rewrite (CreateIcnsFromIconset_spec _ _ _ _ _ _ _ Hdir Hopen) in Hrun.
  destruct (OpenIcnsFileForIconset_stem _ _ _ _ _ _ Hopen)
    as (stem & Hstem & Hbase & -> & Hcreate & _ & _).
  destruct (chunks o iconset_path entries) as [[[|] bs] ms] eqn:Hchunks;
    [|discriminate].
  pose proof (chunks_success _ _ _ _ _ Hchunks) as Hread.
  rewrite (chunks_readable _ _ _ Hread) in Hchunks.
  assert (Hbs : bs = body o iconset_path entries) by congruence.
  assert (Hms : ms = map Warning (unknown entries)) by congruence.
  subst bs ms. cbv zeta in Hrun. apply Ret_inj in Hrun.
  apply (f_equal snd) in Hrun. cbn [snd] in Hrun.
  exists stem. repeat split; try assumption. now rewrite <- Hrun.
Qed.

Lemma encoder_writes_the_container_witness :
  exists stem,
    stem <> ""
    /\ basename_r "a/x.iconset" = Some (stem ++ ".iconset")%string
    /\ create_ok
         (with_listing (single_file "a/x.iconset/icon_16x16.png" png4)
            "a/x.iconset" ["."; "notes.txt"; "icon_16x16.png"; ".hidden"])
         (stem ++ ".icns")%string = true
    /\ (forall d_name,
           In d_name
             (known ["."; "notes.txt"; "icon_16x16.png"; ".hidden"]) ->
           os_read
             (with_listing (single_file "a/x.iconset/icon_16x16.png" png4)
                "a/x.iconset"
                ["."; "notes.txt"; "icon_16x16.png"; ".hidden"])
             ("a/x.iconset" ++ "/" ++ d_name)%string <> None)
    /\ mkWorld [Warning "notes.txt"] []
         [("x.icns", container (chunk (multichar "i" "c" "p" "4") png4))]
       = mkWorld
           (w_stderr empty_world
            ++ map Warning
                 (unknown ["."; "notes.txt"; "icon_16x16.png"; ".hidden"]))
           (w_dirs empty_world)
           (written (stem ++ ".icns")
              (container
                 (body
                    (with_listing
                       (single_file "a/x.iconset/icon_16x16.png" png4)
                       "a/x.iconset"
                       ["."; "notes.txt"; "icon_16x16.png"; ".hidden"])
                    "a/x.iconset"
                    ["."; "notes.txt"; "icon_16x16.png"; ".hidden"]))
              (w_files empty_world)).
Proof.
  apply (encoder_writes_the_container
           (with_listing (single_file "a/x.iconset/icon_16x16.png" png4)
              "a/x.iconset" ["."; "notes.txt"; "icon_16x16.png"; ".hidden"])
           "a/x.iconset"
           ["."; "notes.txt"; "icon_16x16.png"; ".hidden"] empty_world
           (mkWorld [Warning "notes.txt"] []
              [("x.icns",
                container (chunk (multichar "i" "c" "p" "4") png4))])).
  - reflexivity.
  - reflexivity.
Defined.

(** X12: when the entries before it are files that can be read and an
    entry with a name of the table is not, the encoder fails at that entry:
    it prints the warnings of the entries before it and a system error, and
    leaves stem.icns with a total size of 0 and the chunks of the entries
    before. When the entry cannot be opened, or a seek on it fails, nothing
    more is in the file; when it is its first read that fails, the header
    of its chunk is, with the size that [ftell] reported plus 8, modulo
    2^32. The writes to the container are taken to succeed. *)
Theorem encoder_stops_at_unreadable_icon (o : os)
  (iconset_path stem : string) (before : list string) (d_name : string)
  (after : list string) (w : world) :
  os_readdir o iconset_path = Some (before ++ d_name :: after) ->
  stem <> "" ->
  basename_r iconset_path = Some (stem ++ ".iconset")%string ->
  create_ok o (stem ++ ".icns")%string = true ->
  (forall d, In d (known before) ->
             os_read o (iconset_path ++ "/" ++ d)%string <> None) ->
  is_dot d_name = false ->
  FindIconType d_name <> 0 ->
  os_read o (iconset_path ++ "/" ++ d_name)%string = None ->
  CreateIcnsFromIconset o iconset_path w
  = Ret (false,
         mkWorld (w_stderr w ++ map Warning (unknown before) ++ [SystemError])
           (w_dirs w)
           (written (stem ++ ".icns")
              (unfinished
                 (body o iconset_path before
                  ++ match
                       os_unreadable o (iconset_path ++ "/" ++ d_name)%string
                     with
                     | None => []
                     | Some size =>
                         if size <? 0 then []
                         else htonl (to_uint32 (FindIconType d_name))
                              ++ htonl (to_uint32 (size + 8))
                     end))
              (w_files w))).
Proof.
  intros Hdir Hstem Hbase Hcreate Hread Hdot Hknown Hnone.
  rewrite (CreateIcnsFromIconset_spec _ _ _ _ _ _ _ Hdir
             (OpenIcnsFileForIconset_iconset _ _ _ w Hstem Hbase Hcreate)).
  rewrite (chunks_unreadable _ _ _ _ _ Hread Hdot Hknown Hnone).
  cbv zeta iota beta. unfold fclose_w, written, unfinished, dangling.
  cbn [f_data w_stderr w_dirs w_files]. rewrite <- !app_assoc.
  now destruct (os_unreadable o _) as [size|]; [destruct (size <? 0)|].
Qed.

Lemma encoder_stops_at_unreadable_icon_witness :
  CreateIcnsFromIconset
    (with_unreadable
       (with_listing (single_icon png4) "x.iconset"
          ["notes.txt"; "icon_16x16.png"; "icon_32x32.png";
           "icon_64x64.png"])
       "x.iconset/icon_32x32.png" (2 ^ 63 - 1))
    "x.iconset" empty_world
  = Ret (false,
         mkWorld [Warning "notes.txt"; SystemError] []
           [("x.icns",
             unfinished
               (chunk (multichar "i" "c" "p" "4") png4
                ++ list_byte_of_string "icp5" ++ [x00; x00; x00; x07]))]).
Proof.
  apply (encoder_stops_at_unreadable_icon
           (with_unreadable
              (with_listing (single_icon png4) "x.iconset"
                 ["notes.txt"; "icon_16x16.png"; "icon_32x32.png";
                  "icon_64x64.png"])
              "x.iconset/icon_32x32.png" (2 ^ 63 - 1))
           "x.iconset" "x" ["notes.txt"; "icon_16x16.png"] "icon_32x32.png"
           ["icon_64x64.png"] empty_world).
  - reflexivity.
  - discriminate.
  - reflexivity.
  - reflexivity.
  - intros d Hd. vm_compute in Hd. destruct Hd as [<-|[]].
    vm_compute. discriminate.
  - reflexivity.
  - vm_compute. discriminate.
  - reflexivity.
Defined.

End EncoderRuns.

(** ** The exit status of the programs *)

Section ExitStatus.
Import Libc Format Layout Examples.

Lemma chunks_messages (o : os) (iconset_path : string)
  (entries : list string) :
  let '(ok, _, ms) := chunks o iconset_path entries in
  if ok : bool then forallb is_warning ms = true
  else existsb (fun m => negb (is_warning m)) ms = true.
Proof.
  induction entries as [|d_name entries IH]; [reflexivity|].
  cbn [chunks]. destruct (chunks o iconset_path entries) as [[ok bs] ms].
  destruct (Createicns.is_dot d_name); [exact IH|].
  destruct (Createicns.FindIconType d_name =? 0).
  - destruct ok; cbn; exact IH.
  - destruct (os_read o _); [exact IH | reflexivity].
Qed.

Lemma OpenIcnsFileForIconset_none (o : os) (iconset_path : string)
  (w w' : world) :
  Createicns.OpenIcnsFileForIconset o iconset_path w = (None, w') ->
  exists m, is_warning m = false /\ w' = print m w.
Proof.
  unfold Createicns.OpenIcnsFileForIconset.
  destruct (Createicns.basename_r iconset_path) as [path|].
  - destruct (_ || _).
    + intros H. injection H as <-. eexists. split; [|reflexivity].
      reflexivity.
    + destruct (negb _); [|discriminate].
      intros H. injection H as <-. exists SystemError. now split.
  - intros H. injection H as <-. exists SystemError. now split.
Qed.

(** X13: createicns always ends, with status 0 or -1. It returns 0 only
    when it was given one argument and has printed nothing but warnings
    about entries of unknown type: a run that prints an error does not
    return 0. It makes no directory. With another number of arguments than
    one it returns -1, prints an error and the usage line and touches no
    file; when the directory cannot be listed it returns -1, prints a
    system error and touches no file. *)
Theorem createicns_exit_status (o : os) (argv : list string) (w : world) :
  exists code w' ms,
    Createicns.main o argv w = Ret (code, w')
    /\ w_stderr w' = w_stderr w ++ ms
    /\ w_dirs w' = w_dirs w
    /\ (code = 0 \/ code = -1)
    /\ (code = 0 ->
        List.length argv = 2%nat /\ forallb is_warning ms = true)
    /\ (List.length argv <> 2%nat ->
        code = -1
        /\ (exists text line, ms = [Error text; Usage line])
        /\ w_files w' = w_files w)
    /\ (List.length argv = 2%nat ->
        os_readdir o (nth 1 argv "") = None ->
        code = -1 /\ ms = [SystemError] /\ w_files w' = w_files w).
Proof.
  unfold Createicns.main, Createicns.IconsetFromArguments.
  destruct (Nat.ltb_spec (List.length argv) 2) as [Hfew|Hsome].
  { eexists; eexists; exists [Error "No path given to iconset directory.";
                     Usage ("Usage: " ++ nth 0 argv "" ++ " [iconset]")].
    split; [reflexivity|]. cbn. rewrite <- app_assoc.
    repeat split; try lia; try discriminate; eauto. }
  destruct (Nat.ltb_spec 2 (List.length argv)) as [Hmany|Hone].
  { eexists; eexists; exists [Error "Too many arguments.";
                     Usage ("Usage: " ++ nth 0 argv "" ++ " [iconset]")].
    split; [reflexivity|]. cbn. rewrite <- app_assoc.
    repeat split; try lia; try discriminate; eauto. }
  assert (Hargc : List.length argv = 2%nat) by lia.
  set (iconset_path := nth 1 argv "").
  destruct (os_readdir o iconset_path) as [entries|] eqn:Hdir.
  - destruct (Createicns.OpenIcnsFileForIconset o iconset_path w)
      as [[[name f]|] w0] eqn:Hopen.
    + rewrite (CreateIcnsFromIconset_spec _ _ _ _ _ _ _ Hdir Hopen).
      pose proof (chunks_messages o iconset_path entries) as Hms.
      destruct (chunks o iconset_path entries) as [[[|] bs] ms];
        cbn [bind]; eexists; eexists; exists ms;
        (split; [reflexivity|]); cbn [w_stderr w_dirs fclose_w];
        repeat split; try assumption; try contradiction; try discriminate;
        auto.
    + unfold Createicns.CreateIcnsFromIconset. rewrite Hdir, Hopen.
      destruct (OpenIcnsFileForIconset_none _ _ _ _ Hopen) as (m & Hm & ->).
      cbn [bind]. eexists; eexists; exists [m].
      split; [reflexivity|]. cbn.
      repeat split; try assumption; try contradiction; try discriminate;
        auto.
  - unfold Createicns.CreateIcnsFromIconset. rewrite Hdir. cbn [bind].
    eexists; eexists; exists [SystemError].
    split; [reflexivity|]. cbn.
    repeat split; try assumption; try contradiction; try discriminate; auto.
Qed.

(** X14: readicns ends with status 0 and has printed nothing, or with
    status -1 and has printed one message, or, with another number of
    arguments than one, with status -1, an error and the usage line and no
    file or directory touched; unless a file name overruns the path
    buffer. *)
Theorem readicns_exit_status (o : os) (argv : list string) (w : world) :
  match Readicns.main o argv w with
  | Ret (code, w') =>
      (code = 0 /\ List.length argv = 2%nat /\ w_stderr w' = w_stderr w)
      \/ (code = -1 /\ List.length argv = 2%nat
          /\ exists m, w_stderr w' = w_stderr w ++ [m])
      \/ (code = -1 /\ List.length argv <> 2%nat
          /\ (exists text line,
                 w_stderr w' = w_stderr w ++ [Error text; Usage line])
          /\ w_dirs w' = w_dirs w /\ w_files w' = w_files w)
  | Undefined => True
  | OutOfFuel => False
  end.
Proof.
  unfold Readicns.main, Readicns.IcnsFromArguments.
  destruct (Nat.ltb_spec (List.length argv) 2) as [Hfew|Hsome].
  { right; right. repeat split; try lia.
    do 2 eexists. cbn. rewrite <- app_assoc. reflexivity. }
  destruct (Nat.ltb_spec 2 (List.length argv)) as [Hmany|Hone].
  { right; right. repeat split; try lia.
    do 2 eexists. cbn. rewrite <- app_assoc. reflexivity. }
  pose proof (CreateIconsetFromIcns_messages o (nth 1 argv "") w) as Hms.
  destruct (Readicns.CreateIconsetFromIcns o (nth 1 argv "") w)
    as [[[|] w']| |]; cbn [bind]; try exact Hms.
  - left. repeat split; [lia | exact Hms].
  - right; left. repeat split; [lia | exact Hms].
Qed.

End ExitStatus.

(** ** The tables and the words of the two programs *)

Section Tables.
Import Libc Format Layout Examples.

(** X15: the tables of the two programs are inverse to each other: the
    decoder names a type as the encoder's table has it, and only the types
    of that table, none of which is 0. *)
Theorem icon_tables_agree (name : string) (type : Z) :
  Readicns.GetFilenameFromType type = Some name
  <-> Createicns.FindIconType name = type /\ type <> 0.
Proof.
  split.
  - intros H. split; [now apply GetFilenameFromType_known|].
    intros ->. vm_compute in H. discriminate.
  - intros [<- Hknown]. now apply FindIconType_known.
Qed.

(** X16: a word that the encoder writes at the end of a stream is read
    back by the decoder from that offset as its value modulo 2^32, and
    the stream is then at its end again. *)
Theorem written_word_is_read_back (v : Z) (f : FILE) :
  at_end f ->
  Readicns.ReadUint32
    (fseek_set (List.length (f_data f)) (Createicns.WriteUint32 v f))
  = (to_uint32 v,
     mkFILE (f_data f ++ htonl (to_uint32 v))
       (List.length (f_data f) + 4) false).
Proof.
  intros Hend. rewrite (WriteUint32_at_end _ _ Hend).
  unfold fseek_set. cbn [f_data].
  rewrite (ReadUint32_htonl _ (to_uint32 v) []).
  - reflexivity.
  - apply to_uint32_range.
  - unfold unread. cbn [f_data f_pos].
    now rewrite skipn_app, skipn_all, Nat.sub_diag, app_nil_r.
Qed.

Lemma written_word_is_read_back_witness :
  Readicns.ReadUint32
    (fseek_set 4 (Createicns.WriteUint32 (2 ^ 32 + 7)
                    (mkFILE (list_byte_of_string "icns") 4 false)))
  = (7, mkFILE (list_byte_of_string "icns" ++ [x00; x00; x00; x07]) 8 false).
Proof.
  apply (written_word_is_read_back (2 ^ 32 + 7)
           (mkFILE (list_byte_of_string "icns") 4 false)).
  reflexivity.
Defined.

End Tables.

(** ** The names of the two programs *)

Section Names.
Import Libc Readicns Format Layout Examples.

(** X17: the names of the two programs are inverse to each other: for a
    stem without slash in which ".icns" does not occur before the end of
    stem.icns, the encoder writes stem.icns for a directory stem.iconset
    and the decoder makes stem.iconset for a file stem.icns. *)
Theorem names_round_trip (o : os) (pre pre' stem : string) (w w' : world) :
  pre = "" \/ (exists q, pre = (q ++ "/")%string) ->
  pre' = "" \/ (exists q, pre' = (q ++ "/")%string) ->
  stem <> "" ->
  lacks "/" stem = true ->
  strstr (stem ++ ".icns") ".icns" = Some (String.length stem) ->
  (String.length stem + 9 <= MAXPATHLEN)%nat ->
  create_ok o (stem ++ ".icns")%string = true ->
  fst (Createicns.OpenIcnsFileForIconset o (pre ++ stem ++ ".iconset") w)
  = Some ((stem ++ ".icns")%string,
          mkFILE (htonl (to_uint32 Createicns.kMagicHeader) ++ htonl 0)
            8 false)
  /\ GetIconsetPath (pre' ++ stem ++ ".icns") w'
     = ((stem ++ ".iconset")%string, w').
Proof.
  intros Hpre Hpre' Hstem Hlacks Hfirst Hfit Hcreate.
  assert (Hne : forall ext, (stem ++ ext)%string <> "")
    by (intros ext; destruct stem; [congruence | discriminate]).
  split.
  - rewrite (OpenIcnsFileForIconset_iconset o _ stem w Hstem);
      [reflexivity | | exact Hcreate].
    unfold Createicns.basename_r.
    apply (Basename_plain pre (stem ++ ".iconset") Hpre (Hne _)).
    + now rewrite lacks_append, Hlacks.
    + rewrite length_append. cbn [String.length]. lia.
  - apply GetIconsetPath_suffix; [|exact Hfirst | exact Hfit].
    apply (Basename_plain pre' (stem ++ ".icns") Hpre' (Hne _)).
    + now rewrite lacks_append, Hlacks.
    + rewrite length_append. cbn [String.length]. lia.
Qed.

Lemma names_round_trip_witness :
  fst (Createicns.OpenIcnsFileForIconset (single_icon png4)
         ("a/b/" ++ "app" ++ ".iconset") empty_world)
  = Some ("app.icns",
          mkFILE (htonl (to_uint32 Createicns.kMagicHeader) ++ htonl 0)
            8 false)
  /\ GetIconsetPath ("/usr/" ++ "app" ++ ".icns") empty_world
     = ("app.iconset", empty_world).
Proof.
  apply (names_round_trip (single_icon png4) "a/b/" "/usr/" "app"
           empty_world empty_world).
  - right. now exists "a/b".
  - right. now exists "/usr".
  - discriminate.
  - reflexivity.
  - reflexivity.
  - vm_compute. lia.
  - reflexivity.
Defined.

End Names.

(** ** Decoding, then encoding *)

Section DecodeEncode.
Import Libc Readicns Format Layout Examples.







End DecodeEncode.
